(** * 402ok-mcp: the payment lifecycle of [createPaidMcpHandler] and the
      facilitator gateway [callFacilitator]

    A shallow embedding of [src/server.ts] (tool registration and the
    [tools/list] and [tools/call] handlers), [src/utils/facilitator.ts]
    and [src/utils/okx-signature.ts], and the properties of the
    lifecycle: verify, execute, settle.

    How the program is modelled:
    - JavaScript values by an inductive type; an object is the ordered list
      of its own properties, and what it inherits from [Object.prototype]
      is modelled where the program can reach it: in the conversion to a
      string and in the lookup of a facilitator by network name; strings
      are byte strings in UTF-8, so that lengths, indices and upper-casing
      agree with JavaScript on ASCII text;
    - numbers by IEEE-754 binary64 values, the Standard Library's
      [spec_float], with [parseFloat], multiplication, [Math.floor] and
      [Number::toString] computed exactly;
    - the facilitator table and the store of tool-result objects by
      [gmap]s: a callback returns a reference into the store, and the
      handler's update of [result._meta] is an update of the store, which
      a frozen or non-extensible object refuses;
    - the asynchronous code by a state-and-exception monad; the state is
      the trace of events and the store;
    - the platform (clock, network, HMAC, base64 and JSON decoding, the
      process environment) by a record of oracles, and each tool's schema
      and callback by functions in its definition;
    - a Zod schema, where [tools/list] translates it, by the class it is
      an instance of and the parts that the translation reads.
    Console logging is left out. *)

From Stdlib Require Import ZArith Ascii DecimalString.
From Stdlib Require Import Floats.SpecFloat.
From stdpp Require Import gmap strings list.

Set Warnings "-register-all".
Local Open Scope Z_scope.

(** ** JavaScript numbers *)

Module JSNumber.

Definition prec : Z := 53.
Definition emax : Z := 1024.

Definition number : Type := spec_float.

(** The Number value of an integer literal. *)
Definition of_Z (z : Z) : number := binary_normalize prec emax z 0 false.

(** [x * y] *)
Definition mul (x y : number) : number := SFmul prec emax x y.

(** [Math.floor(x)] *)
Definition Math_floor (x : number) : number :=
  match x with
  | S754_finite s m e =>
      if 0 <=? e then x
      else
        let d := 2 ^ (- e) in
        let q := if s then - ((Z.pos m + d - 1) / d) else Z.pos m / d in
        binary_normalize prec emax q 0 false
  | _ => x
  end.

Definition is_finite (x : number) : bool :=
  match x with
  | S754_zero _ | S754_finite _ _ _ => true
  | _ => false
  end.

(** *** Reading a decimal literal: [parseFloat] *)

Definition is_digit (c : ascii) : bool :=
  let n := nat_of_ascii c in (48 <=? n)%nat && (n <=? 57)%nat.

Definition digit_val (c : ascii) : Z := Z.of_nat (nat_of_ascii c) - 48.

(** The longest run of [DecimalDigits] at the head of [s]: the value
    accumulated onto [acc], the number of digits read, and the rest. *)
Fixpoint read_digits (s : string) (acc : Z) (n : nat) : Z * nat * string :=
  match s with
  | String c s' =>
      if is_digit c then read_digits s' (10 * acc + digit_val c) (S n)
      else (acc, n, s)
  | EmptyString => (acc, n, s)
  end.

(** [ExponentPart], when one is present at the head of [s]; 0 otherwise. *)
Definition read_exponent (s : string) : Z :=
  match s with
  | String c s' =>
      if (Ascii.eqb c "e" || Ascii.eqb c "E")%bool then
        match s' with
        | String c' s'' =>
            if Ascii.eqb c' "+" then (read_digits s'' 0 0).1.1
            else if Ascii.eqb c' "-" then - (read_digits s'' 0 0).1.1
            else (read_digits s' 0 0).1.1
        | EmptyString => 0
        end
      else 0
  | EmptyString => 0
  end.

(** The longest prefix of [s] that is a [StrUnsignedDecimalLiteral] other
    than [Infinity], as a pair [(M, E)] standing for [M * 10^E]. *)
Definition read_unsigned (s : string) : option (Z * Z) :=
  let '(i, ni, r) := read_digits s 0 0 in
  let point :=
    match r with
    | String c r' => if Ascii.eqb c "." then Some r' else None
    | EmptyString => None
    end in
  match point with
  | Some r' =>
      let '(f, nf, r'') := read_digits r' i 0 in
      if ((ni =? 0)%nat && (nf =? 0)%nat)%bool then None
      else Some (f, read_exponent r'' - Z.of_nat nf)
  | None => if (ni =? 0)%nat then None else Some (i, read_exponent r)
  end.

(** The Number value for [M * 10^E] (round to nearest, ties to even). *)
Definition of_decimal (sign : bool) (M E : Z) : number :=
  match M with
  | Z.pos m =>
      if 0 <=? E then binary_round prec emax sign (m * Z.to_pos (10 ^ E)) 0
      else
        let '(q, e, l) :=
          SFdiv_core_binary prec emax (Z.pos m) 0 (10 ^ (- E)) 0 in
        binary_round_aux prec emax sign q e l
  | _ => S754_zero sign
  end.

Fixpoint starts_with (p s : string) : bool :=
  match p, s with
  | EmptyString, _ => true
  | String a p', String b s' => Ascii.eqb a b && starts_with p' s'
  | _, _ => false
  end.

(** [TrimString(s, start)]: white space and line terminators, in their
    UTF-8 encodings, are removed from the head of [s]. *)
Definition white_space : list string :=
  [ String "009" ""; String "010" ""; String "011" ""; String "012" "";
    String "013" ""; String "032" "";
    String "194" (String "160" "");
    String "225" (String "154" (String "128" ""));
    String "226" (String "128" (String "128" ""));
    String "226" (String "128" (String "129" ""));
    String "226" (String "128" (String "130" ""));
    String "226" (String "128" (String "131" ""));
    String "226" (String "128" (String "132" ""));
    String "226" (String "128" (String "133" ""));
    String "226" (String "128" (String "134" ""));
    String "226" (String "128" (String "135" ""));
    String "226" (String "128" (String "136" ""));
    String "226" (String "128" (String "137" ""));
    String "226" (String "128" (String "138" ""));
    String "226" (String "128" (String "168" ""));
    String "226" (String "128" (String "169" ""));
    String "226" (String "128" (String "175" ""));
    String "226" (String "129" (String "159" ""));
    String "227" (String "128" (String "128" ""));
    String "239" (String "187" (String "191" "")) ].

Fixpoint drop_string (n : nat) (s : string) : string :=
  match n, s with
  | S n', String _ s' => drop_string n' s'
  | _, _ => s
  end.

Definition leading_space (s : string) : option string :=
  find (fun w => starts_with w s) white_space.

Fixpoint trim_start_fuel (fuel : nat) (s : string) : string :=
  match fuel with
  | O => s
  | S fuel' =>
      match leading_space s with
      | Some w => trim_start_fuel fuel' (drop_string (String.length w) s)
      | None => s
      end
  end.

Definition trim_start (s : string) : string :=
  trim_start_fuel (String.length s) s.

(** [parseFloat(s)] *)
Definition parseFloat (s : string) : number :=
  let t := trim_start s in
  let '(sign, u) :=
    match t with
    | String c r =>
        if Ascii.eqb c "+" then (false, r)
        else if Ascii.eqb c "-" then (true, r)
        else (false, t)
    | EmptyString => (false, t)
    end in
  if starts_with "Infinity" u then S754_infinity sign
  else match read_unsigned u with
       | Some (M, E) => of_decimal sign M E
       | None => S754_nan
       end.

(** *** Printing: [Number::toString] in radix 10 *)

Definition string_of_nonneg (z : Z) : string :=
  NilZero.string_of_uint (N.to_uint (Z.to_N z)).

(** For [x = m * 2^e > 0]: among the multiples [s * 10^t] of [10^t] whose
    Number value is [x], the [s] for which [s * 10^t] is closest to [x]
    (an even [s] on a tie), if there is one.  The reals that round to [x]
    form the interval from half way to the predecessor of [x] up to half
    way to its successor, end points included when [m] is even. *)
Definition digits_at (m : positive) (e : Z) (t : Z) : option Z :=
  let X := 4 * Z.pos m in
  let LO :=
    X - (if ((Z.pos m =? 2 ^ (prec - 1)) && (emin prec emax <? e))%bool
         then 1 else 2) in
  let HI := X + 2 in
  let E := e - 2 in
  let A := 2 ^ Z.max E 0 * 10 ^ Z.max (- t) 0 in
  let D := 2 ^ Z.max (- E) 0 * 10 ^ Z.max t 0 in
  let closed := Z.even (Z.pos m) in
  let inside (s : Z) :=
    ((0 <? s)
     && (if closed then LO * A <=? s * D else LO * A <? s * D)
     && (if closed then s * D <=? HI * A else s * D <? HI * A))%bool in
  let s0 := (X * A) / D in
  let s1 := s0 + 1 in
  let d0 := X * A - s0 * D in
  let d1 := s1 * D - X * A in
  let order :=
    if d0 <? d1 then [s0; s1]
    else if d1 <? d0 then [s1; s0]
    else if Z.even s0 then [s0; s1] else [s1; s0] in
  find inside order.

(** The largest [t] at or below [t0] that has such an [s], with that [s]. *)
Fixpoint shortest_from (fuel : nat) (m : positive) (e : Z) (t0 : Z)
  : option (Z * Z) :=
  match fuel with
  | O => None
  | S fuel' =>
      match digits_at m e t0 with
      | Some s => Some (s, t0)
      | None => shortest_from fuel' m e (t0 - 1)
      end
  end.

(** The digits [s] and the exponent [t] of the shortest decimal [s * 10^t]
    whose Number value is [m * 2^e].  The search starts above the decimal
    magnitude of the value and stops at the first hit, which comes within
    some twenty steps, seventeen digits being enough for any binary64
    value; the fuel is never used up. *)
Definition shortest (m : positive) (e : Z) : Z * Z :=
  let t0 := ((Z.pos (digits2_pos m) + e + 1) * 30103) / 100000 + 2 in
  default (0, 0) (shortest_from 400 m e t0).

Fixpoint zeros (n : nat) : string :=
  match n with O => "" | S n' => String "0" (zeros n') end.

Fixpoint take_string (n : nat) (s : string) : string :=
  match n, s with
  | S n', String c s' => String c (take_string n' s')
  | _, _ => ""
  end.

Definition toString_finite (m : positive) (e : Z) : string :=
  let '(s, t) := shortest m e in
  let ds := string_of_nonneg s in
  let k := Z.of_nat (String.length ds) in
  let n := k + t in
  if ((k <=? n) && (n <=? 21))%bool then ds +:+ zeros (Z.to_nat (n - k))
  else if ((0 <? n) && (n <=? 21))%bool then
    take_string (Z.to_nat n) ds +:+ "." +:+ drop_string (Z.to_nat n) ds
  else if ((-6 <? n) && (n <=? 0))%bool then
    "0." +:+ zeros (Z.to_nat (- n)) +:+ ds
  else
    let ex := n - 1 in
    let tail :=
      "e" +:+ (if ex <? 0 then "-" else "+") +:+ string_of_nonneg (Z.abs ex) in
    if k =? 1 then ds +:+ tail
    else take_string 1 ds +:+ "." +:+ drop_string 1 ds +:+ tail.

Definition toString (x : number) : string :=
  match x with
  | S754_nan => "NaN"
  | S754_zero _ => "0"
  | S754_infinity s => if s then "-Infinity" else "Infinity"
  | S754_finite s m e =>
      (if s then "-" else "") +:+ toString_finite m e
  end.

End JSNumber.

(** ** JavaScript values *)

Module JS.
Import JSNumber.

(** The values that cross the boundaries of the program: what
    [JSON.parse] produces, plus [undefined].  An object is the list of
    its own properties in property order. *)
Inductive value :=
| VUndefined
| VNull
| VBool (b : bool)
| VNum (x : number)
| VStr (s : string)
| VArr (items : list value)
| VObj (fields : list (string * value)).

(** Thrown values: an [Error] instance with its message, or anything
    else, given by what [String()] makes of it (a thrown value on which
    [String()] itself throws is not modelled). *)
Inductive exn :=
| ErrorObj (message : string)
| Thrown (text : string).

(** [ToBoolean] *)
Definition truthy (v : value) : bool :=
  match v with
  | VUndefined | VNull => false
  | VBool b => b
  | VNum x =>
      match x with
      | S754_zero _ | S754_nan => false
      | _ => true
      end
  | VStr s => negb (String.eqb s "")
  | VArr _ | VObj _ => true
  end.

(** [a || b] *)
Definition or_else (a b : value) : value := if truthy a then a else b.

Fixpoint join (sep : string) (l : list string) : string :=
  match l with
  | [] => ""
  | [x] => x
  | x :: r => x +:+ sep +:+ join sep r
  end.

(** *** Own properties *)

Fixpoint obj_get (k : string) (fs : list (string * value)) : option value :=
  match fs with
  | [] => None
  | (k', v) :: r => if String.eqb k' k then Some v else obj_get k r
  end.

(** [ToString] (template-literal interpolation, the message of
    [new Error(v)], [ToPropertyKey]).  An object is converted by the
    method [toString] that it has: a plain object inherits one that gives
    ["[object Object]"], but an own property [toString], which in a value
    made by [JSON.parse] is never callable, hides it, and the conversion
    throws a [TypeError]; an array joins the conversions of its
    elements. *)
Fixpoint ToString (v : value) : exn + string :=
  match v with
  | VUndefined => inr "undefined"
  | VNull => inr "null"
  | VBool b => inr (if b then "true" else "false")
  | VNum x => inr (toString x)
  | VStr s => inr s
  | VArr items =>
      match
        (fix elements (items : list value) : exn + list string :=
           match items with
           | [] => inr []
           | i :: rest =>
               match
                 match i with
                 | VUndefined | VNull => inr ""
                 | _ => ToString i
                 end
               with
               | inl e => inl e
               | inr s =>
                   match elements rest with
                   | inl e => inl e
                   | inr l => inr (s :: l)
                   end
               end
           end) items
      with
      | inl e => inl e
      | inr l => inr (join "," l)
      end
  | VObj fs =>
      match obj_get "toString" fs with
      | Some _ => inl (ErrorObj "Cannot convert object to primitive value")
      | None => inr "[object Object]"
      end
  end.

(** [o[k] = v]: an existing property keeps its place, a new one goes
    last. *)
Fixpoint obj_set (k : string) (v : value) (fs : list (string * value))
  : list (string * value) :=
  match fs with
  | [] => [(k, v)]
  | (k', v') :: r =>
      if String.eqb k' k then (k', v) :: r else (k', v') :: obj_set k v r
  end.

(** [delete o[k]] *)
Fixpoint obj_delete (k : string) (fs : list (string * value))
  : list (string * value) :=
  match fs with
  | [] => []
  | (k', v') :: r =>
      if String.eqb k' k then obj_delete k r else (k', v') :: obj_delete k r
  end.

Definition index_key (i : nat) : string := string_of_nonneg (Z.of_nat i).

Fixpoint indexed {A} (i : nat) (l : list A) : list (string * A) :=
  match l with
  | [] => []
  | x :: r => (index_key i, x) :: indexed (S i) r
  end.

Fixpoint chars (s : string) : list value :=
  match s with
  | EmptyString => []
  | String c r => VStr (String c "") :: chars r
  end.

(** The own enumerable properties that [{ ...v }] copies. *)
Definition spread (v : value) : list (string * value) :=
  match v with
  | VObj fs => fs
  | VArr items => indexed 0 items
  | VStr s => indexed 0 (chars s)
  | _ => []
  end.

Definition length_value (n : nat) : value := VNum (of_Z (Z.of_nat n)).

(** [v[k]] for a [v] that is neither [undefined] nor [null], on own
    properties: the program reads from the values it receives only keys
    that no prototype has ([network], [isValid], [code], ...) and
    [length]. *)
Definition prop (v : value) (k : string) : value :=
  match v with
  | VObj fs => default VUndefined (obj_get k fs)
  | VArr items =>
      if String.eqb k "length" then length_value (length items)
      else default VUndefined (obj_get k (indexed 0 items))
  | VStr s =>
      if String.eqb k "length" then length_value (String.length s)
      else default VUndefined (obj_get k (indexed 0 (chars s)))
  | _ => VUndefined
  end.

(** [v.k]: reading a property of [undefined] or [null] throws. *)
Definition get_prop (v : value) (k : string) : exn + value :=
  match v with
  | VUndefined =>
      inl (ErrorObj ("Cannot read properties of undefined (reading '"
                     +:+ k +:+ "')"))
  | VNull =>
      inl (ErrorObj ("Cannot read properties of null (reading '"
                     +:+ k +:+ "')"))
  | _ => inr (prop v k)
  end.

(** [v?.[k]] *)
Definition optional_prop (v : value) (k : string) : value :=
  match v with
  | VUndefined | VNull => VUndefined
  | _ => prop v k
  end.

(** *** [JSON.stringify] *)

Definition hex_digit (n : nat) : ascii :=
  ascii_of_nat (if (n <? 10)%nat then 48 + n else 87 + n).

Definition dquote : ascii := ascii_of_nat 34.

Definition quote_char (c : ascii) : string :=
  let n := nat_of_ascii c in
  if (n =? 34)%nat then String "\" (String dquote "")
  else if (n =? 92)%nat then "\\"
  else if (n =? 8)%nat then "\b"
  else if (n =? 9)%nat then "\t"
  else if (n =? 10)%nat then "\n"
  else if (n =? 12)%nat then "\f"
  else if (n =? 13)%nat then "\r"
  else if (n <? 32)%nat then
    "\u00" +:+ String (hex_digit (n / 16)) (String (hex_digit (n mod 16)) "")
  else String c "".

Fixpoint quote_body (s : string) : string :=
  match s with
  | EmptyString => ""
  | String c r => quote_char c +:+ quote_body r
  end.

(** [QuoteJSONString] *)
Definition quote (s : string) : string :=
  String dquote (quote_body s +:+ String dquote "").

(** [SerializeJSONProperty]: [None] stands for [undefined]. *)
Fixpoint serialize (v : value) : option string :=
  match v with
  | VUndefined => None
  | VNull => Some "null"
  | VBool b => Some (if b then "true" else "false")
  | VNum x => Some (if is_finite x then toString x else "null")
  | VStr s => Some (quote s)
  | VArr items =>
      Some ("[" +:+ join "," (map (fun i => default "null" (serialize i)) items)
            +:+ "]")
  | VObj fs =>
      let members :=
        (fix go (fs : list (string * value)) : list string :=
           match fs with
           | [] => []
           | (k, x) :: r =>
               match serialize x with
               | Some s => (quote k +:+ ":" +:+ s) :: go r
               | None => go r
               end
           end) fs in
      Some ("{" +:+ join "," members +:+ "}")
  end.

Definition JSON_stringify (v : value) : option string := serialize v.

End JS.

Import JSNumber JS.

(** ** Data model ([src/types.ts]) *)

Record OKXCredentials := {
  apiKey : string;
  secretKey : string;
  passphrase : string;
}.

Record PaymentExtraConfig := {
  cfg_description : option string;
  cfg_metadata : option (list (string * value));
}.

(** Payment configuration for a single network. *)
Record PaymentConfig := {
  price : string;
  chainId : number;
  token : string;
  usdcName : string;
  usdcVersion : string;
  network : string;
  config : option PaymentExtraConfig;
}.

Inductive FacilitatorType := okx | standard.

Record FacilitatorConfig := {
  url : string;
  type : option FacilitatorType;
  okxCredentials : option OKXCredentials;
}.

Record ServerConfig := {
  recipient : string;
  facilitators : gmap string FacilitatorConfig;
}.

Inductive ContentType := text_block | image_block | resource_block.

Record ContentBlock := {
  block_type : ContentType;
  text : option string;
  data : option string;
  mimeType : option string;
}.

Record ToolResult := {
  content : list ContentBlock;
  isError : option bool;
  _meta : option (list (string * value));
}.

(** ** The environment and the effects *)

Abbreviation loc := positive.

Record HttpRequest := {
  req_url : string;
  req_method : string;
  req_headers : list (string * string);
  req_body : option string;
}.

(** A [Response]: its [ok] flag and what [text()] and [json()] give. *)
Record Response := {
  ok : bool;
  res_text : exn + string;
  res_json : exn + value;
}.

Inductive Action := verify | settle.

Definition action_name (a : Action) : string :=
  match a with verify => "verify" | settle => "settle" end.

(** What a call does to the outside world, in order: an HTTP request sent
    by [fetch] with what came back, the return of a [callFacilitator]
    call, and a run of a tool's callback with the store as it left it. *)
Inductive Event :=
| EvFetch (req : HttpRequest) (res : exn + Response)
| EvFacilitator (action : Action) (res : exn + value)
| EvHandler (tool : string) (args extra : value) (res : exn + loc)
    (store : gmap loc ToolResult).

(** The state threaded through a call: the events so far and the store of
    the tool-result objects, which callbacks create and may keep. *)
Record State := {
  trace : list Event;
  heap : gmap loc ToolResult;
}.

(** The platform: each oracle may depend on everything that happened
    before it is asked. *)
Record Env := {
  (** [new Date().toISOString()] *)
  now : list Event -> string;
  (** [fetch(url, options)] *)
  net : list Event -> HttpRequest -> exn + Response;
  (** [crypto.createHmac("sha256", key).update(msg).digest("base64")] *)
  hmac_sha256_base64 : string -> string -> string;
  (** [JSON.parse(Buffer.from(payment, "base64").toString("utf-8"))] *)
  JSON_parse_base64 : value -> exn + value;
  (** [process.env.URL] *)
  env_URL : option string;
  (** The assignments [result._meta = {}] and
      [result._meta["x402.payment-response"] = ...] on the object at a
      location (the module is strict code): the [TypeError] that they
      throw when the object, or its [_meta], is frozen, sealed or not
      extensible; [None] when they go through *)
  refused_write : list Event -> loc -> option exn;
}.

Record ToolDefinition := {
  name : string;
  description : string;
  (** [paramsSchema.parse] *)
  paramsSchema : value -> exn + value;
  (** The callback: from the arguments, the call's metadata and the state
      it runs in to what it returns or throws, and the store it leaves. *)
  callback : value -> value -> State -> (exn + loc) * gmap loc ToolResult;
  paymentOptions : option (list PaymentConfig);
}.

(** [request.params] of a [tools/call] request. *)
Record CallToolRequest := {
  params_name : string;
  params_arguments : value;
  params_meta : value;
}.

(** What the request handler resolves to: an object it has just built, or
    the very object the callback returned. *)
Inductive Reply :=
| NewResult (r : ToolResult)
| HandlerResult (l : loc).

(** *** The monad of asynchronous code: state and exceptions *)

Inductive Outcome (A : Type) :=
| Normal (a : A)
| Throw (e : exn).
Arguments Normal {A} a.
Arguments Throw {A} e.

Definition M (A : Type) : Type := State -> Outcome A * State.

Definition ret {A} (a : A) : M A := fun st => (Normal a, st).

Definition throw {A} (e : exn) : M A := fun st => (Throw e, st).

Definition bind {A B} (m : M A) (k : A -> M B) : M B :=
  fun st =>
    match m st with
    | (Normal a, st') => k a st'
    | (Throw e, st') => (Throw e, st')
    end.

(** [try { m } catch (error) { h error }] *)
Definition try_catch {A} (m : M A) (h : exn -> M A) : M A :=
  fun st =>
    match m st with
    | (Normal a, st') => (Normal a, st')
    | (Throw e, st') => h e st'
    end.

Definition lift {A} (r : exn + A) : M A :=
  match r with
  | inl e => throw e
  | inr a => ret a
  end.

Definition sum_of {A} (o : Outcome A) : exn + A :=
  match o with
  | Normal a => inr a
  | Throw e => inl e
  end.

Definition record (ev : Event) (st : State) : State :=
  {| trace := trace st ++ [ev]; heap := heap st |}.

Notation "x <- m ;; k" := (bind m (fun x => k))
  (at level 100, m at next level, right associativity).
Notation "m ;;; k" := (bind m (fun _ => k))
  (at level 100, right associativity).

Section Program.

Variable env : Env.

(** [await fetch(url, options)] *)
Definition fetch (req : HttpRequest) : M Response :=
  fun st =>
    let res := net env (trace st) req in
    (match res with inl e => Throw e | inr r => Normal r end,
     record (EvFetch req res) st).

(** *** [src/utils/okx-signature.ts] *)

Definition upper_char (c : ascii) : ascii :=
  let n := nat_of_ascii c in
  if ((97 <=? n)%nat && (n <=? 122)%nat)%bool then ascii_of_nat (n - 32) else c.

(** [s.toUpperCase()], on ASCII letters. *)
Fixpoint toUpperCase (s : string) : string :=
  match s with
  | EmptyString => ""
  | String c r => String (upper_char c) (toUpperCase r)
  end.

Definition generateOKXHeaders (method requestPath body : string)
    (credentials : OKXCredentials) : M (list (string * string)) :=
  fun st =>
    let timestamp := now env (trace st) in
    let prehashString :=
      timestamp +:+ toUpperCase method +:+ requestPath +:+ body in
    let signature :=
      hmac_sha256_base64 env (secretKey credentials) prehashString in
    (Normal [ ("Content-Type", "application/json");
              ("OK-ACCESS-KEY", apiKey credentials);
              ("OK-ACCESS-SIGN", signature);
              ("OK-ACCESS-PASSPHRASE", passphrase credentials);
              ("OK-ACCESS-TIMESTAMP", timestamp) ], st).

Definition makeOKXRequest (url method requestPath : string) (body : value)
    (credentials : OKXCredentials) : M Response :=
  let bodyString :=
    if String.eqb (toUpperCase method) "GET" then Some ""
    else JSON_stringify body in
  headers <- generateOKXHeaders method requestPath
               (default "undefined" bodyString) credentials ;;
  match bodyString with
  | None =>
      (* [bodyString.substring(0, 500)] in the request log *)
      throw (ErrorObj
               "Cannot read properties of undefined (reading 'substring')")
  | Some b =>
      fetch {| req_url := url;
               req_method := toUpperCase method;
               req_headers := headers;
               req_body :=
                 if (negb (String.eqb (toUpperCase method) "GET")
                     && negb (String.eqb b ""))%bool
                 then Some b else None |}
  end.

(** *** [src/utils/facilitator.ts] *)

Definition is_okx (facilitator : FacilitatorConfig) : bool :=
  match type facilitator with Some okx => true | _ => false end.

(** The payload that [callFacilitator] builds and shapes by facilitator
    type. *)
Definition facilitatorPayload (facilitator : FacilitatorConfig)
    (paymentConfig : PaymentConfig) (decodedPayment paymentRequirements : value)
  : value :=
  let paymentPayload := spread decodedPayment in
  let requirements := spread paymentRequirements in
  if is_okx facilitator then
    VObj [ ("x402Version", VNum (of_Z 1));
           ("paymentPayload", VObj (obj_delete "network" paymentPayload));
           ("paymentRequirements", VObj (obj_delete "network" requirements));
           ("chainIndex", VStr (toString (chainId paymentConfig))) ]
  else
    VObj [ ("x402Version", VNum (of_Z 1));
           ("paymentPayload", VObj paymentPayload);
           ("paymentRequirements",
             VObj (obj_set "network" (VStr (network paymentConfig))
                     requirements)) ].

(** What [throw new Error(v)] throws: the [Error], whose message is
    [ToString(v)] (empty for [undefined]), or what that conversion
    throws. *)
Definition new_Error (v : value) : exn :=
  match v with
  | VUndefined => ErrorObj ""
  | _ =>
      match ToString v with
      | inr message => ErrorObj message
      | inl e => e
      end
  end.

(** The response parsing at the end of [callFacilitator]. *)
Definition parseFacilitatorResult (facilitator : FacilitatorConfig)
    (result : value) : exn + value :=
  if is_okx facilitator then
    match get_prop result "code" with
    | inl e => inl e
    | inr code =>
        let data := prop result "data" in
        let failure :=
          new_Error (or_else (prop result "msg") (VStr "OKX facilitator error")) in
        let wrong_code :=
          match code with
          | VStr c => negb (String.eqb c "0")
          | _ => true
          end in
        if (wrong_code || negb (truthy data))%bool then inl failure
        else
          match prop data "length" with
          | VNum (S754_zero _) => inl failure
          | _ => inr (prop data "0")
          end
    end
  else inr result.

(** Call facilitator to verify or settle payment. *)
Definition callFacilitator (action : Action) (facilitator : FacilitatorConfig)
    (paymentConfig : PaymentConfig) (decodedPayment paymentRequirements : value)
  : M value :=
  fun st =>
    let payload :=
      facilitatorPayload facilitator paymentConfig decodedPayment
        paymentRequirements in
    let call : M value :=
      response <-
        match type facilitator, okxCredentials facilitator with
        | Some okx, Some credentials =>
            let requestPath := "/api/v6/x402/" +:+ action_name action in
            makeOKXRequest (url facilitator +:+ requestPath) "POST"
              requestPath payload credentials
        | _, _ =>
            fetch {| req_url := url facilitator +:+ "/" +:+ action_name action;
                     req_method := "POST";
                     req_headers := [("Content-Type", "application/json")];
                     req_body := JSON_stringify payload |}
        end ;;
      if negb (ok response) then
        errorText <- lift (res_text response) ;;
        throw (ErrorObj ("Facilitator " +:+ action_name action +:+ " failed: "
                         +:+ errorText))
      else
        result <- lift (res_json response) ;;
        lift (parseFacilitatorResult facilitator result) in
    let '(out, st') := call st in
    (out, record (EvFacilitator action (sum_of out)) st').

(** *** [src/server.ts]: the [tools/call] handler of
    [createPaidMcpHandler] *)

Section Handler.

(** The registered tools and the server configuration. *)
Variable tools : list ToolDefinition.
Variable server_config : ServerConfig.

(** [process.env.URL || "http://localhost:3000"] *)
Definition baseURL : string :=
  match env_URL env with
  | Some u => if String.eqb u "" then "http://localhost:3000" else u
  | None => "http://localhost:3000"
  end.

Definition resourceOf (toolName : string) : string :=
  baseURL +:+ "/mcp/tools/" +:+ toolName.

(** [Math.floor(parseFloat(price) * 1_000_000).toString()] *)
Definition priceInSmallestUnit (price : string) : string :=
  toString (Math_floor (mul (parseFloat price) (of_Z 1000000))).

(** [cfg.config?.description || toolDef.description] *)
Definition descriptionOf (cfg : PaymentConfig) (toolDef : ToolDefinition)
  : string :=
  match config cfg with
  | Some c =>
      match cfg_description c with
      | Some d => if String.eqb d "" then description toolDef else d
      | None => description toolDef
      end
  | None => description toolDef
  end.

Definition extraOf (cfg : PaymentConfig) : value :=
  VObj [ ("name", VStr (usdcName cfg)); ("version", VStr (usdcVersion cfg)) ].

(** One entry of [accepts] in the payment-required response. *)
Definition acceptsEntry (toolDef : ToolDefinition) (toolName : string)
    (cfg : PaymentConfig) : value :=
  VObj [ ("scheme", VStr "exact");
         ("network", VStr (network cfg));
         ("maxAmountRequired", VStr (priceInSmallestUnit (price cfg)));
         ("payTo", VStr (recipient server_config));
         ("asset", VStr (token cfg));
         ("maxTimeoutSeconds", VNum (of_Z 300));
         ("resource", VStr (resourceOf toolName));
         ("mimeType", VStr "application/json");
         ("description", VStr (descriptionOf cfg toolDef));
         ("extra", extraOf cfg) ].

(** The [paymentRequirements] handed to the facilitator. *)
Definition buildPaymentRequirements (toolDef : ToolDefinition)
    (toolName : string) (selectedConfig : PaymentConfig) : value :=
  VObj [ ("scheme", VStr "exact");
         ("maxAmountRequired",
         VStr (priceInSmallestUnit (price selectedConfig)));
         ("payTo", VStr (recipient server_config));
         ("asset", VStr (token selectedConfig));
         ("maxTimeoutSeconds", VNum (of_Z 300));
         ("resource", VStr (resourceOf toolName));
         ("mimeType", VStr "application/json");
         ("description", VStr (descriptionOf selectedConfig toolDef));
         ("extra", extraOf selectedConfig) ].

(** [{ isError: true, content: [{ type: "text", text: JSON.stringify(payload) }] }] *)
Definition errorResult (payload : value) : ToolResult :=
  {| content := [ {| block_type := text_block;
                     text := JSON_stringify payload;
                     data := None;
                     mimeType := None |} ];
     isError := Some true;
     _meta := None |}.

Definition paymentRequired (toolDef : ToolDefinition) (toolName : string)
    (paymentConfigs : list PaymentConfig) : ToolResult :=
  errorResult
    (VObj [ ("x402Version", VNum (of_Z 1));
            ("error", VStr "_meta.x402.payment is required");
            ("accepts",
              VArr (map (acceptsEntry toolDef toolName) paymentConfigs)) ]).

(** [error instanceof Error ? error.message : String(error)] *)
Definition error_details (error : exn) : string :=
  match error with
  | ErrorObj message => message
  | Thrown text => text
  end.

(** [await toolDef.callback(args, request.params._meta)] *)
Definition invoke (toolDef : ToolDefinition) (args extra : value) : M loc :=
  fun st =>
    let '(res, h) := callback toolDef args extra st in
    (match res with inl e => Throw e | inr l => Normal l end,
     {| trace := trace st ++ [EvHandler (name toolDef) args extra res h];
        heap := h |}).

(** [result.isError], where a dangling [result] stands for a callback
    that returned [undefined]. *)
Definition read_isError (result : loc) : M bool :=
  fun st =>
    match heap st !! result with
    | Some r => (Normal (default false (isError r)), st)
    | None =>
        (Throw (ErrorObj
                  "Cannot read properties of undefined (reading 'isError')"),
         st)
    end.

Definition with_payment_response (r : ToolResult) (v : value) : ToolResult :=
  {| content := content r;
     isError := isError r;
     _meta := Some (obj_set "x402.payment-response" v (default [] (_meta r))) |}.

(** [if (!result._meta) result._meta = {};
     result._meta["x402.payment-response"] = v]: an object that refuses
    the write is left as it is, and the assignment throws. *)
Definition set_payment_response (result : loc) (v : value) : M unit :=
  fun st =>
    match heap st !! result with
    | Some r =>
        match refused_write env (trace st) result with
        | Some error => (Throw error, st)
        | None =>
            (Normal tt,
             {| trace := trace st;
                heap := <[result := with_payment_response r v]> (heap st) |})
        end
    | None =>
        (Throw (ErrorObj
                  "Cannot read properties of undefined (reading '_meta')"),
         st)
    end.

(** The members that a plain object inherits from [Object.prototype]. *)
Definition Object_prototype_members : list string :=
  [ "constructor"; "__defineGetter__"; "__defineSetter__"; "hasOwnProperty";
    "__lookupGetter__"; "__lookupSetter__"; "isPrototypeOf";
    "propertyIsEnumerable"; "toString"; "valueOf"; "__proto__";
    "toLocaleString" ].

Definition is_Object_prototype_member (key : string) : bool :=
  existsb (String.eqb key) Object_prototype_members.

(** An inherited member read as a facilitator: it is truthy, its [type]
    and [okxCredentials] are [undefined], and so is its [url], which the
    URL templates write as [undefined]. *)
Definition inherited_member : FacilitatorConfig :=
  {| url := "undefined"; type := None; okxCredentials := None |}.

(** [config.facilitators[key]], the table being a plain object: the own
    entry of that name, or else the member of that name that the table
    inherits. *)
Definition lookupFacilitator (key : string) : option FacilitatorConfig :=
  match facilitators server_config !! key with
  | Some facilitator => Some facilitator
  | None =>
      if is_Object_prototype_member key then Some inherited_member else None
  end.

(** [cfg.network === selectedNetwork] *)
Definition network_is (selectedNetwork : value) (cfg : PaymentConfig) : bool :=
  match selectedNetwork with
  | VStr s => String.eqb (network cfg) s
  | _ => false
  end.

(** The inner [try] around settlement: [Some reply] when it returns
    from the handler, [None] when control falls through to
    [return result]. *)
Definition settlePayment (facilitator : FacilitatorConfig)
    (selectedConfig : PaymentConfig) (decodedPayment paymentRequirements : value)
    (result : loc) : M (option Reply) :=
  try_catch
    (settleResult <- callFacilitator settle facilitator selectedConfig
                       decodedPayment paymentRequirements ;;
     success <- lift (get_prop settleResult "success") ;;
     if negb (truthy success) then
       ret (Some (NewResult (errorResult
         (VObj [ ("error", VStr "Payment settlement failed");
                 ("details", or_else (prop settleResult "errorReason")
                               (VStr "Settlement unsuccessful")) ]))))
     else
       set_payment_response result
         (VObj [ ("settled", VBool true);
                 ("txHash", prop settleResult "txHash") ]) ;;;
       ret None)
    (fun error =>
       ret (Some (NewResult (errorResult
         (VObj [ ("error", VStr "Payment settlement error");
                 ("details", VStr (error_details error)) ]))))).

(** The body of the outer [try]: decode, match, verify, execute,
    settle. *)
Definition processPayment (toolDef : ToolDefinition)
    (request : CallToolRequest) (payment : value)
    (paymentConfigs : list PaymentConfig) : M Reply :=
  let toolName := params_name request in
  decodedPayment <- lift (JSON_parse_base64 env payment) ;;
  selectedNetwork <- lift (get_prop decodedPayment "network") ;;
  if negb (truthy selectedNetwork) then
    throw (ErrorObj "Payment payload must include 'network' field")
  else
    match find (network_is selectedNetwork) paymentConfigs with
    | None =>
        text <- lift (ToString selectedNetwork) ;;
        throw (ErrorObj ("Network '" +:+ text
                         +:+ "' is not an accepted payment option"))
    | Some selectedConfig =>
        key <- lift (ToString selectedNetwork) ;;
        match lookupFacilitator key with
        | None =>
            text <- lift (ToString selectedNetwork) ;;
            throw (ErrorObj ("No facilitator configured for network "
                             +:+ text))
        | Some facilitator =>
            let paymentRequirements :=
              buildPaymentRequirements toolDef toolName selectedConfig in
            verifyResult <- callFacilitator verify facilitator selectedConfig
                              decodedPayment paymentRequirements ;;
            isValid <- lift (get_prop verifyResult "isValid") ;;
            if negb (truthy isValid) then
              ret (NewResult (errorResult
                (VObj [ ("x402Version", VNum (of_Z 1));
                        ("error", VStr "Invalid payment");
                        ("details",
                          or_else (prop verifyResult "invalidReason")
                            (VStr "Payment verification failed")) ])))
            else
              args <- lift (paramsSchema toolDef (params_arguments request)) ;;
              result <- invoke toolDef args (params_meta request) ;;
              failed <- read_isError result ;;
              if failed then ret (HandlerResult result)
              else
                early <- settlePayment facilitator selectedConfig
                           decodedPayment paymentRequirements result ;;
                match early with
                | Some reply => ret reply
                | None => ret (HandlerResult result)
                end
        end
    end.

(** [server.setRequestHandler(CallToolRequestSchema, async (request) => ...)] *)
Definition handleCallTool (request : CallToolRequest) : M Reply :=
  let toolName := params_name request in
  match find (fun t => String.eqb (name t) toolName) tools with
  | None => throw (ErrorObj ("Tool not found: " +:+ toolName))
  | Some toolDef =>
      match paymentOptions toolDef with
      | None =>
          args <- lift (paramsSchema toolDef (params_arguments request)) ;;
          result <- invoke toolDef args (params_meta request) ;;
          ret (HandlerResult result)
      | Some paymentConfigs =>
          let payment := optional_prop (params_meta request) "x402.payment" in
          if negb (truthy payment) then
            ret (NewResult (paymentRequired toolDef toolName paymentConfigs))
          else
            try_catch
              (processPayment toolDef request payment paymentConfigs)
              (fun error =>
                 ret (NewResult (errorResult
                   (VObj [ ("error", VStr "Payment processing error");
                           ("details", VStr (error_details error)) ]))))
      end
  end.

End Handler.

End Program.

(** * Specification vocabulary *)

(** Which request a facilitator call sends, and how the answer is
    normalised: the two halves of [callFacilitator], stated separately. *)

Definition signedHeaders (env : Env) (credentials : OKXCredentials)
    (timestamp path body : string) : list (string * string) :=
  [ ("Content-Type", "application/json");
    ("OK-ACCESS-KEY", apiKey credentials);
    ("OK-ACCESS-SIGN",
      hmac_sha256_base64 env (secretKey credentials)
        (timestamp +:+ "POST" +:+ path +:+ body));
    ("OK-ACCESS-PASSPHRASE", passphrase credentials);
    ("OK-ACCESS-TIMESTAMP", timestamp) ].

Definition sentRequest (env : Env) (a : Action) (f : FacilitatorConfig)
    (payload : value) (tr : list Event) : HttpRequest :=
  match type f, okxCredentials f with
  | Some okx, Some credentials =>
      let path := "/api/v6/x402/" +:+ action_name a in
      {| req_url := url f +:+ path;
         req_method := "POST";
         req_headers :=
           signedHeaders env credentials (now env tr) path
             (default "" (JSON_stringify payload));
         req_body := JSON_stringify payload |}
  | _, _ =>
      {| req_url := url f +:+ "/" +:+ action_name a;
         req_method := "POST";
         req_headers := [("Content-Type", "application/json")];
         req_body := JSON_stringify payload |}
  end.

Definition answer (env : Env) (a : Action) (f : FacilitatorConfig)
    (payload : value) (tr : list Event) : exn + Response :=
  net env tr (sentRequest env a f payload tr).

Definition normalized (a : Action) (f : FacilitatorConfig) (r : exn + Response)
  : exn + value :=
  match r with
  | inl e => inl e
  | inr response =>
      if ok response then
        match res_json response with
        | inl e => inl e
        | inr result => parseFacilitatorResult f result
        end
      else
        match res_text response with
        | inl e => inl e
        | inr t =>
            inl (ErrorObj ("Facilitator " +:+ action_name a +:+ " failed: " +:+ t))
        end
  end.

Definition outcome_of {A} (r : exn + A) : Outcome A :=
  match r with
  | inl e => Throw e
  | inr a => Normal a
  end.

(** What an error result is to report of a thrown value: the message of
    an [Error], the string form of anything else. *)
Definition reported (error : exn) : value :=
  match error with
  | ErrorObj message => VStr message
  | Thrown text => VStr text
  end.

(** The error results of the handler, by name. *)

Definition processingError (error : exn) : ToolResult :=
  errorResult (VObj [ ("error", VStr "Payment processing error");
                      ("details", reported error) ]).

Definition invalidPayment (verifyResult : value) : ToolResult :=
  errorResult (VObj [ ("x402Version", VNum (of_Z 1));
                      ("error", VStr "Invalid payment");
                      ("details", or_else (prop verifyResult "invalidReason")
                                    (VStr "Payment verification failed")) ]).

Definition settlementFailed (settleResult : value) : ToolResult :=
  errorResult (VObj [ ("error", VStr "Payment settlement failed");
                      ("details", or_else (prop settleResult "errorReason")
                                    (VStr "Settlement unsuccessful")) ]).

Definition settlementError (error : exn) : ToolResult :=
  errorResult (VObj [ ("error", VStr "Payment settlement error");
                      ("details", reported error) ]).

(** The settlement confirmation [{ settled: true, txHash }]. *)
Definition paymentResponse (settleResult : value) : value :=
  VObj [ ("settled", VBool true); ("txHash", prop settleResult "txHash") ].

(** [v.k] is read without a throw and is truthy. *)
Definition flagged (v : value) (k : string) : bool :=
  match get_prop v k with
  | inr x => truthy x
  | inl _ => false
  end.

(** The result is not error-flagged: [isError] is absent or false. *)
Definition unflagged (r : ToolResult) : bool := negb (default false (isError r)).

(** The tool that a request names, as [tools.find] selects it. *)
Definition registered (tools : list ToolDefinition) (request : CallToolRequest)
    (toolDef : ToolDefinition) : Prop :=
  find (fun t => String.eqb (name t) (params_name request)) tools = Some toolDef.

(** The store as the last callback run among [evs] left it; [h] if none
    ran. *)
Fixpoint store_after (h : gmap loc ToolResult) (evs : list Event)
  : gmap loc ToolResult :=
  match evs with
  | [] => h
  | EvHandler _ _ _ _ store :: rest => store_after store rest
  | _ :: rest => store_after h rest
  end.

Definition is_settle (ev : Event) : bool :=
  match ev with
  | EvFacilitator settle _ => true
  | _ => false
  end.

(** ** The runs of a paid call

    [PaidRun reply evs h]: a call to a paid tool, started in [st], resolves
    to [reply] after the events [evs] and leaves the store [h].  One rule
    per way through the handler; the last two are the runs that settle
    with success, told apart by whether the result takes the write of the
    confirmation. *)

Section Runs.

Variable env : Env.
Variable server_config : ServerConfig.
Variable toolDef : ToolDefinition.
Variable request : CallToolRequest.
Variable cfgs : list PaymentConfig.
Variable st : State.

Let payment := optional_prop (params_meta request) "x402.payment".
Let ran args res store :=
  EvHandler (name toolDef) args (params_meta request) res store.

Inductive PaidRun : Reply -> list Event -> gmap loc ToolResult -> Prop :=
| run_payment_missing :
    truthy payment = false ->
    PaidRun
      (NewResult (paymentRequired env server_config toolDef
                    (params_name request) cfgs))
      [] (heap st)
| run_rejected e :
    truthy payment = true ->
    PaidRun (NewResult (processingError e)) [] (heap st)
| run_verify_threw q r e :
    PaidRun (NewResult (processingError e))
      [EvFetch q r; EvFacilitator verify (inl e)] (heap st)
| run_verify_unreadable q r vr e :
    get_prop vr "isValid" = inl e ->
    PaidRun (NewResult (processingError e))
      [EvFetch q r; EvFacilitator verify (inr vr)] (heap st)
| run_verification_failed q r vr x :
    get_prop vr "isValid" = inr x -> truthy x = false ->
    PaidRun (NewResult (invalidPayment vr))
      [EvFetch q r; EvFacilitator verify (inr vr)] (heap st)
| run_parameters_invalid q r vr e :
    flagged vr "isValid" = true ->
    paramsSchema toolDef (params_arguments request) = inl e ->
    PaidRun (NewResult (processingError e))
      [EvFetch q r; EvFacilitator verify (inr vr)] (heap st)
| run_handler_threw q r vr args e store :
    flagged vr "isValid" = true ->
    PaidRun (NewResult (processingError e))
      [EvFetch q r; EvFacilitator verify (inr vr); ran args (inl e) store]
      store
| run_handler_undefined q r vr args l store :
    flagged vr "isValid" = true ->
    store !! l = None ->
    PaidRun
      (NewResult (processingError
         (ErrorObj "Cannot read properties of undefined (reading 'isError')")))
      [EvFetch q r; EvFacilitator verify (inr vr); ran args (inr l) store]
      store
| run_execution_failed q r vr args l store res :
    flagged vr "isValid" = true ->
    store !! l = Some res -> unflagged res = false ->
    PaidRun (HandlerResult l)
      [EvFetch q r; EvFacilitator verify (inr vr); ran args (inr l) store]
      store
| run_settle_threw q r vr args l store res q' r' e :
    flagged vr "isValid" = true ->
    store !! l = Some res -> unflagged res = true ->
    PaidRun (NewResult (settlementError e))
      [EvFetch q r; EvFacilitator verify (inr vr); ran args (inr l) store;
       EvFetch q' r'; EvFacilitator settle (inl e)] store
| run_settle_unreadable q r vr args l store res q' r' sr e :
    flagged vr "isValid" = true ->
    store !! l = Some res -> unflagged res = true ->
    get_prop sr "success" = inl e ->
    PaidRun (NewResult (settlementError e))
      [EvFetch q r; EvFacilitator verify (inr vr); ran args (inr l) store;
       EvFetch q' r'; EvFacilitator settle (inr sr)] store
| run_settlement_failed q r vr args l store res q' r' sr x :
    flagged vr "isValid" = true ->
    store !! l = Some res -> unflagged res = true ->
    get_prop sr "success" = inr x -> truthy x = false ->
    PaidRun (NewResult (settlementFailed sr))
      [EvFetch q r; EvFacilitator verify (inr vr); ran args (inr l) store;
       EvFetch q' r'; EvFacilitator settle (inr sr)] store
| run_confirmation_refused q r vr args l store res q' r' sr e :
    flagged vr "isValid" = true ->
    store !! l = Some res -> unflagged res = true ->
    flagged sr "success" = true ->
    refused_write env
      (trace st ++
       [EvFetch q r; EvFacilitator verify (inr vr); ran args (inr l) store;
        EvFetch q' r'; EvFacilitator settle (inr sr)]) l = Some e ->
    PaidRun (NewResult (settlementError e))
      [EvFetch q r; EvFacilitator verify (inr vr); ran args (inr l) store;
       EvFetch q' r'; EvFacilitator settle (inr sr)] store
| run_completed q r vr args l store res q' r' sr h :
    flagged vr "isValid" = true ->
    store !! l = Some res -> unflagged res = true ->
    flagged sr "success" = true ->
    refused_write env
      (trace st ++
       [EvFetch q r; EvFacilitator verify (inr vr); ran args (inr l) store;
        EvFetch q' r'; EvFacilitator settle (inr sr)]) l = None ->
    h = <[l := with_payment_response res (paymentResponse sr)]> store ->
    PaidRun (HandlerResult l)
      [EvFetch q r; EvFacilitator verify (inr vr); ran args (inr l) store;
       EvFetch q' r'; EvFacilitator settle (inr sr)] h.

End Runs.

(** ** The amount as the specification words it *)

(** A well-formed decimal number: digits, then optionally a point and
    digits, and nothing else. *)
Definition well_formed_decimal (s : string) : bool :=
  let '(_, ni, r) := read_digits s 0 0 in
  ((0 <? ni)%nat
   && match r with
      | EmptyString => true
      | String c r' =>
          Ascii.eqb c "."
          && (let '(_, nf, r'') := read_digits r' 0 0 in
              (0 <? nf)%nat && String.eqb r'' "")
      end)%bool.

(** [floor(M * 10^E * 10^6)] *)
Definition floor_micro (M E : Z) : Z :=
  if 0 <=? E + 6 then M * 10 ^ (E + 6) else M / 10 ^ (- (E + 6)).

(** [floor(price * 10^6)] as a decimal integer string, the price read as
    the decimal number it writes. *)
Definition spec_maxAmountRequired (price : string) : option string :=
  if well_formed_decimal price then
    match read_unsigned price with
    | Some (M, E) => Some (string_of_nonneg (floor_micro M E))
    | None => None
    end
  else None.

(** The string starts, after white space and an optional sign, like a
    number: [Infinity], a digit, or a point followed by a digit. *)
Definition has_numeric_prefix (s : string) : bool :=
  let t := trim_start s in
  let u :=
    match t with
    | String c r =>
        if (Ascii.eqb c "+" || Ascii.eqb c "-")%bool then r else t
    | EmptyString => t
    end in
  (starts_with "Infinity" u
   || match u with
      | String c r =>
          is_digit c
          || (Ascii.eqb c "."
              && match r with
                 | String d _ => is_digit d
                 | EmptyString => false
                 end)
      | EmptyString => false
      end)%bool.

(** A character after which a decimal literal cannot go on. *)
Definition tail_ignored (g : string) : bool :=
  match g with
  | EmptyString => true
  | String c _ =>
      negb (is_digit c || Ascii.eqb c "." || Ascii.eqb c "e" || Ascii.eqb c "E")
  end.

(** How [parseFloat] reads a price: as no number at all, or as the decimal
    number [p] that it starts with. *)
Inductive price_read_as (s : string) : option string -> Prop :=
| read_as_nothing :
    has_numeric_prefix s = false ->
    price_read_as s None
| read_as_prefix p g :
    s = p +:+ g ->
    well_formed_decimal p = true ->
    tail_ignored g = true ->
    price_read_as s (Some p).

(** ** A sample deployment

    Two networks: [base-sepolia] behind a standard facilitator that
    verifies and settles, and [xlayer] behind the OKX facilitator, which
    verifies and then refuses to settle. *)

Module Sample.

Definition respond (v : value) : exn + Response :=
  inr {| ok := true; res_text := inr ""; res_json := inr v |}.

Definition envelope (v : value) : value :=
  VObj [ ("code", VStr "0"); ("data", VArr [v]); ("msg", VStr "") ].

Definition network_answers (tr : list Event) (req : HttpRequest)
  : exn + Response :=
  let u := req_url req in
  if String.eqb u "https://x402.org/facilitator/verify" then
    respond (VObj [ ("isValid", VBool true) ])
  else if String.eqb u "https://x402.org/facilitator/settle" then
    respond (VObj [ ("success", VBool true); ("txHash", VStr "0xabc") ])
  else if String.eqb u "https://www.okx.com/api/v6/x402/verify" then
    respond (envelope (VObj [ ("isValid", VBool true) ]))
  else if String.eqb u "https://www.okx.com/api/v6/x402/settle" then
    respond (envelope (VObj [ ("success", VBool false);
                              ("errorReason", VStr "insufficient funds") ]))
  else inl (ErrorObj "fetch failed").

Definition proof_base : string :=
  "eyJuZXR3b3JrIjoiYmFzZS1zZXBvbGlhIiwicGF5bG9hZCI6IjB4c2lnbmVkIn0=".

Definition proof_xlayer : string :=
  "eyJuZXR3b3JrIjoieGxheWVyIiwicGF5bG9hZCI6IjB4c2lnbmVkIn0=".

Definition decoded (net_name : string) : value :=
  VObj [ ("network", VStr net_name); ("payload", VStr "0xsigned") ].

Definition decode (payment : value) : exn + value :=
  match payment with
  | VStr s =>
      if String.eqb s proof_base then inr (decoded "base-sepolia")
      else if String.eqb s proof_xlayer then inr (decoded "xlayer")
      else if String.eqb s "e30=" then inr (VObj [])
      else inl (ErrorObj "Unexpected end of JSON input")
  | _ => inl (ErrorObj "The first argument must be of type string")
  end.

Definition env : Env :=
  {| now := fun _ => "2025-01-01T00:00:00.000Z";
     net := network_answers;
     hmac_sha256_base64 := fun key msg => "hmac:" +:+ key +:+ ":" +:+ msg;
     JSON_parse_base64 := decode;
     env_URL := None;
     refused_write := fun _ _ => None |}.

Definition priced (p : string) : PaymentConfig :=
  {| price := p; chainId := of_Z 84532;
     token := "0x036CbD53842c5426634e7929541eC2318f3dCF7e";
     usdcName := "USDC"; usdcVersion := "2";
     network := "base-sepolia"; config := None |}.

Definition xlayer_config : PaymentConfig :=
  {| price := "0.01"; chainId := of_Z 196;
     token := "0x74b7f16337b8972027f6196a17a631ac6de26d22";
     usdcName := "USD Coin"; usdcVersion := "2";
     network := "xlayer";
     config := Some {| cfg_description := Some "Premium analysis service";
                       cfg_metadata := None |} |}.

Definition payments : list PaymentConfig := [xlayer_config; priced "0.1"].

Definition analysis : ToolResult :=
  {| content := [ {| block_type := text_block; text := Some "analysis";
                     data := None; mimeType := None |} ];
     isError := None;
     _meta := Some [ ("source", VStr "cache") ] |}.

Definition premium_analysis : ToolDefinition :=
  {| name := "premium_analysis";
     description := "Perform premium data analysis";
     paramsSchema := fun v => inr v;
     callback := fun _ _ st => (inr 1%positive, <[1%positive := analysis]> (heap st));
     paymentOptions := Some payments |}.

Definition tools : list ToolDefinition := [premium_analysis].

Definition okx_facilitator : FacilitatorConfig :=
  {| url := "https://www.okx.com"; type := Some okx;
     okxCredentials := Some {| apiKey := "key"; secretKey := "secret";
                               passphrase := "pass" |} |}.

Definition okx_unsigned : FacilitatorConfig :=
  {| url := "https://www.okx.com"; type := Some okx; okxCredentials := None |}.

Definition standard_facilitator : FacilitatorConfig :=
  {| url := "https://x402.org/facilitator"; type := Some standard;
     okxCredentials := None |}.

Definition server_config : ServerConfig :=
  {| recipient := "0xe8fb62154382af0812539cfe61b48321d8f846a8";
     facilitators :=
       {[ "xlayer" := okx_facilitator;
          "base-sepolia" := standard_facilitator ]} |}.

Definition call (meta : value) : CallToolRequest :=
  {| params_name := "premium_analysis";
     params_arguments := VObj [ ("data", VStr "abc") ];
     params_meta := meta |}.

Definition paying (proof : string) : CallToolRequest :=
  call (VObj [ ("x402.payment", VStr proof) ]).

Definition start : State := {| trace := []; heap := ∅ |}.

Definition run (request : CallToolRequest) : Outcome Reply * State :=
  handleCallTool env tools server_config request start.


(** What the standard facilitator answers to settle. *)
Definition receipt : value :=
  VObj [ ("success", VBool true); ("txHash", VStr "0xabc") ].

End Sample.

(** ** The properties, as predicates *)

(** The gateway call sends exactly one HTTP request, [req], logs what it
    hands back, and leaves the store alone. *)
Definition sends (env : Env) (a : Action) (f : FacilitatorConfig)
    (cfg : PaymentConfig) (dp rq : value) (st : State) (req : HttpRequest)
    (out : Outcome value) : Prop :=
  exists st',
    callFacilitator env a f cfg dp rq st = (out, st') /\
    trace st' =
      trace st ++ [EvFetch req (net env (trace st) req);
                   EvFacilitator a (sum_of out)] /\
    heap st' = heap st.

(** The payload in the signed format: [network] deleted from the proof and
    from the requirement, every other field kept, [chainIndex] added. *)
Definition signed_payload (cfg : PaymentConfig) (dp rq payload : value) : Prop :=
  exists pp pr,
    payload =
      VObj [ ("x402Version", VNum (of_Z 1));
             ("paymentPayload", VObj pp);
             ("paymentRequirements", VObj pr);
             ("chainIndex", VStr (toString (chainId cfg))) ] /\
    obj_get "network" pp = None /\
    obj_get "network" pr = None /\
    (forall k, k <> "network" -> obj_get k pp = obj_get k (spread dp)) /\
    (forall k, k <> "network" -> obj_get k pr = obj_get k (spread rq)).

(** The payload in the plain format: the proof as it came, the requirement
    with [network] set to the configuration's, every other field kept. *)
Definition plain_payload (cfg : PaymentConfig) (dp rq payload : value) : Prop :=
  exists pr,
    payload =
      VObj [ ("x402Version", VNum (of_Z 1));
             ("paymentPayload", VObj (spread dp));
             ("paymentRequirements", VObj pr) ] /\
    (forall fs, dp = VObj fs -> spread dp = fs) /\
    obj_get "network" pr = Some (VStr (network cfg)) /\
    (forall k, k <> "network" -> obj_get k pr = obj_get k (spread rq)).

(** C5: a call through a facilitator of type okx with credentials. *)
Definition signed_request_sent (env : Env) (a : Action) (f : FacilitatorConfig)
    (cfg : PaymentConfig) (dp rq : value) (st : State) (c : OKXCredentials)
  : Prop :=
  exists payload body out,
    signed_payload cfg dp rq payload /\
    JSON_stringify payload = Some body /\
    let path := "/api/v6/x402/" +:+ action_name a in
    let timestamp := now env (trace st) in
    sends env a f cfg dp rq st
      {| req_url := url f +:+ path;
         req_method := "POST";
         req_headers :=
           [ ("Content-Type", "application/json");
             ("OK-ACCESS-KEY", apiKey c);
             ("OK-ACCESS-SIGN",
               hmac_sha256_base64 env (secretKey c)
                 (timestamp +:+ "POST" +:+ path +:+ body));
             ("OK-ACCESS-PASSPHRASE", passphrase c);
             ("OK-ACCESS-TIMESTAMP", timestamp) ];
         req_body := Some body |}
      out.

(** C6: a call through a facilitator that is not of type okx. *)
Definition plain_request_sent (env : Env) (a : Action) (f : FacilitatorConfig)
    (cfg : PaymentConfig) (dp rq : value) (st : State) : Prop :=
  exists payload body out,
    plain_payload cfg dp rq payload /\
    JSON_stringify payload = Some body /\
    let req :=
      {| req_url := url f +:+ "/" +:+ action_name a;
         req_method := "POST";
         req_headers := [ ("Content-Type", "application/json") ];
         req_body := Some body |} in
    sends env a f cfg dp rq st req out /\
    (forall response result,
        net env (trace st) req = inr response ->
        ok response = true -> res_json response = inr result ->
        out = Normal result).

(** C10: a call through a facilitator of type okx without credentials. *)
Definition unsigned_okx_request_sent (env : Env) (a : Action)
    (f : FacilitatorConfig) (cfg : PaymentConfig) (dp rq : value) (st : State)
  : Prop :=
  exists payload body out,
    signed_payload cfg dp rq payload /\
    JSON_stringify payload = Some body /\
    let req :=
      {| req_url := url f +:+ "/" +:+ action_name a;
         req_method := "POST";
         req_headers := [ ("Content-Type", "application/json") ];
         req_body := Some body |} in
    let failure result :=
      Throw (new_Error (or_else (prop result "msg")
                          (VStr "OKX facilitator error"))) in
    sends env a f cfg dp rq st req out /\
    (forall response result code,
        net env (trace st) req = inr response ->
        ok response = true -> res_json response = inr result ->
        get_prop result "code" = inr code ->
        (forall d rest,
            code = VStr "0" -> prop result "data" = VArr (d :: rest) ->
            out = Normal d) /\
        (code <> VStr "0" -> out = failure result) /\
        (prop result "data" = VArr [] -> out = failure result) /\
        (truthy (prop result "data") = false -> out = failure result)).

(** C1: among the events of one call, a return of settle comes after a
    return of verify with a truthy [isValid] and after a run of the callback
    that returned a result not flagged as an error; a run of the callback
    comes after such a verify; settle returns at most once; and every
    request sent is followed at once by the return of its gateway call. *)
Definition settle_guarded (toolDef : ToolDefinition) (request : CallToolRequest)
    (evs : list Event) : Prop :=
  (forall i res,
      evs !! i = Some (EvFacilitator settle res) ->
      exists j k vr args l store r,
        (j < k < i)%nat /\
        evs !! j = Some (EvFacilitator verify (inr vr)) /\
        flagged vr "isValid" = true /\
        evs !! k = Some (EvHandler (name toolDef) args (params_meta request)
                           (inr l) store) /\
        store !! l = Some r /\
        isError r <> Some true) /\
  (forall k tool args extra res store,
      evs !! k = Some (EvHandler tool args extra res store) ->
      exists j vr,
        (j < k)%nat /\
        evs !! j = Some (EvFacilitator verify (inr vr)) /\
        flagged vr "isValid" = true) /\
  (forall i j res res',
      evs !! i = Some (EvFacilitator settle res) ->
      evs !! j = Some (EvFacilitator settle res') ->
      i = j) /\
  (forall i q r,
      evs !! i = Some (EvFetch q r) ->
      exists a res, evs !! S i = Some (EvFacilitator a res)).

(** C2: the payment-required result. *)
Definition payment_required_reply (env : Env) (server_config : ServerConfig)
    (request : CallToolRequest) (cfgs : list PaymentConfig) (r : ToolResult)
  : Prop :=
  isError r = Some true /\
  exists accepts,
    content r =
      [ {| block_type := text_block;
           text :=
             JSON_stringify
               (VObj [ ("x402Version", VNum (of_Z 1));
                       ("error", VStr "_meta.x402.payment is required");
                       ("accepts", VArr accepts) ]);
           data := None;
           mimeType := None |} ] /\
    length accepts = length cfgs /\
    forall i cfg,
      cfgs !! i = Some cfg ->
      exists entry,
        accepts !! i = Some entry /\
        prop entry "scheme" = VStr "exact" /\
        prop entry "network" = VStr (network cfg) /\
        prop entry "payTo" = VStr (recipient server_config) /\
        prop entry "asset" = VStr (token cfg) /\
        prop entry "maxTimeoutSeconds" = VNum (of_Z 300) /\
        prop entry "mimeType" = VStr "application/json" /\
        prop entry "resource" =
          VStr (baseURL env +:+ "/mcp/tools/" +:+ params_name request).

(** C7: the submitted proof does not decode, or decodes to an object
    without a [network] field; the reason is what the handler throws. *)
Inductive invalid_proof (env : Env) (payment : value) : exn -> Prop :=
| proof_undecodable e :
    JSON_parse_base64 env payment = inl e ->
    invalid_proof env payment e
| proof_without_network fs :
    JSON_parse_base64 env payment = inr (VObj fs) ->
    obj_get "network" fs = None ->
    invalid_proof env payment
      (ErrorObj "Payment payload must include 'network' field").



(** C9: the call reached a successful settlement, which returned [sr]. *)
Definition settled (evs : list Event) (sr : value) : Prop :=
  last evs = Some (EvFacilitator settle (inr sr)) /\
  flagged sr "success" = true.

(** C9: [after] is [before] with the settlement confirmation merged into
    its metadata and nothing else changed. *)
Definition confirmation_merged (before after : ToolResult) (sr : value) : Prop :=
  content after = content before /\
  isError after = isError before /\
  exists m,
    _meta after = Some m /\
    obj_get "x402.payment-response" m =
      Some (VObj [ ("settled", VBool true); ("txHash", prop sr "txHash") ]) /\
    forall k, k <> "x402.payment-response" ->
              obj_get k m = obj_get k (default [] (_meta before)).

(** The run of the callback among [evs] returned the object at [l]. *)
Definition returned (evs : list Event) (l : loc) : Prop :=
  exists tool args extra store,
    EvHandler tool args extra (inr l) store ∈ evs.

(** C9: what holds of a paid call, by whether it settled and whether the
    callback's result took the write of the confirmation. *)
Definition confirmation_only_on_success (env : Env) (st st' : State)
    (out : Outcome Reply) (evs : list Event) : Prop :=
  let store := store_after (heap st) evs in
  (forall sr,
      settled evs sr ->
      exists l before,
        returned evs l /\
        store !! l = Some before /\
        match refused_write env (trace st ++ evs) l with
        | None =>
            out = Normal (HandlerResult l) /\
            exists after,
              heap st' = <[l := after]> store /\
              confirmation_merged before after sr
        | Some error =>
            out = Normal (NewResult (settlementError error)) /\
            heap st' = store
        end) /\
  ((~ exists sr, settled evs sr) ->
   heap st' = store /\
   exists reply,
     out = Normal reply /\
     match reply with
     | NewResult r => _meta r = None
     | HandlerResult l => True
     end).

(** * The rest of [createPaidMcpHandler]: registration and [tools/list] *)

(** ** Zod schemas

    What the program looks at in a schema: its class ([instanceof]), the
    parts of it that [_def] and [shape] give, and its [parse].  The shape
    of an object schema lists its fields as [Object.entries] does. *)

Inductive ZodType :=
| ZodString
| ZodNumber
| ZodBoolean
| ZodArray (element : ZodType)
| ZodObject (shape : list (string * ZodType))
| ZodEnum (values : list string)
| ZodOptional (innerType : ZodType)
(** any other class of schema: nullable, union, default, ... *)
| ZodOther.

Record ZodSchema := {
  zod_type : ZodType;
  zod_parse : value -> exn + value;
}.

(** [value instanceof z.ZodOptional] *)
Definition is_ZodOptional (zodType : ZodType) : bool :=
  match zodType with
  | ZodOptional _ => true
  | _ => false
  end.

(** The [required] array that the loop over [Object.entries(shape)]
    leaves: a key is pushed unless its schema is a [ZodOptional]. *)
Definition requiredOf (shape : list (string * ZodType)) : list value :=
  fold_left
    (fun required '(key, value) =>
       if is_ZodOptional value then required else required ++ [VStr key])
    shape [].

(** Helper function to convert Zod schema to JSON Schema. *)
Fixpoint zodToJsonSchema (zodType : ZodType) : value :=
  match zodType with
  | ZodString => VObj [ ("type", VStr "string") ]
  | ZodNumber => VObj [ ("type", VStr "number") ]
  | ZodBoolean => VObj [ ("type", VStr "boolean") ]
  | ZodArray element =>
      VObj [ ("type", VStr "array"); ("items", zodToJsonSchema element) ]
  | ZodObject shape =>
      let properties :=
        (fix entries (shape : list (string * ZodType))
             (properties : list (string * value)) : list (string * value) :=
           match shape with
           | [] => properties
           | (key, value) :: rest =>
               entries rest (obj_set key (zodToJsonSchema value) properties)
           end) shape [] in
      VObj [ ("type", VStr "object");
             ("properties", VObj properties);
             ("required", VArr (requiredOf shape)) ]
  | ZodEnum values =>
      VObj [ ("type", VStr "string"); ("enum", VArr (map VStr values)) ]
  | ZodOptional innerType => zodToJsonSchema innerType
  | ZodOther => VObj [ ("type", VStr "string") ]
  end.

(** The [properties] object that the loop of the [tools/list] handler
    leaves. *)
Definition propertiesOf (shape : list (string * ZodType))
  : list (string * value) :=
  fold_left
    (fun properties '(key, value) =>
       obj_set key (zodToJsonSchema value) properties)
    shape [].

(** The [inputSchema] that the [tools/list] handler builds for a tool. *)
Definition inputSchemaOf (paramsSchema : ZodType) : value :=
  match paramsSchema with
  | ZodObject shape =>
      VObj [ ("type", VStr "object");
             ("properties", VObj (propertiesOf shape));
             ("required", VArr (requiredOf shape)) ]
  | _ =>
      VObj [ ("type", VStr "object");
             ("properties", VObj []);
             ("required", VArr []) ]
  end.

(** ** Registration

    The [tools] array holds, for each tool, its definition and the schema
    object it was registered with; [ToolDefinition] keeps the [parse] of
    that schema, and the class and shape are kept beside it. *)

Definition RegisteredTool : Type := ToolDefinition * ZodType.

Module PaidMcpServer.

Definition paidTool (name description : string)
    (paymentOptions : list PaymentConfig) (paramsSchema : ZodSchema)
    (callback : value -> value -> State -> (exn + loc) * gmap loc ToolResult)
    (tools : list RegisteredTool) : list RegisteredTool :=
  tools ++
  [ ({| name := name;
        description := description;
        paramsSchema := zod_parse paramsSchema;
        callback := callback;
        paymentOptions := Some paymentOptions |},
     zod_type paramsSchema) ].

Definition tool (name description : string) (paramsSchema : ZodSchema)
    (callback : value -> value -> State -> (exn + loc) * gmap loc ToolResult)
    (tools : list RegisteredTool) : list RegisteredTool :=
  tools ++
  [ ({| name := name;
        description := description;
        paramsSchema := zod_parse paramsSchema;
        callback := callback;
        paymentOptions := None |},
     zod_type paramsSchema) ].

End PaidMcpServer.

(** One call that [setupTools] makes on the server it is given. *)
Inductive SetupCall :=
| CallPaidTool (name description : string)
    (paymentOptions : list PaymentConfig) (paramsSchema : ZodSchema)
    (callback : value -> value -> State -> (exn + loc) * gmap loc ToolResult)
| CallTool (name description : string) (paramsSchema : ZodSchema)
    (callback : value -> value -> State -> (exn + loc) * gmap loc ToolResult).

Definition perform (tools : list RegisteredTool) (c : SetupCall)
  : list RegisteredTool :=
  match c with
  | CallPaidTool name description paymentOptions paramsSchema callback =>
      PaidMcpServer.paidTool name description paymentOptions paramsSchema
        callback tools
  | CallTool name description paramsSchema callback =>
      PaidMcpServer.tool name description paramsSchema callback tools
  end.

(** [createPaidMcpHandler(setupTools, ...)]: the [tools] array once
    [setupTools(mcpServer)] has run. *)
Definition createPaidMcpHandler (setupTools : list SetupCall)
  : list RegisteredTool :=
  fold_left perform setupTools [].

(** The handlers of the server that [createPaidMcpHandler] returns. *)

(** [server.setRequestHandler(ListToolsRequestSchema, async () => ...)] *)
Definition handleListTools (tools : list RegisteredTool) : value :=
  VObj [ ("tools",
           VArr (map (fun t : RegisteredTool =>
                        VObj [ ("name", VStr (name t.1));
                               ("description", VStr (description t.1));
                               ("inputSchema", inputSchemaOf t.2) ])
                   tools)) ].

Definition callTool (env : Env) (setupTools : list SetupCall)
    (server_config : ServerConfig) (request : CallToolRequest) : M Reply :=
  handleCallTool env (map fst (createPaidMcpHandler setupTools)) server_config
    request.

(** ** Vocabulary for the further properties *)

(** The name a setup call registers, and the definition it stores. *)
Definition call_name (c : SetupCall) : string :=
  match c with
  | CallPaidTool name _ _ _ _ => name
  | CallTool name _ _ _ => name
  end.

Definition definition_of (c : SetupCall) : ToolDefinition :=
  match c with
  | CallPaidTool name description paymentOptions paramsSchema callback =>
      {| name := name;
         description := description;
         paramsSchema := zod_parse paramsSchema;
         callback := callback;
         paymentOptions := Some paymentOptions |}
  | CallTool name description paramsSchema callback =>
      {| name := name;
         description := description;
         paramsSchema := zod_parse paramsSchema;
         callback := callback;
         paymentOptions := None |}
  end.

Definition schema_of (c : SetupCall) : ZodType :=
  match c with
  | CallPaidTool _ _ _ paramsSchema _ => zod_type paramsSchema
  | CallTool _ _ paramsSchema _ => zod_type paramsSchema
  end.

Definition is_fetch (ev : Event) : bool :=
  match ev with
  | EvFetch _ _ => true
  | _ => false
  end.

Definition is_handler (ev : Event) : bool :=
  match ev with
  | EvHandler _ _ _ _ _ => true
  | _ => false
  end.

Definition is_facilitator (ev : Event) : bool :=
  match ev with
  | EvFacilitator _ _ => true
  | _ => false
  end.

(** The JSON Schema types that [zodToJsonSchema] can give. *)
Definition json_schema_types : list string :=
  [ "string"; "number"; "boolean"; "array"; "object" ].

(** Verify threw, or what it returned has no truthy [isValid]. *)
Definition verify_failed (res : exn + value) : Prop :=
  match res with
  | inl _ => True
  | inr vr => flagged vr "isValid" = false
  end.

(** The result reported for a failed verification. *)
Definition verification_failure_reply (res : exn + value) (r : ToolResult)
  : Prop :=
  match res with
  | inl e => r = processingError e
  | inr vr =>
      match get_prop vr "isValid" with
      | inl e => r = processingError e
      | inr _ => r = invalidPayment vr
      end
  end.

(** The callback threw, returned [undefined], or returned a result
    flagged as an error. *)
Definition execution_failed (res : exn + loc) (store : gmap loc ToolResult)
  : Prop :=
  match res with
  | inl _ => True
  | inr l =>
      match store !! l with
      | None => True
      | Some r => unflagged r = false
      end
  end.

(** What a paid call resolves to after a failed execution: the callback's
    own flagged result, or a processing error for what was thrown. *)
Definition execution_failure_reply (res : exn + loc)
    (store : gmap loc ToolResult) (reply : Reply) : Prop :=
  match res with
  | inl e => reply = NewResult (processingError e)
  | inr l =>
      match store !! l with
      | None =>
          reply =
            NewResult
              (processingError
                 (ErrorObj
                    "Cannot read properties of undefined (reading 'isError')"))
      | Some _ => reply = HandlerResult l
      end
  end.

(** The ASCII blanks that [parseFloat] skips: tab, line feed, vertical
    tab, form feed, carriage return and space. *)
Definition is_blank (c : ascii) : bool :=
  let n := nat_of_ascii c in
  (((9 <=? n)%nat && (n <=? 13)%nat) || (n =? 32)%nat)%bool.

Fixpoint all_blank (s : string) : bool :=
  match s with
  | EmptyString => true
  | String c r => is_blank c && all_blank r
  end.

(** ** A second deployment, for the other ways through the handler

    Beside the two networks of [Sample]: [strict], whose facilitator
    rejects every proof; [busy], whose facilitator answers with an HTTP
    error; and [orphan], a network that a tool accepts but for which no
    facilitator is configured. *)

Module Cases.

Definition proof_polygon : string :=
  "eyJuZXR3b3JrIjoicG9seWdvbiIsInBheWxvYWQiOiIweHNpZ25lZCJ9".

Definition proof_strict : string :=
  "eyJuZXR3b3JrIjoic3RyaWN0IiwicGF5bG9hZCI6IjB4c2lnbmVkIn0=".

Definition proof_busy : string :=
  "eyJuZXR3b3JrIjoiYnVzeSIsInBheWxvYWQiOiIweHNpZ25lZCJ9".

Definition proof_orphan : string :=
  "eyJuZXR3b3JrIjoib3JwaGFuIiwicGF5bG9hZCI6IjB4c2lnbmVkIn0=".

(** A proof for a network named like a member of [Object.prototype], and
    a proof whose [network] is an object with a [toString] of its own. *)
Definition proof_constructor : string :=
  "eyJuZXR3b3JrIjoiY29uc3RydWN0b3IiLCJwYXlsb2FkIjoiMHhzaWduZWQifQ==".

Definition proof_object : string :=
  "eyJuZXR3b3JrIjp7InRvU3RyaW5nIjoxfSwicGF5bG9hZCI6IjB4c2lnbmVkIn0=".

Definition decoded_object : value :=
  VObj [ ("network", VObj [ ("toString", VNum (of_Z 1)) ]);
         ("payload", VStr "0xsigned") ].

Definition decode (payment : value) : exn + value :=
  match payment with
  | VStr s =>
      if String.eqb s proof_constructor then inr (Sample.decoded "constructor")
      else if String.eqb s proof_object then inr decoded_object
      else if String.eqb s proof_polygon then inr (Sample.decoded "polygon")
      else if String.eqb s proof_strict then inr (Sample.decoded "strict")
      else if String.eqb s proof_busy then inr (Sample.decoded "busy")
      else if String.eqb s proof_orphan then inr (Sample.decoded "orphan")
      else Sample.decode payment
  | _ => Sample.decode payment
  end.

Definition rejection : value :=
  VObj [ ("isValid", VBool false); ("invalidReason", VStr "Payment expired") ].

Definition rate_limited : Response :=
  {| ok := false;
     res_text := inr "rate limited";
     res_json := inl (ErrorObj "Unexpected token r in JSON at position 0") |}.

Definition network_answers (tr : list Event) (req : HttpRequest)
  : exn + Response :=
  let u := req_url req in
  if String.eqb u "https://strict.example/verify" then Sample.respond rejection
  else if String.eqb u "https://busy.example/verify" then inr rate_limited
  else Sample.network_answers tr req.

Definition env : Env :=
  {| now := fun _ => "2025-01-01T00:00:00.000Z";
     net := network_answers;
     hmac_sha256_base64 := fun key msg => "hmac:" +:+ key +:+ ":" +:+ msg;
     JSON_parse_base64 := decode;
     env_URL := None;
     refused_write := fun _ _ => None |}.

Definition option_on (n : string) : PaymentConfig :=
  {| price := "0.1"; chainId := of_Z 84532;
     token := "0x036CbD53842c5426634e7929541eC2318f3dCF7e";
     usdcName := "USDC"; usdcVersion := "2";
     network := n; config := None |}.

Definition payments : list PaymentConfig :=
  [ Sample.priced "0.1"; option_on "strict"; option_on "busy";
    option_on "orphan"; option_on "constructor" ].

Definition strict_facilitator : FacilitatorConfig :=
  {| url := "https://strict.example"; type := None; okxCredentials := None |}.

Definition busy_facilitator : FacilitatorConfig :=
  {| url := "https://busy.example"; type := Some standard;
     okxCredentials := None |}.

Definition server_config : ServerConfig :=
  {| recipient := "0xe8fb62154382af0812539cfe61b48321d8f846a8";
     facilitators :=
       {[ "base-sepolia" := Sample.standard_facilitator;
          "strict" := strict_facilitator;
          "busy" := busy_facilitator ]} |}.

(** The schema [z.object({ data: z.string(), limit: z.number().optional() })]. *)
Definition params_shape : list (string * ZodType) :=
  [ ("data", ZodString); ("limit", ZodOptional ZodNumber) ].

Definition accepting : ZodSchema :=
  {| zod_type := ZodObject params_shape; zod_parse := fun v => inr v |}.

Definition rejecting : ZodSchema :=
  {| zod_type := ZodObject params_shape;
     zod_parse := fun _ => inl (ErrorObj "Required") |}.

Definition failure : ToolResult :=
  {| content := [ {| block_type := text_block; text := Some "no data";
                     data := None; mimeType := None |} ];
     isError := Some true;
     _meta := None |}.

Definition returning (r : ToolResult)
  : value -> value -> State -> (exn + loc) * gmap loc ToolResult :=
  fun _ _ st => (inr 1%positive, <[1%positive := r]> (heap st)).

Definition premium : SetupCall :=
  CallPaidTool "premium_analysis" "Perform premium data analysis" payments
    accepting (returning Sample.analysis).

Definition failing : SetupCall :=
  CallPaidTool "failing" "Always fails" payments accepting (returning failure).

Definition picky : SetupCall :=
  CallPaidTool "picky" "Rejects its arguments" payments rejecting
    (returning Sample.analysis).

Definition echo : SetupCall :=
  CallTool "echo" "Free echo" accepting (returning Sample.analysis).

Definition closed : SetupCall :=
  CallPaidTool "closed" "No payment option" [] accepting
    (returning Sample.analysis).

(** A later, free registration under a name already taken. *)
Definition premium_again : SetupCall :=
  CallTool "premium_analysis" "Free of charge" accepting
    (returning Sample.analysis).

Definition setupTools : list SetupCall :=
  [ premium; failing; picky; echo; closed; premium_again ].

Definition tools : list ToolDefinition :=
  map fst (createPaidMcpHandler setupTools).

Definition call (tool_name : string) (meta : value) : CallToolRequest :=
  {| params_name := tool_name;
     params_arguments := VObj [ ("data", VStr "abc") ];
     params_meta := meta |}.

Definition paying (tool_name proof : string) : CallToolRequest :=
  call tool_name (VObj [ ("x402.payment", VStr proof) ]).

Definition run (request : CallToolRequest) : Outcome Reply * State :=
  callTool env setupTools server_config request Sample.start.

(** The calls that the cases are about. *)

Definition free_call : CallToolRequest := paying "echo" Sample.proof_base.

Definition settled_call : CallToolRequest :=
  paying "premium_analysis" Sample.proof_base.

Definition rejected_call : CallToolRequest :=
  paying "premium_analysis" proof_strict.

Definition busy_call : CallToolRequest := paying "premium_analysis" proof_busy.

Definition polygon_call : CallToolRequest :=
  paying "premium_analysis" proof_polygon.

Definition orphan_call : CallToolRequest :=
  paying "premium_analysis" proof_orphan.

Definition failing_call : CallToolRequest := paying "failing" Sample.proof_base.

Definition picky_call : CallToolRequest := paying "picky" Sample.proof_base.

Definition closed_call : CallToolRequest := paying "closed" Sample.proof_base.

Definition empty_payment_call : CallToolRequest :=
  call "premium_analysis" (VObj [ ("x402.payment", VStr "") ]).

Definition constructor_call : CallToolRequest :=
  paying "premium_analysis" proof_constructor.

Definition object_call : CallToolRequest :=
  paying "premium_analysis" proof_object.

(** The same deployment with callbacks that return deeply frozen
    results. *)
Definition not_extensible : exn :=
  ErrorObj
    "Cannot add property x402.payment-response, object is not extensible".

Definition frozen_env : Env :=
  {| now := now env;
     net := net env;
     hmac_sha256_base64 := hmac_sha256_base64 env;
     JSON_parse_base64 := JSON_parse_base64 env;
     env_URL := env_URL env;
     refused_write := fun _ _ => Some not_extensible |}.

Definition frozen_run (request : CallToolRequest) : Outcome Reply * State :=
  callTool frozen_env setupTools server_config request Sample.start.

(** What the OKX facilitator of [Sample] answers to verify. *)
Definition okx_answer : value :=
  Sample.envelope (VObj [ ("isValid", VBool true) ]).

Definition okx_response : Response :=
  {| ok := true; res_text := inr ""; res_json := inr okx_answer |}.

(** The payload verified and settled for [settled_call]. *)
Definition settled_payload : value :=
  facilitatorPayload Sample.standard_facilitator (Sample.priced "0.1")
    (Sample.decoded "base-sepolia")
    (buildPaymentRequirements env server_config (definition_of premium)
       "premium_analysis" (Sample.priced "0.1")).

(** The result of [settled_call], confirmation included. *)
Definition confirmed_analysis : ToolResult :=
  {| content := content Sample.analysis;
     isError := None;
     _meta :=
       Some [ ("source", VStr "cache");
              ("x402.payment-response",
                VObj [ ("settled", VBool true); ("txHash", VStr "0xabc") ]) ] |}.

End Cases.

(** * Facts *)

Arguments toString : simpl never.
Arguments of_Z : simpl never.
Arguments JSON_stringify : simpl never.
Arguments ToString : simpl never.
Arguments truthy : simpl never.
Arguments get_prop : simpl never.
Arguments prop : simpl never.
Arguments or_else : simpl never.
Arguments facilitatorPayload : simpl never.
Arguments parseFacilitatorResult : simpl never.
Arguments errorResult : simpl never.
Arguments paymentRequired : simpl never.
Arguments buildPaymentRequirements : simpl never.
Arguments error_details : simpl never.
Arguments with_payment_response : simpl never.

(** ** Numbers: an integer that is not zero has a Number value that is not
    zero *)

Section Rounding.

Lemma digits2_pos_lower (p : positive) :
  2 ^ (Z.pos (digits2_pos p) - 1) <= Z.pos p.
Proof.
  induction p as [p IH|p IH|]; cbn [digits2_pos]; [| |done].
  all: rewrite Pos2Z.inj_succ;
    replace (Z.succ (Z.pos (digits2_pos p)) - 1)
      with (Z.succ (Z.pos (digits2_pos p) - 1)) by lia;
    rewrite Z.pow_succ_r by lia; lia.
Qed.

Lemma shr_1_m mrs : 0 <= shr_m mrs -> shr_m (shr_1 mrs) = shr_m mrs / 2.
Proof.
  destruct mrs as [m r s]. cbn [shr_m]. intros Hm.
  destruct m as [|[p|p|]|p]; cbn [shr_1 shr_m]; try lia;
    first [apply Z.div_unique with 0; lia | apply Z.div_unique with 1; lia].
Qed.

Lemma pow2_xO k : 2 ^ Z.pos k~0 = 2 ^ Z.pos k * 2 ^ Z.pos k.
Proof.
  replace (Z.pos k~0) with (Z.pos k + Z.pos k) by lia.
  apply Z.pow_add_r; lia.
Qed.

Lemma pow2_xI k : 2 ^ Z.pos k~1 = 2 * (2 ^ Z.pos k * 2 ^ Z.pos k).
Proof.
  replace (Z.pos k~1) with (1 + (Z.pos k + Z.pos k)) by lia.
  rewrite !Z.pow_add_r by lia. by rewrite Z.pow_1_r.
Qed.

Lemma iter_shr_1_m k mrs :
  0 <= shr_m mrs ->
  shr_m (SpecFloat.iter_pos shr_1 k mrs) = shr_m mrs / 2 ^ Z.pos k.
Proof.
  revert mrs.
  induction k as [k IH|k IH|]; intros mrs Hm; cbn [SpecFloat.iter_pos].
  - assert (H1 : 0 <= shr_m (shr_1 mrs)).
    { rewrite shr_1_m by done. apply Z.div_pos; lia. }
    assert (H2 : 0 <= shr_m (SpecFloat.iter_pos shr_1 k (shr_1 mrs))).
    { rewrite IH by done. apply Z.div_pos; lia. }
    rewrite !IH, shr_1_m by done.
    rewrite !Z.div_div by lia. by rewrite pow2_xI.
  - assert (H2 : 0 <= shr_m (SpecFloat.iter_pos shr_1 k mrs)).
    { rewrite IH by done. apply Z.div_pos; lia. }
    rewrite !IH by done. rewrite Z.div_div by lia. by rewrite pow2_xO.
  - rewrite shr_1_m by done. by rewrite Z.pow_1_r.
Qed.

(** Truncating a positive mantissa at an exponent not below [emin] leaves
    a positive mantissa. *)
Lemma shr_fexp_pos m e l :
  0 < m -> emin prec emax <= e ->
  0 < shr_m (shr_fexp prec emax m e l).1
  /\ emin prec emax <= (shr_fexp prec emax m e l).2.
Proof.
  intros Hm He. unfold shr_fexp, shr.
  destruct m as [|p|p]; try lia. cbn [Zdigits2].
  pose proof (digits2_pos_lower p) as Hd.
  set (d := Z.pos (digits2_pos p)) in *.
  assert (Hn : fexp prec emax (d + e) - e <= d - 1).
  { unfold fexp, emin, prec, emax in *. lia. }
  destruct (fexp prec emax (d + e) - e) as [|n|n] eqn:En; cbn [fst snd].
  - split; [|done]. by destruct l as [|[]].
  - split; [|lia].
    rewrite iter_shr_1_m by (by destruct l as [|[]]).
    replace (shr_m (shr_record_of_loc (Z.pos p) l)) with (Z.pos p)
      by (by destruct l as [|[]]).
    apply Z.div_str_pos. split; [lia|].
    etrans; [|exact Hd]. apply Z.pow_le_mono_r; lia.
  - split; [|done]. by destruct l as [|[]].
Qed.

Lemma round_nearest_even_pos m l : 0 < m -> 0 < round_nearest_even m l.
Proof.
  intros Hm. unfold round_nearest_even. destruct l as [|[]]; try lia.
  destruct (Z.even m); lia.
Qed.

Lemma binary_round_aux_nonzero s m e l z :
  0 < m -> emin prec emax <= e ->
  binary_round_aux prec emax s m e l <> S754_zero z.
Proof.
  intros Hm He. unfold binary_round_aux.
  destruct (shr_fexp_pos m e l Hm He) as [H1 H1'].
  destruct (shr_fexp prec emax m e l) as [mrs e'].
  cbn [fst snd] in H1, H1'.
  pose proof (round_nearest_even_pos (shr_m mrs) (loc_of_shr_record mrs) H1)
    as H2.
  destruct (shr_fexp_pos _ e' loc_Exact H2 H1') as [H3 _].
  destruct (shr_fexp prec emax _ e' loc_Exact) as [mrs' e''].
  cbn [fst] in H3.
  destruct (shr_m mrs'); try lia. by case_match.
Qed.

Lemma of_Z_pos_nonzero p z : of_Z (Z.pos p) <> S754_zero z.
Proof.
  unfold of_Z, binary_normalize, binary_round, shl_align.
  pose proof (Pos2Z.is_pos (digits2_pos p)) as Hd.
  destruct (fexp prec emax (Z.pos (digits2_pos p) + 0) - 0) eqn:E;
    apply binary_round_aux_nonzero; try done.
  all: unfold fexp, emin, prec, emax in *; lia.
Qed.

End Rounding.

(** ** Objects: reading after writing and after deleting *)

Section Objects.

Implicit Types (k : string) (v : value) (fs : list (string * value)).

Lemma obj_get_delete k fs : obj_get k (obj_delete k fs) = None.
Proof.
  induction fs as [|[k' v] fs IH]; simpl; [done|].
  destruct (String.eqb k' k) eqn:E; simpl; [done|]. by rewrite E.
Qed.

Lemma obj_get_delete_ne k k' fs :
  k <> k' -> obj_get k' (obj_delete k fs) = obj_get k' fs.
Proof.
  intros Hne. induction fs as [|[k0 v] fs IH]; simpl; [done|].
  destruct (String.eqb k0 k) eqn:E; simpl.
  - apply String.eqb_eq in E as ->.
    destruct (String.eqb k k') eqn:E'; [|done].
    by apply String.eqb_eq in E'.
  - by rewrite IH.
Qed.

Lemma obj_get_set k v fs : obj_get k (obj_set k v fs) = Some v.
Proof.
  induction fs as [|[k' v'] fs IH]; simpl.
  - by rewrite String.eqb_refl.
  - destruct (String.eqb k' k) eqn:E; simpl; by rewrite E.
Qed.

Lemma obj_get_set_ne k k' v fs :
  k <> k' -> obj_get k' (obj_set k v fs) = obj_get k' fs.
Proof.
  intros Hne. induction fs as [|[k0 v0] fs IH]; simpl.
  - destruct (String.eqb k k') eqn:E; [|done]. by apply String.eqb_eq in E.
  - destruct (String.eqb k0 k) eqn:E; simpl.
    + apply String.eqb_eq in E as ->.
      destruct (String.eqb k k') eqn:E'; [|done].
      by apply String.eqb_eq in E'.
    + by rewrite IH.
Qed.

Lemma JSON_stringify_obj fs :
  exists b, JSON_stringify (VObj fs) = Some (String "{" b).
Proof. unfold JSON_stringify. simpl. eauto. Qed.

Lemma of_Z_succ_nonzero n z : of_Z (Z.of_nat (S n)) <> S754_zero z.
Proof.
  rewrite Nat2Z.inj_succ, <- Z.add_1_r.
  destruct (Z.of_nat n + 1) as [|p|p] eqn:E; try lia.
  apply of_Z_pos_nonzero.
Qed.

End Objects.

(** ** The gateway: one request per call *)

Section Gateway.

Variable env : Env.

Lemma facilitatorPayload_obj f cfg dp rq :
  exists fs, facilitatorPayload f cfg dp rq = VObj fs.
Proof. unfold facilitatorPayload. destruct (is_okx f); eauto. Qed.

Lemma facilitatorPayload_signed f cfg dp rq :
  type f = Some okx ->
  signed_payload cfg dp rq (facilitatorPayload f cfg dp rq).
Proof.
  intros Ht. unfold facilitatorPayload, is_okx. rewrite Ht.
  eexists _, _. split; [reflexivity|].
  split_and!; auto using obj_get_delete, obj_get_delete_ne.
Qed.

Lemma facilitatorPayload_plain f cfg dp rq :
  type f <> Some okx ->
  plain_payload cfg dp rq (facilitatorPayload f cfg dp rq).
Proof.
  intros Ht. unfold facilitatorPayload, is_okx.
  destruct (type f) as [[]|]; try done.
  all: eexists; split; [reflexivity|];
    split_and!; auto using obj_get_set, obj_get_set_ne;
    by intros fs ->.
Qed.

Lemma toUpperCase_POST : toUpperCase "POST" = "POST".
Proof. reflexivity. Qed.

Lemma fetch_run q st :
  fetch env q st =
    (outcome_of (net env (trace st) q),
     record (EvFetch q (net env (trace st) q)) st).
Proof. unfold fetch. by destruct (net env (trace st) q). Qed.

Lemma makeOKXRequest_POST u path body c b st :
  JSON_stringify body = Some (String "{" b) ->
  makeOKXRequest env u "POST" path body c st =
    fetch env
      {| req_url := u; req_method := "POST";
         req_headers :=
           signedHeaders env c (now env (trace st)) path (String "{" b);
         req_body := Some (String "{" b) |} st.
Proof.
  intros Hb. unfold makeOKXRequest, generateOKXHeaders, bind.
  rewrite toUpperCase_POST, Hb. reflexivity.
Qed.

(** [callFacilitator], as the request it sends and the answer it
    normalises. *)
Lemma callFacilitator_unfold a f cfg dp rq st :
  callFacilitator env a f cfg dp rq st =
    (outcome_of
       (normalized a f
          (answer env a f (facilitatorPayload f cfg dp rq) (trace st))),
     {| trace :=
          trace st ++
          [EvFetch
             (sentRequest env a f (facilitatorPayload f cfg dp rq) (trace st))
             (answer env a f (facilitatorPayload f cfg dp rq) (trace st));
           EvFacilitator a
             (normalized a f
                (answer env a f (facilitatorPayload f cfg dp rq) (trace st)))];
        heap := heap st |}).
Proof.
  unfold answer.
  destruct (facilitatorPayload_obj f cfg dp rq) as [fs Hfs].
  destruct (JSON_stringify_obj fs) as [b Hb].
  unfold callFacilitator, sentRequest, bind. rewrite Hfs.
  destruct (type f) as [[]|], (okxCredentials f) as [c|];
    rewrite ?(makeOKXRequest_POST _ _ _ _ b) by done; rewrite ?Hb;
    rewrite fetch_run; cbn [default from_option id];
    match goal with
    | |- context [net env ?t ?x] => generalize (net env t x)
    end;
    (intros [e|resp]; cbn [outcome_of normalized];
     [|destruct (ok resp); cbn [negb]; unfold bind, lift, throw, ret;
       [destruct (res_json resp) as [e|result];
          [|destruct (parseFacilitatorResult _ result)]
       |destruct (res_text resp)]]);
    cbn [outcome_of sum_of]; unfold record; cbn [trace heap];
    rewrite <- app_assoc; reflexivity.
Qed.

Lemma sum_of_outcome_of {A} (r : exn + A) : sum_of (outcome_of r) = r.
Proof. by destruct r. Qed.

Lemma callFacilitator_events a f cfg dp rq st out st' :
  callFacilitator env a f cfg dp rq st = (out, st') ->
  exists q r res,
    out = outcome_of res /\
    st' = {| trace := trace st ++ [EvFetch q r; EvFacilitator a res];
             heap := heap st |}.
Proof. rewrite callFacilitator_unfold. intros [= <- <-]. eauto. Qed.

Lemma callFacilitator_sends a f cfg dp rq st :
  sends env a f cfg dp rq st
    (sentRequest env a f (facilitatorPayload f cfg dp rq) (trace st))
    (outcome_of
       (normalized a f
          (answer env a f (facilitatorPayload f cfg dp rq) (trace st)))).
Proof.
  eexists. split; [apply callFacilitator_unfold|].
  cbn [trace heap]. by rewrite sum_of_outcome_of.
Qed.

(** C5.  A verify or settle call through a facilitator of type okx that
    has credentials sends one POST to [/api/v6/x402/<action>] under the
    base URL; its body is the JSON text of a payload in which neither
    [paymentPayload] nor [paymentRequirements] has a [network] field and
    whose [chainIndex] is the string form of the configured chain id;
    its headers are exactly [Content-Type], [OK-ACCESS-KEY],
    [OK-ACCESS-SIGN], [OK-ACCESS-PASSPHRASE] and [OK-ACCESS-TIMESTAMP],
    the signature being the base64 HMAC-SHA256, keyed by the secret, of
    timestamp, [POST], path and body concatenated. *)
Theorem C5_signed_facilitator_request a f cfg dp rq st c :
  type f = Some okx ->
  okxCredentials f = Some c ->
  signed_request_sent env a f cfg dp rq st c.
Proof.
  intros Ht Hc.
  pose proof (facilitatorPayload_signed f cfg dp rq Ht) as Hp.
  pose proof (callFacilitator_sends a f cfg dp rq st) as Hs.
  destruct (facilitatorPayload_obj f cfg dp rq) as [fs Hfs].
  destruct (JSON_stringify_obj fs) as [b Hb].
  unfold sentRequest in Hs. rewrite Ht, Hc, Hfs, Hb in Hs.
  rewrite Hfs in Hp.
  eexists (VObj fs), _, _. split; [exact Hp|]. split; [exact Hb|].
  exact Hs.
Qed.

(** C6.  A verify or settle call through a facilitator that is not of
    type okx sends one POST to [/<action>] under the base URL with
    [Content-Type] as its only header; the payload carries the decoded
    proof as it came and a requirement whose [network] is the matched
    configuration's; and the parsed body of a successful response is
    returned as it is. *)
Theorem C6_plain_facilitator_request a f cfg dp rq st :
  type f <> Some okx ->
  plain_request_sent env a f cfg dp rq st.
Proof.
  intros Ht.
  pose proof (facilitatorPayload_plain f cfg dp rq Ht) as Hp.
  pose proof (callFacilitator_sends a f cfg dp rq st) as Hs.
  destruct (facilitatorPayload_obj f cfg dp rq) as [fs Hfs].
  destruct (JSON_stringify_obj fs) as [b Hb].
  unfold answer in Hs.
  assert (Hq : sentRequest env a f (VObj fs) (trace st) =
               {| req_url := url f +:+ "/" +:+ action_name a;
                  req_method := "POST";
                  req_headers := [ ("Content-Type", "application/json") ];
                  req_body := Some (String "{" b) |}).
  { unfold sentRequest. rewrite Hb. by destruct (type f) as [[]|]. }
  rewrite Hfs, Hq in Hs. rewrite Hfs in Hp.
  eexists (VObj fs), _, _. split; [exact Hp|]. split; [exact Hb|].
  cbv zeta. split; [exact Hs|].
  intros response result -> Hok Hjson. cbn [normalized].
  rewrite Hok, Hjson. unfold parseFacilitatorResult, is_okx.
  by destruct (type f) as [[]|].
Qed.

(** C10.  A verify or settle call through a facilitator of type okx that
    has no credentials still shapes the payload in the signed format and
    still unwraps the answer as the [{code, data}] envelope, but sends
    its one POST to [/<action>] under the base URL with [Content-Type]
    as its only header. *)
Theorem C10_okx_without_credentials a f cfg dp rq st :
  type f = Some okx ->
  okxCredentials f = None ->
  unsigned_okx_request_sent env a f cfg dp rq st.
Proof.
  intros Ht Hc.
  pose proof (facilitatorPayload_signed f cfg dp rq Ht) as Hp.
  pose proof (callFacilitator_sends a f cfg dp rq st) as Hs.
  destruct (facilitatorPayload_obj f cfg dp rq) as [fs Hfs].
  destruct (JSON_stringify_obj fs) as [b Hb].
  unfold answer, sentRequest in Hs. rewrite Ht, Hc, Hfs, Hb in Hs.
  rewrite Hfs in Hp.
  eexists (VObj fs), _, _. split; [exact Hp|]. split; [exact Hb|].
  cbv zeta. split; [exact Hs|].
  intros response result code -> Hok Hjson Hcode. cbn [normalized].
  rewrite Hok, Hjson. unfold parseFacilitatorResult, is_okx.
  rewrite Ht, Hcode. split_and!.
  - intros d rest -> Hdata. rewrite Hdata.
    change (prop (VArr (d :: rest)) "length")
      with (length_value (S (length rest))).
    change (prop (VArr (d :: rest)) "0") with d.
    change (truthy (VArr (d :: rest))) with true. cbn.
    destruct (of_Z (Z.of_nat (S (length rest)))) eqn:E; try done.
    by apply of_Z_succ_nonzero in E.
  - intros Hne. destruct code as [| | | |s| |]; try done.
    destruct (String.eqb s "0") eqn:E; [|done].
    apply String.eqb_eq in E. by subst.
  - intros Hdata. rewrite Hdata. by destruct code as [| | | |s| |]; try destruct (String.eqb s "0").
  - intros Hdata. rewrite Hdata. by rewrite orb_true_r.
Qed.

End Gateway.

Lemma C5_witness :
  type Sample.okx_facilitator = Some okx /\
  okxCredentials Sample.okx_facilitator =
    Some {| apiKey := "key"; secretKey := "secret"; passphrase := "pass" |} /\
  signed_request_sent Sample.env settle Sample.okx_facilitator
    Sample.xlayer_config (Sample.decoded "xlayer")
    (buildPaymentRequirements Sample.env Sample.server_config
       Sample.premium_analysis "premium_analysis" Sample.xlayer_config)
    Sample.start
    {| apiKey := "key"; secretKey := "secret"; passphrase := "pass" |}.
Proof.
  split; [reflexivity|]. split; [reflexivity|].
  apply C5_signed_facilitator_request; reflexivity.
Defined.

Lemma C6_witness :
  type Sample.standard_facilitator <> Some okx /\
  plain_request_sent Sample.env verify Sample.standard_facilitator
    (Sample.priced "0.1") (Sample.decoded "base-sepolia")
    (buildPaymentRequirements Sample.env Sample.server_config
       Sample.premium_analysis "premium_analysis" (Sample.priced "0.1"))
    Sample.start.
Proof.
  split; [discriminate|].
  apply C6_plain_facilitator_request; discriminate.
Defined.

Lemma C10_witness :
  type Sample.okx_unsigned = Some okx /\
  okxCredentials Sample.okx_unsigned = None /\
  unsigned_okx_request_sent Sample.env verify Sample.okx_unsigned
    Sample.xlayer_config (Sample.decoded "xlayer")
    (buildPaymentRequirements Sample.env Sample.server_config
       Sample.premium_analysis "premium_analysis" Sample.xlayer_config)
    Sample.start.
Proof.
  split; [reflexivity|]. split; [reflexivity|].
  apply C10_okx_without_credentials; reflexivity.
Defined.

(** ** The lifecycle of a paid call *)

Section Lifecycle.

Variable env : Env.
Variable tools : list ToolDefinition.
Variable server_config : ServerConfig.
Variable toolDef : ToolDefinition.
Variable request : CallToolRequest.
Variable cfgs : list PaymentConfig.
Variable st : State.

Hypothesis Hregistered : registered tools request toolDef.
Hypothesis Hpaid : paymentOptions toolDef = Some cfgs.

Local Opaque errorResult.

Lemma details_reported e : VStr (error_details e) = reported e.
Proof. by destruct e. Qed.

(** Every call to a paid tool is one of the runs of [PaidRun]. *)
Lemma handleCallTool_paid out st' :
  handleCallTool env tools server_config request st = (out, st') ->
  exists reply evs,
    out = Normal reply /\
    trace st' = trace st ++ evs /\
    PaidRun env server_config toolDef request cfgs st reply evs (heap st').
Proof.
  unfold handleCallTool. rewrite Hregistered, Hpaid. cbv zeta.
  unfold try_catch, processPayment, settlePayment, try_catch, invoke,
    read_isError, set_payment_response, bind, lift, throw, ret.
  intros Hrun.
  repeat (first
            [ match goal with
              | H : callFacilitator _ _ _ _ _ _ _ = _ |- _ =>
                  apply callFacilitator_events in H
                    as (? & ? & [?|?] & ? & ?)
              end
            | case_match ];
          simplify_eq/=).
  all: rewrite <- ?app_assoc; cbn [app].
  all: repeat match goal with
         | H : negb _ = true |- _ => apply negb_true_iff in H
         | H : negb _ = false |- _ => apply negb_false_iff in H
         | H : context [(_ ++ _) ++ _] |- _ =>
             rewrite <- app_assoc in H; cbn [app] in H
         end.
  all: rewrite ?details_reported.
  all: eexists _, _; split; [reflexivity|]; split;
    [try reflexivity; symmetry; apply app_nil_r|].
  all: solve [
    econstructor;
    eauto; unfold flagged, unflagged;
    repeat match goal with
           | H : get_prop _ _ = _ |- _ => rewrite H
           | H : default false _ = _ |- _ => rewrite H
           end; eauto ].
Qed.

Lemma unflagged_isError r : unflagged r = true -> isError r <> Some true.
Proof. unfold unflagged. by destruct (isError r) as [[]|]. Qed.

Lemma PaidRun_guarded reply evs h :
  PaidRun env server_config toolDef request cfgs st reply evs h ->
  settle_guarded toolDef request evs.
Proof.
  destruct 1; unfold settle_guarded;
    (split_and!;
     [ intros i ? Hi; destruct i as [|[|[|[|[|?]]]]]; simplify_eq/=;
       eexists 1%nat, 2%nat, _, _, _, _, _; split_and!;
       first [lia | reflexivity | eassumption
             | by apply unflagged_isError]
     | intros i ? ? ? ? ? Hi; destruct i as [|[|[|[|[|?]]]]]; simplify_eq/=;
       eexists 1%nat, _; split_and!;
       first [lia | reflexivity | eassumption]
     | intros i j ? ? Hi Hj;
       destruct i as [|[|[|[|[|?]]]]]; simplify_eq/=;
       destruct j as [|[|[|[|[|?]]]]]; simplify_eq/=; done
     | intros i ? ? Hi; destruct i as [|[|[|[|[|?]]]]]; simplify_eq/=;
       eexists _, _; reflexivity ]).
Qed.

(** C1.  In every call to a paid tool, settle is invoked only after
    verify has returned a truthy [isValid] and the callback has then
    returned a result whose [isError] is absent or false; the callback
    runs only after such a verify; and settle is invoked at most once. *)
Theorem C1_settle_only_after_verified_execution out st' :
  handleCallTool env tools server_config request st = (out, st') ->
  exists evs,
    trace st' = trace st ++ evs /\ settle_guarded toolDef request evs.
Proof.
  intros Hrun.
  destruct (handleCallTool_paid _ _ Hrun) as (reply & evs & _ & Htr & Hpr).
  exists evs. split; [done|]. by eapply PaidRun_guarded.
Qed.

(** C2.  A call to a paid tool whose metadata has no [x402.payment]
    entry resolves to an error-flagged result whose text is the JSON of
    [x402Version] 1, the error [_meta.x402.payment is required] and an
    [accepts] array with one entry per configured network, in order,
    each with scheme [exact], that network, the recipient as [payTo],
    the token as [asset], [maxTimeoutSeconds] 300, mime type
    [application/json] and resource [<base URL>/mcp/tools/<name>];
    nothing is sent and the callback does not run. *)
Theorem C2_missing_payment_challenge :
  optional_prop (params_meta request) "x402.payment" = VUndefined ->
  exists r,
    handleCallTool env tools server_config request st
      = (Normal (NewResult r), st) /\
    payment_required_reply env server_config request cfgs r.
Proof.
  intros Hnone. unfold handleCallTool.
  rewrite Hregistered, Hpaid, Hnone. cbv zeta.
  change (negb (truthy VUndefined)) with true. cbv iota.
  eexists. split; [reflexivity|].
  split; [reflexivity|].
  exists (map (acceptsEntry env server_config toolDef (params_name request))
            cfgs).
  split; [reflexivity|]. split; [by rewrite length_map|].
  intros i cfg Hi. eexists. split; [by rewrite list_lookup_fmap, Hi|].
  split_and!; reflexivity.
Qed.

(** C7, as amended.  A call to a paid tool whose [x402.payment] value is
    truthy and does not decode, or decodes to an object with no [network]
    field, resolves to the error-flagged result [Payment processing error]
    whose details are the reason of the failure: the message of the error
    that decoding threw, or [Payment payload must include 'network' field].
    A value that is falsy, such as the empty string, is not decoded at
    all: the call is answered with the payment-required challenge.  Either
    way nothing is sent and the callback does not run. *)
Theorem C7_invalid_proof_rejected reason :
  invalid_proof env (optional_prop (params_meta request) "x402.payment")
    reason ->
  exists r,
    handleCallTool env tools server_config request st
      = (Normal (NewResult r), st) /\
    isError r = Some true /\
    r = if truthy (optional_prop (params_meta request) "x402.payment") then
          errorResult
            (VObj [ ("error", VStr "Payment processing error");
                    ("details",
                      match reason with
                      | ErrorObj message => VStr message
                      | Thrown text => VStr text
                      end) ])
        else
          paymentRequired env server_config toolDef (params_name request)
            cfgs.
Proof.
  intros Hinv. unfold handleCallTool.
  rewrite Hregistered, Hpaid. cbv zeta.
  destruct (truthy (optional_prop (params_meta request) "x402.payment"))
    eqn:Hp; cbn [negb].
  - unfold try_catch, processPayment, bind, lift, throw, ret.
    destruct Hinv as [e He|fs Hd Hn]; [rewrite He|rewrite Hd].
    + eexists. split; [reflexivity|]. split; [reflexivity|].
      by destruct e.
    + change (get_prop (VObj fs) "network")
        with (@inr exn _ (default VUndefined (obj_get "network" fs))).
      rewrite Hn. cbn.
      eexists. split; [reflexivity|]. split; [reflexivity|done].
  - eexists. split; [reflexivity|]. split; [reflexivity|done].
Qed.


(** X26.  When a paid call reaches a successful settlement and the
    callback's result takes the write, the call resolves to that very
    object, updated in place: the entry [x402.payment-response] =
    [{ settled: true, txHash }] is in its metadata, and its content, its
    error flag and every other metadata entry are as before.  When the
    result refuses the write, the call resolves to
    [Payment settlement error] with the message of the refusal and the
    object is as the callback left it.  On every path that does not
    settle, the store is as the callback left it (or as it was, when the
    callback did not run), and a newly built result has no metadata. *)
Theorem confirmation_only_when_written out st' evs :
  handleCallTool env tools server_config request st = (out, st') ->
  trace st' = trace st ++ evs ->
  confirmation_only_on_success env st st' out evs.
Proof.
  intros Hrun Htr.
  destruct (handleCallTool_paid _ _ Hrun) as (reply & evs' & -> & Htr' & Hpr).
  rewrite Htr' in Htr. apply app_inv_head in Htr as ->.
  split.
  - intros sr [Hlast Hok].
    destruct Hpr; simplify_eq/=;
      try (unfold flagged in Hok;
           match goal with
           | H : get_prop _ "success" = _ |- _ => rewrite H in Hok
           end; congruence);
      (eexists _, _; split;
       [ eexists _, _, _, _; repeat constructor
       | split; [eassumption|] ]);
      match goal with
      | H : refused_write _ _ _ = _ |- _ => rewrite H
      end.
    + done.
    + split; [done|]. eexists. split; [done|].
      unfold confirmation_merged, with_payment_response; cbn.
      split_and!; try done. eexists. split; [reflexivity|].
      split; [apply obj_get_set|]. intros k Hk. by apply obj_get_set_ne.
  - intros Hns.
    destruct Hpr; cbn [store_after];
      try (split; [reflexivity|]; eexists; split; [reflexivity|]; done);
      exfalso; apply Hns; eexists; (split; [reflexivity|done]).
Qed.

End Lifecycle.

Lemma C1_witness :
  registered Sample.tools (Sample.paying Sample.proof_base)
    Sample.premium_analysis /\
  paymentOptions Sample.premium_analysis = Some Sample.payments /\
  exists evs,
    trace (Sample.run (Sample.paying Sample.proof_base)).2
      = trace Sample.start ++ evs /\
    settle_guarded Sample.premium_analysis (Sample.paying Sample.proof_base)
      evs.
Proof.
  split; [reflexivity|]. split; [reflexivity|].
  apply (C1_settle_only_after_verified_execution Sample.env Sample.tools
           Sample.server_config Sample.premium_analysis
           (Sample.paying Sample.proof_base) Sample.payments Sample.start
           eq_refl eq_refl
           (Sample.run (Sample.paying Sample.proof_base)).1).
  apply surjective_pairing.
Defined.

Lemma C2_witness :
  registered Sample.tools (Sample.call VUndefined) Sample.premium_analysis /\
  paymentOptions Sample.premium_analysis = Some Sample.payments /\
  optional_prop (params_meta (Sample.call VUndefined)) "x402.payment"
    = VUndefined /\
  exists r,
    handleCallTool Sample.env Sample.tools Sample.server_config
      (Sample.call VUndefined) Sample.start
      = (Normal (NewResult r), Sample.start) /\
    payment_required_reply Sample.env Sample.server_config
      (Sample.call VUndefined) Sample.payments r.
Proof.
  split; [reflexivity|]. split; [reflexivity|]. split; [reflexivity|].
  apply (C2_missing_payment_challenge Sample.env Sample.tools
           Sample.server_config Sample.premium_analysis
           (Sample.call VUndefined) Sample.payments Sample.start
           eq_refl eq_refl eq_refl).
Defined.


Lemma C7_witness :
  registered Sample.tools (Sample.paying "e30=") Sample.premium_analysis /\
  paymentOptions Sample.premium_analysis = Some Sample.payments /\
  invalid_proof Sample.env
    (optional_prop (params_meta (Sample.paying "e30=")) "x402.payment")
    (ErrorObj "Payment payload must include 'network' field") /\
  exists r,
    handleCallTool Sample.env Sample.tools Sample.server_config
      (Sample.paying "e30=") Sample.start
      = (Normal (NewResult r), Sample.start) /\
    isError r = Some true /\
    r = if truthy (optional_prop (params_meta (Sample.paying "e30="))
                     "x402.payment") then
          errorResult
            (VObj [ ("error", VStr "Payment processing error");
                    ("details",
                      match
                        ErrorObj "Payment payload must include 'network' field"
                      with
                      | ErrorObj message => VStr message
                      | Thrown text => VStr text
                      end) ])
        else
          paymentRequired Sample.env Sample.server_config
            Sample.premium_analysis (params_name (Sample.paying "e30="))
            Sample.payments.
Proof.
  assert (Hinv : invalid_proof Sample.env
            (optional_prop (params_meta (Sample.paying "e30=")) "x402.payment")
            (ErrorObj "Payment payload must include 'network' field")).
  { apply proof_without_network with (fs := []); reflexivity. }
  split; [reflexivity|]. split; [reflexivity|]. split; [exact Hinv|].
  exact (C7_invalid_proof_rejected Sample.env Sample.tools
           Sample.server_config Sample.premium_analysis
           (Sample.paying "e30=") Sample.payments Sample.start
           eq_refl eq_refl _ Hinv).
Defined.

(** C7, as stated, fails: the empty string is supplied as the payment,
    it does not decode, and yet the result is the payment-required
    challenge, which does not carry the reason of the failure. *)
Lemma C7_counterexample :
  optional_prop (params_meta (Sample.paying "")) "x402.payment" = VStr "" /\
  invalid_proof Sample.env (VStr "")
    (ErrorObj "Unexpected end of JSON input") /\
  Sample.run (Sample.paying "") =
    (Normal (NewResult
       (paymentRequired Sample.env Sample.server_config
          Sample.premium_analysis "premium_analysis" Sample.payments)),
     Sample.start) /\
  paymentRequired Sample.env Sample.server_config Sample.premium_analysis
    "premium_analysis" Sample.payments
  <> errorResult
       (VObj [ ("error", VStr "Payment processing error");
               ("details", VStr "Unexpected end of JSON input") ]).
Proof.
  split; [reflexivity|]. split; [by apply proof_undecodable|].
  split; [reflexivity|].
  intros H. apply (f_equal content) in H. vm_compute in H. discriminate.
Qed.



(** C9.  A call that settles is not always confirmed.  The callback of
    this deployment returns a frozen result; the payment is verified, the
    callback runs and settle answers with success, and yet the call
    resolves to the error-flagged result [Payment settlement error], and
    the callback's result is left without [x402.payment-response]. *)
Theorem C9_frozen_result_not_confirmed :
  settled (trace (Cases.frozen_run Cases.settled_call).2) Sample.receipt /\
  (Cases.frozen_run Cases.settled_call).1 =
    Normal (NewResult
      (errorResult
         (VObj [ ("error", VStr "Payment settlement error");
                 ("details",
                   VStr "Cannot add property x402.payment-response, object is not extensible") ]))) /\
  heap (Cases.frozen_run Cases.settled_call).2 !! 1%positive
    = Some Sample.analysis /\
  obj_get "x402.payment-response" (default [] (_meta Sample.analysis)) = None.
Proof. split_and!; [split| | |]; vm_compute; reflexivity. Qed.
(** ** The amount *)

Section Amount.

Variable env : Env.
Variable server_config : ServerConfig.
Variable toolDef : ToolDefinition.
Variable toolName : string.

(** Both builders put [priceInSmallestUnit] of the price in
    [maxAmountRequired]. *)
Lemma maxAmountRequired_built cfg :
  prop (buildPaymentRequirements env server_config toolDef toolName cfg)
    "maxAmountRequired" = VStr (priceInSmallestUnit (price cfg))
  /\ prop (acceptsEntry env server_config toolDef toolName cfg)
       "maxAmountRequired" = VStr (priceInSmallestUnit (price cfg)).
Proof. split; reflexivity. Qed.

(** *** Reading digits *)

Lemma read_digits_stops c r acc n :
  is_digit c = false -> read_digits (String c r) acc n = (acc, n, String c r).
Proof. intros H. cbn [read_digits]. by rewrite H. Qed.

Lemma read_digits_tail g acc n :
  tail_ignored g = true -> read_digits g acc n = (acc, n, g).
Proof.
  destruct g as [|c g]; [done|]. cbn [tail_ignored]. intros H.
  apply negb_true_iff in H. repeat apply orb_false_iff in H as [H _].
  by apply read_digits_stops.
Qed.

(** Reading on after [s]: the run goes on into [g] only when [s] is all
    digits. *)
Lemma read_digits_app s g acc n :
  read_digits (s +:+ g) acc n =
    match read_digits s acc n with
    | (v, k, EmptyString) => read_digits g v k
    | (v, k, r) => (v, k, r +:+ g)
    end.
Proof.
  revert acc n. induction s as [|c s IH]; intros acc n; [done|].
  change (String c s +:+ g) with (String c (s +:+ g)).
  cbn [read_digits]. destruct (is_digit c); [apply IH|done].
Qed.

(** The count and the rest do not depend on the value accumulated. *)
Lemma read_digits_acc s acc acc' n :
  (read_digits s acc n).1.2 = (read_digits s acc' n).1.2
  /\ (read_digits s acc n).2 = (read_digits s acc' n).2.
Proof.
  revert acc acc' n. induction s as [|c s IH]; intros acc acc' n; [done|].
  cbn [read_digits]. destruct (is_digit c); [apply IH|done].
Qed.

Lemma read_exponent_tail g : tail_ignored g = true -> read_exponent g = 0.
Proof.
  destruct g as [|c g]; [done|]. cbn [tail_ignored read_exponent]. intros H.
  apply negb_true_iff in H.
  apply orb_false_iff in H as [H HE]. apply orb_false_iff in H as [H He].
  by rewrite He, HE.
Qed.

Lemma point_tail g :
  tail_ignored g = true ->
  match g with
  | String c r' => if Ascii.eqb c "." then Some r' else None
  | EmptyString => None
  end = None.
Proof.
  destruct g as [|c g]; [done|]. cbn [tail_ignored]. intros H.
  apply negb_true_iff in H.
  apply orb_false_iff in H as [H _]. apply orb_false_iff in H as [H _].
  apply orb_false_iff in H as [_ H]. by rewrite H.
Qed.

(** A decimal number followed by a tail that cannot continue it is read
    as the number alone. *)
Lemma read_unsigned_tail p g :
  well_formed_decimal p = true -> tail_ignored g = true ->
  read_unsigned (p +:+ g) = read_unsigned p.
Proof.
  unfold well_formed_decimal, read_unsigned. intros Hp Hg.
  rewrite read_digits_app.
  destruct (read_digits p 0 0) as [[i ni] r] eqn:Ep.
  apply andb_true_iff in Hp as [Hni Hr].
  destruct r as [|c r].
  - rewrite read_digits_tail by done. rewrite point_tail by done.
    by rewrite read_exponent_tail.
  - apply andb_true_iff in Hr as [Hc Hf].
    change (String c r +:+ g) with (String c (r +:+ g)).
    cbv beta iota. rewrite Hc. cbv beta iota.
    destruct (read_digits_acc r 0 i 0) as [Hk Hrest].
    destruct (read_digits r 0 0) as [[f0 nf] r''] eqn:Er.
    apply andb_true_iff in Hf as [Hnf Hend].
    apply String.eqb_eq in Hend as ->.
    rewrite read_digits_app.
    destruct (read_digits r i 0) as [[f nf'] r''] eqn:Er'.
    cbn [fst snd] in Hk, Hrest. subst nf' r''.
    rewrite read_digits_tail by done. by rewrite read_exponent_tail.
Qed.

Lemma digit_leads c s :
  is_digit c = true ->
  trim_start (String c s) = String c s
  /\ Ascii.eqb c "+" = false /\ Ascii.eqb c "-" = false
  /\ starts_with "Infinity" (String c s) = false.
Proof.
  intros Hc. unfold trim_start. cbn [String.length trim_start_fuel].
  destruct c as [[] [] [] [] [] [] [] []]; try discriminate Hc;
    split_and!; reflexivity.
Qed.

Lemma parseFloat_tail p g :
  well_formed_decimal p = true -> tail_ignored g = true ->
  parseFloat (p +:+ g) = parseFloat p.
Proof.
  intros Hp Hg.
  assert (Hd : exists c p', p = String c p' /\ is_digit c = true).
  { unfold well_formed_decimal in Hp. destruct p as [|c p']; [done|].
    exists c, p'. split; [done|]. cbn [read_digits] in Hp.
    by destruct (is_digit c). }
  destruct Hd as (c & p' & -> & Hc).
  unfold parseFloat. change (String c p' +:+ g) with (String c (p' +:+ g)).
  destruct (digit_leads c (p' +:+ g) Hc) as (-> & Hplus & Hminus & Hinf).
  destruct (digit_leads c p' Hc) as (-> & _ & _ & Hinf').
  cbv beta iota. rewrite Hplus, Hminus. cbv beta iota.
  rewrite Hinf, Hinf'.
  change (String c (p' +:+ g)) with (String c p' +:+ g).
  by rewrite read_unsigned_tail.
Qed.

Lemma read_unsigned_none u :
  match u with
  | String c r =>
      is_digit c
      || (Ascii.eqb c "."
          && match r with
             | String d _ => is_digit d
             | EmptyString => false
             end)
  | EmptyString => false
  end = false ->
  read_unsigned u = None.
Proof.
  destruct u as [|c r]; [done|]. intros H.
  apply orb_false_iff in H as [Hc Hp].
  unfold read_unsigned. rewrite read_digits_stops by done.
  destruct (Ascii.eqb c ".") eqn:Ec; [|done].
  destruct r as [|d r']; [done|].
  cbn [andb] in Hp. by rewrite read_digits_stops.
Qed.

(** A string that does not start like a number parses to [NaN]. *)
Lemma parseFloat_no_prefix s :
  has_numeric_prefix s = false -> parseFloat s = S754_nan.
Proof.
  unfold has_numeric_prefix, parseFloat.
  destruct (trim_start s) as [|c r]; cbv zeta.
  - done.
  - intros H. apply orb_false_iff in H as [Hi Hu].
    destruct (Ascii.eqb c "+") eqn:Eplus; cbn [orb] in *.
    { rewrite Hi. by rewrite read_unsigned_none. }
    destruct (Ascii.eqb c "-") eqn:Eminus; cbn [orb] in *.
    { rewrite Hi. by rewrite read_unsigned_none. }
    rewrite Hi. by rewrite read_unsigned_none.
Qed.

(** C3.  The amount is computed in binary floating point.  For the prices
    0.01, 0.1 and 1 it is 10000, 100000 and 1000000, as specified.  For the
    price 2.01 it is 2009999, one less than floor(2.01 * 10^6) = 2010000;
    and for a price of 28 decimals just below 0.000001 it is 1, one more
    than the floor, 0. *)
Theorem C3_amount_in_floating_point :
  let amount p :=
    prop (buildPaymentRequirements env server_config toolDef toolName
            (Sample.priced p)) "maxAmountRequired" in
  let challenge p :=
    prop (acceptsEntry env server_config toolDef toolName
            (Sample.priced p)) "maxAmountRequired" in
  (amount "0.01" = VStr "10000" /\ challenge "0.01" = VStr "10000") /\
  (amount "0.1" = VStr "100000" /\ challenge "0.1" = VStr "100000") /\
  (amount "1" = VStr "1000000" /\ challenge "1" = VStr "1000000") /\
  (amount "2.01" = VStr "2009999" /\ challenge "2.01" = VStr "2009999") /\
  spec_maxAmountRequired "2.01" = Some "2010000" /\
  (amount "0.0000009999999999999999999999" = VStr "1" /\
   challenge "0.0000009999999999999999999999" = VStr "1") /\
  spec_maxAmountRequired "0.0000009999999999999999999999" = Some "0".
Proof.
  cbv zeta.
  repeat match goal with
         | |- context [buildPaymentRequirements _ _ _ _ ?cfg] =>
             rewrite (proj1 (maxAmountRequired_built cfg)),
               (proj2 (maxAmountRequired_built cfg))
         end.
  split_and!; vm_compute; reflexivity.
Qed.

(** C4, as amended.  Building the requirement does not validate the price
    and does not fail.  When the price does not start like a number (after
    white space and an optional sign: neither [Infinity], nor a digit, nor
    a point followed by a digit), [maxAmountRequired] is the string [NaN];
    when it is a decimal number followed by characters that cannot continue
    it, [maxAmountRequired] is the amount of that number alone.  This holds
    of the requirement handed to the facilitator and of the entry of the
    payment-required response alike. *)
Theorem C4_unvalidated_price cfg reading :
  price_read_as (price cfg) reading ->
  let amount :=
    match reading with
    | None => "NaN"
    | Some p => priceInSmallestUnit p
    end in
  prop (buildPaymentRequirements env server_config toolDef toolName cfg)
    "maxAmountRequired" = VStr amount
  /\ prop (acceptsEntry env server_config toolDef toolName cfg)
       "maxAmountRequired" = VStr amount.
Proof.
  intros H. cbv zeta.
  destruct (maxAmountRequired_built cfg) as [-> ->].
  assert (Hamount : priceInSmallestUnit (price cfg) =
                    match reading with
                    | None => "NaN"
                    | Some p => priceInSmallestUnit p
                    end).
  { destruct H as [Hn|p g Hs Hp Hg]; unfold priceInSmallestUnit.
    - by rewrite (parseFloat_no_prefix _ Hn).
    - by rewrite Hs, parseFloat_tail. }
  by rewrite Hamount.
Qed.

End Amount.

Lemma C4_witness :
  price_read_as (price (Sample.priced "12abc")) (Some "12") /\
  prop (buildPaymentRequirements Sample.env Sample.server_config
          Sample.premium_analysis "premium_analysis" (Sample.priced "12abc"))
    "maxAmountRequired" = VStr (priceInSmallestUnit "12") /\
  prop (acceptsEntry Sample.env Sample.server_config
          Sample.premium_analysis "premium_analysis" (Sample.priced "12abc"))
    "maxAmountRequired" = VStr (priceInSmallestUnit "12").
Proof.
  assert (H : price_read_as (price (Sample.priced "12abc")) (Some "12")).
  { apply read_as_prefix with (g := "abc"); reflexivity. }
  split; [exact H|].
  exact (C4_unvalidated_price Sample.env Sample.server_config
           Sample.premium_analysis "premium_analysis" (Sample.priced "12abc")
           (Some "12") H).
Defined.

(** C4, as stated, fails: the price [12abc] is not a well-formed decimal
    number, yet the requirement is built, with the amount of its numeric
    prefix; and the price [abc] gives the amount [NaN]. *)
Lemma C4_counterexample :
  well_formed_decimal "12abc" = false /\
  prop (buildPaymentRequirements Sample.env Sample.server_config
          Sample.premium_analysis "premium_analysis" (Sample.priced "12abc"))
    "maxAmountRequired" = VStr "12000000" /\
  well_formed_decimal "abc" = false /\
  prop (buildPaymentRequirements Sample.env Sample.server_config
          Sample.premium_analysis "premium_analysis" (Sample.priced "abc"))
    "maxAmountRequired" = VStr "NaN".
Proof. split_and!; vm_compute; reflexivity. Qed.

(** ** The sample deployment, run *)

(** Paying on base-sepolia: verified, executed, settled, confirmed. *)
Example sample_settled :
  (Sample.run (Sample.paying Sample.proof_base)).1
    = Normal (HandlerResult 1%positive) /\
  settled (trace (Sample.run (Sample.paying Sample.proof_base)).2)
    Sample.receipt /\
  heap (Sample.run (Sample.paying Sample.proof_base)).2 !! 1%positive
    = Some {| content := content Sample.analysis;
              isError := None;
              _meta :=
                Some [ ("source", VStr "cache");
                       ("x402.payment-response",
                         VObj [ ("settled", VBool true);
                                ("txHash", VStr "0xabc") ]) ] |}.
Proof. split_and!; [vm_compute; reflexivity|split|]; vm_compute; reflexivity. Qed.

(** Paying on xlayer: verified and executed, then settlement is refused. *)
Example sample_refused :
  (Sample.run (Sample.paying Sample.proof_xlayer)).1
    = Normal (NewResult (errorResult
               (VObj [ ("error", VStr "Payment settlement failed");
                       ("details", VStr "insufficient funds") ]))) /\
  heap (Sample.run (Sample.paying Sample.proof_xlayer)).2 !! 1%positive
    = Some Sample.analysis.
Proof. split; vm_compute; reflexivity. Qed.

(** Not paying: the challenge lists both networks. *)
Example sample_challenge :
  exists r,
    (Sample.run (Sample.call VUndefined)).1 = Normal (NewResult r) /\
    isError r = Some true /\
    (text <$> content r) =
      [ JSON_stringify
          (VObj [ ("x402Version", VNum (of_Z 1));
                  ("error", VStr "_meta.x402.payment is required");
                  ("accepts",
                    VArr [ acceptsEntry Sample.env Sample.server_config
                             Sample.premium_analysis "premium_analysis"
                             Sample.xlayer_config;
                           acceptsEntry Sample.env Sample.server_config
                             Sample.premium_analysis "premium_analysis"
                             (Sample.priced "0.1") ]) ]) ] /\
    prop (acceptsEntry Sample.env Sample.server_config
            Sample.premium_analysis "premium_analysis" Sample.xlayer_config)
      "maxAmountRequired" = VStr "10000".
Proof. eexists. split_and!; vm_compute; reflexivity. Qed.

(** * Further facts: registration and [tools/list] *)

Section Registry.

Implicit Types (c : SetupCall) (setupTools : list SetupCall).

Lemma perform_snoc tools c :
  perform tools c = tools ++ [(definition_of c, schema_of c)].
Proof. by destruct c. Qed.

Lemma fold_perform setupTools tools :
  fold_left perform setupTools tools =
    tools ++ map (fun c => (definition_of c, schema_of c)) setupTools.
Proof.
  revert tools. induction setupTools as [|c cs IH]; intros tools; simpl.
  - by rewrite app_nil_r.
  - rewrite IH, perform_snoc, <- app_assoc. reflexivity.
Qed.

Lemma createPaidMcpHandler_tools setupTools :
  map fst (createPaidMcpHandler setupTools) = map definition_of setupTools.
Proof.
  unfold createPaidMcpHandler. rewrite fold_perform. simpl.
  rewrite map_map. reflexivity.
Qed.

Lemma name_definition_of c : name (definition_of c) = call_name c.
Proof. by destruct c. Qed.

Lemma find_unregistered setupTools n :
  (forall c, c ∈ setupTools -> call_name c <> n) ->
  find (fun t => String.eqb (name t) n) (map definition_of setupTools) = None.
Proof.
  induction setupTools as [|c cs IH]; intros Hnone; simpl; [done|].
  rewrite name_definition_of.
  destruct (String.eqb (call_name c) n) eqn:E.
  - apply String.eqb_eq in E. exfalso. apply (Hnone c); [left|done].
  - apply IH. intros c' Hc'. apply Hnone. by right.
Qed.

(** X1.  A call that names a tool which no setup call registered throws
    [Tool not found: <name>], whatever its arguments and metadata; nothing
    is sent, no callback runs and the state is as before. *)
Theorem unregistered_tool_not_found env setupTools server_config request st :
  Forall (fun c => call_name c <> params_name request) setupTools ->
  callTool env setupTools server_config request st =
    (Throw (ErrorObj ("Tool not found: " +:+ params_name request)), st).
Proof.
  intros Hnone. rewrite Forall_forall in Hnone.
  unfold callTool, handleCallTool.
  rewrite createPaidMcpHandler_tools. cbv zeta.
  by rewrite find_unregistered.
Qed.

(** X2.  When several setup calls register the same name, a call of that
    name is dispatched to the first of them: its schema, its callback and
    its payment options are the ones used, and a later registration, paid or
    free, never replaces it. *)
Theorem first_registration_wins setupTools before c after request :
  setupTools = before ++ c :: after ->
  call_name c = params_name request ->
  Forall (fun c' => call_name c' <> params_name request) before ->
  registered (map fst (createPaidMcpHandler setupTools)) request
    (definition_of c).
Proof.
  intros -> Hc Hbefore. rewrite Forall_forall in Hbefore. unfold registered.
  rewrite createPaidMcpHandler_tools, map_app. simpl.
  induction before as [|b bs IH]; simpl.
  - by rewrite name_definition_of, Hc, String.eqb_refl.
  - rewrite name_definition_of.
    destruct (String.eqb (call_name b) (params_name request)) eqn:E.
    + apply String.eqb_eq in E. exfalso. apply (Hbefore b); [left|done].
    + apply IH. intros c' Hc'. apply Hbefore. by right.
Qed.

End Registry.
Section Schemas.

Implicit Types (shape : list (string * ZodType)) (z : ZodType).

Lemma obj_set_fresh k v fs :
  k ∉ map fst fs -> obj_set k v fs = fs ++ [(k, v)].
Proof.
  induction fs as [|[k' v'] fs IH]; simpl; intros Hk; [done|].
  destruct (String.eqb k' k) eqn:E.
  - apply String.eqb_eq in E as ->. exfalso. apply Hk. left.
  - rewrite IH; [done|]. intros Hin. apply Hk. by right.
Qed.

Lemma fold_properties shape acc :
  NoDup (map fst acc ++ map fst shape) ->
  fold_left
    (fun properties '(key, value) =>
       obj_set key (zodToJsonSchema value) properties) shape acc =
  acc ++ map (fun f => (f.1, zodToJsonSchema f.2)) shape.
Proof.
  revert acc. induction shape as [|[k z] shape IH]; intros acc Hnd; simpl.
  - by rewrite app_nil_r.
  - apply NoDup_app in Hnd as (Hacc & Hdisj & Hshape). simpl in *.
    apply NoDup_cons in Hshape as [Hk Hshape].
    rewrite obj_set_fresh by (intros Hin; apply (Hdisj k Hin); left).
    rewrite IH.
    + by rewrite <- app_assoc.
    + rewrite map_app. simpl. apply NoDup_app. split_and!.
      * apply NoDup_app. split_and!; [done| |apply NoDup_singleton].
        intros x Hx Hx'. apply list_elem_of_singleton in Hx' as ->.
        apply (Hdisj k Hx). left.
      * intros x Hx Hx'. apply elem_of_app in Hx as [Hx|Hx].
        -- apply (Hdisj x Hx). by right.
        -- apply list_elem_of_singleton in Hx as ->. done.
      * done.
Qed.

Lemma propertiesOf_fields shape :
  NoDup (map fst shape) ->
  propertiesOf shape = map (fun f => (f.1, zodToJsonSchema f.2)) shape.
Proof. intros Hnd. unfold propertiesOf. by rewrite fold_properties. Qed.

Lemma fold_required shape acc :
  fold_left
    (fun required '(key, value) =>
       if is_ZodOptional value then required else required ++ [VStr key])
    shape acc =
  acc ++ map (fun f => VStr f.1)
           (filter (fun f => is_ZodOptional f.2 = false) shape).
Proof.
  revert acc. induction shape as [|[k z] shape IH]; intros acc; simpl.
  - by rewrite app_nil_r.
  - rewrite IH, filter_cons. simpl.
    destruct (is_ZodOptional z) eqn:E.
    + by rewrite decide_False.
    + rewrite decide_True by done. simpl. by rewrite <- app_assoc.
Qed.

Lemma zodToJsonSchema_entries shape acc :
  (fix entries (shape : list (string * ZodType))
       (properties : list (string * value)) : list (string * value) :=
     match shape with
     | [] => properties
     | (key, value) :: rest =>
         entries rest (obj_set key (zodToJsonSchema value) properties)
     end) shape acc =
  fold_left
    (fun properties '(key, value) =>
       obj_set key (zodToJsonSchema value) properties) shape acc.
Proof.
  revert acc. induction shape as [|[k z] shape IH]; intros acc; simpl; auto.
Qed.

(** X3.  The handler of [tools/list] lists one tool per setup call, in the
    order of the calls, each with the name and the description it was
    registered with; every [inputSchema] has type [object], and for a
    parameter schema that is not itself an object schema (an optional object
    included) it has no properties and requires nothing. *)
Theorem tools_listed_in_registration_order setupTools :
  exists entries,
    handleListTools (createPaidMcpHandler setupTools)
      = VObj [ ("tools", VArr entries) ] /\
    length entries = length setupTools /\
    forall i c,
      setupTools !! i = Some c ->
      exists entry,
        entries !! i = Some entry /\
        prop entry "name" = VStr (call_name c) /\
        prop entry "description" = VStr (description (definition_of c)) /\
        prop (prop entry "inputSchema") "type" = VStr "object" /\
        ((forall shape, schema_of c <> ZodObject shape) ->
         prop (prop entry "inputSchema") "properties" = VObj [] /\
         prop (prop entry "inputSchema") "required" = VArr []).
Proof.
  unfold handleListTools, createPaidMcpHandler. rewrite fold_perform. simpl.
  eexists. split; [reflexivity|]. split; [by rewrite !length_map|].
  intros i c Hi. rewrite map_map.
  eexists. split; [by rewrite list_lookup_fmap, Hi|]. simpl.
  split_and!.
  - by rewrite <- name_definition_of.
  - reflexivity.
  - by destruct (schema_of c).
  - intros Hno. destruct (schema_of c); try done. by edestruct Hno.
Qed.

Lemma obj_get_NoDup k v fs :
  NoDup (map fst fs) -> (k, v) ∈ fs -> obj_get k fs = Some v.
Proof.
  induction fs as [|[k' v'] fs IH]; simpl; intros Hnd Hin.
  - by apply elem_of_nil in Hin.
  - apply NoDup_cons in Hnd as [Hk Hnd].
    apply elem_of_cons in Hin as [[= <- <-]|Hin].
    + by rewrite String.eqb_refl.
    + destruct (String.eqb k' k) eqn:E; [|by apply IH].
      apply String.eqb_eq in E as ->. exfalso. apply Hk.
      by apply (list_elem_of_fmap_2 fst) in Hin.
Qed.

Lemma NoDup_fst_functional {A} (l : list (string * A)) k x y :
  NoDup (map fst l) -> (k, x) ∈ l -> (k, y) ∈ l -> x = y.
Proof.
  induction l as [|[k' v'] l IH]; simpl; intros Hnd Hx Hy.
  - by apply elem_of_nil in Hx.
  - apply NoDup_cons in Hnd as [Hk Hnd].
    apply elem_of_cons in Hx as [[= <- <-]|Hx];
      apply elem_of_cons in Hy as [[= <-]|Hy]; try done.
    + exfalso. apply Hk. by apply (list_elem_of_fmap_2 fst) in Hy.
    + exfalso. apply Hk. by apply (list_elem_of_fmap_2 fst) in Hx.
    + by apply IH.
Qed.

(** X4.  For a tool registered with an object schema, the listed
    [inputSchema] has one property per field of the shape, in the order of
    the shape, each holding the translation of the field's schema, and
    [required] lists, in the same order, the keys whose schema is not a
    [ZodOptional]: a field is required exactly when it is not optional at
    its top level. *)
Theorem object_schema_listed shape :
  NoDup (map fst shape) ->
  prop (inputSchemaOf (ZodObject shape)) "properties"
    = VObj (map (fun f => (f.1, zodToJsonSchema f.2)) shape) /\
  prop (inputSchemaOf (ZodObject shape)) "required"
    = VArr (map (fun f => VStr f.1)
              (filter (fun f => is_ZodOptional f.2 = false) shape)) /\
  forall k z,
    (k, z) ∈ shape ->
    prop (prop (inputSchemaOf (ZodObject shape)) "properties") k
      = zodToJsonSchema z /\
    (VStr k ∈ map (fun f => VStr f.1)
                (filter (fun f => is_ZodOptional f.2 = false) shape)
     <-> is_ZodOptional z = false).
Proof.
  intros Hnd.
  assert (Hp : prop (inputSchemaOf (ZodObject shape)) "properties"
               = VObj (map (fun f => (f.1, zodToJsonSchema f.2)) shape)).
  { unfold inputSchemaOf. rewrite propertiesOf_fields by done. reflexivity. }
  split; [exact Hp|]. split.
  { unfold inputSchemaOf, requiredOf. rewrite fold_required. reflexivity. }
  intros k z Hin. rewrite Hp. split.
  - change (prop (VObj ?fs) k) with (default VUndefined (obj_get k fs)).
    rewrite (obj_get_NoDup k (zodToJsonSchema z)); [done| |].
    + by rewrite map_map.
    + apply (list_elem_of_fmap_2 (fun f => (f.1, zodToJsonSchema f.2))) in Hin.
      exact Hin.
  - split.
    + intros Hreq. apply list_elem_of_fmap in Hreq as ([k' z'] & [= <-] & Hf).
      apply list_elem_of_filter in Hf as [Hopt Hf]. simpl in *.
      by rewrite (NoDup_fst_functional _ _ _ _ Hnd Hin Hf).
    + intros Hopt. apply (list_elem_of_fmap_2' (fun f => VStr f.1) _ (k, z));
        [|done].
      apply list_elem_of_filter. by split.
Qed.

(** X5.  The [tools/list] handler translates an object schema with its own
    copy of the loop of [zodToJsonSchema]; the two agree, so that a tool's
    parameters are listed exactly as a nested object of the same shape would
    be. *)
Theorem listed_schema_is_translation shape :
  inputSchemaOf (ZodObject shape) = zodToJsonSchema (ZodObject shape).
Proof.
  unfold inputSchemaOf, propertiesOf. cbn [zodToJsonSchema].
  by rewrite zodToJsonSchema_entries.
Qed.

(** X6.  Whatever the schema, its translation is an object with a [type]
    among [string], [number], [boolean], [array] and [object]: optional
    wrappers are looked through, and a class of schema that the translation
    does not know is given the type [string]. *)
Theorem zodToJsonSchema_typed z :
  exists t,
    prop (zodToJsonSchema z) "type" = VStr t /\ t ∈ json_schema_types.
Proof.
  unfold json_schema_types.
  induction z as [| | |element IH|shape|values|innerType IH|];
    try exact IH; eexists; (split; [reflexivity|]); repeat constructor.
Qed.

End Schemas.
(** * Further facts: the gateway and the signed request *)

Section GatewayFailures.

Variable env : Env.

(** X7.  A facilitator that answers with an HTTP error status makes the
    gateway call throw [Facilitator <action> failed: <body text>], whatever
    the type of the facilitator: the body is read as text and is not parsed,
    so an OKX error envelope sent with an error status is reported as its
    raw text; if the text cannot be read, that failure is thrown instead. *)
Theorem facilitator_http_error_thrown a f cfg dp rq st response :
  answer env a f (facilitatorPayload f cfg dp rq) (trace st) = inr response ->
  ok response = false ->
  (callFacilitator env a f cfg dp rq st).1 =
    match res_text response with
    | inl e => Throw e
    | inr errorText =>
        Throw (ErrorObj ("Facilitator " +:+ action_name a +:+ " failed: "
                         +:+ errorText))
    end.
Proof.
  intros Hans Hok. rewrite callFacilitator_unfold. cbn [fst].
  rewrite Hans. cbn [normalized]. rewrite Hok.
  by destruct (res_text response).
Qed.

(** X8.  For every facilitator of type okx, with credentials or without,
    an ok answer is read as the envelope [{ code, data, msg }].  With the
    code ["0"] and a non-empty [data] array the call returns the first
    element and ignores the others.  With any other code, a number [0] and
    a missing code included, it throws: an [Error] whose message is the
    string form of [msg] when [msg] is truthy ([msg] itself when it is a
    string), the [TypeError] of that conversion when [msg] is an object
    with a [toString] property of its own, and an [Error] with the message
    [OKX facilitator error] when [msg] is missing or falsy.  So a plain
    answer such as [{ isValid: true }] is never accepted from such a
    facilitator. *)
Theorem okx_envelope_unwrapped a f cfg dp rq st response result code :
  type f = Some okx ->
  answer env a f (facilitatorPayload f cfg dp rq) (trace st) = inr response ->
  ok response = true ->
  res_json response = inr result ->
  get_prop result "code" = inr code ->
  (forall d rest,
      code = VStr "0" -> prop result "data" = VArr (d :: rest) ->
      (callFacilitator env a f cfg dp rq st).1 = Normal d) /\
  (code <> VStr "0" ->
   (callFacilitator env a f cfg dp rq st).1 =
     Throw
       (if truthy (prop result "msg") then
          match ToString (prop result "msg") with
          | inr message => ErrorObj message
          | inl error => error
          end
        else ErrorObj "OKX facilitator error") /\
   (forall message,
       prop result "msg" = VStr message -> message <> "" ->
       (callFacilitator env a f cfg dp rq st).1 = Throw (ErrorObj message)) /\
   (forall fields own,
       prop result "msg" = VObj fields ->
       obj_get "toString" fields = Some own ->
       (callFacilitator env a f cfg dp rq st).1 =
         Throw (ErrorObj "Cannot convert object to primitive value"))).
Proof.
  intros Ht Hans Hok Hjson Hcode. rewrite callFacilitator_unfold. cbn [fst].
  rewrite Hans. cbn [normalized]. rewrite Hok, Hjson.
  unfold parseFacilitatorResult, is_okx. rewrite Ht, Hcode. split.
  - intros d rest -> Hdata. rewrite Hdata.
    change (prop (VArr (d :: rest)) "length")
      with (length_value (S (length rest))).
    change (prop (VArr (d :: rest)) "0") with d.
    change (truthy (VArr (d :: rest))) with true. cbn.
    destruct (of_Z (Z.of_nat (S (length rest)))) eqn:E; try done.
    by apply of_Z_succ_nonzero in E.
  - intros Hne.
    assert (Hwrong :
      (match code with
       | VStr c => negb (String.eqb c "0")
       | _ => true
       end || negb (truthy (prop result "data")))%bool = true).
    { destruct code as [| | | |s| |]; try done.
      destruct (String.eqb s "0") eqn:E; [|done].
      apply String.eqb_eq in E. by subst. }
    rewrite Hwrong. cbn [outcome_of].
    assert (Hthrown :
      new_Error (or_else (prop result "msg") (VStr "OKX facilitator error"))
      = if truthy (prop result "msg") then
          match ToString (prop result "msg") with
          | inr message => ErrorObj message
          | inl error => error
          end
        else ErrorObj "OKX facilitator error").
    { unfold or_else, new_Error.
      destruct (truthy (prop result "msg")) eqn:Hm; [|done].
      by destruct (prop result "msg"). }
    rewrite Hthrown. split; [done|]. split.
    + intros message Hmsg Hnonempty. rewrite Hmsg.
      unfold truthy. apply String.eqb_neq in Hnonempty.
      by rewrite Hnonempty.
    + intros fields own Hmsg Hown. rewrite Hmsg.
      change (truthy (VObj fields)) with true. cbv iota.
      change (ToString (VObj fields))
        with (match obj_get "toString" fields with
              | Some _ =>
                  @inl exn string
                    (ErrorObj "Cannot convert object to primitive value")
              | None => inr "[object Object]"
              end).
      by rewrite Hown.
Qed.

(** X9.  [makeOKXRequest] signs what it sends. For any method and body it
    sends one request, to the given URL, with the method in upper case and
    the five OKX headers, and the signature is the HMAC, keyed by the
    secret, of timestamp, upper-case method, path and the very body that the
    request carries (the empty string when it carries none); a [GET], in
    whatever case it is written, carries no body. The one exception: with
    another method and a body that [JSON.stringify] turns into [undefined],
    it throws a [TypeError] before anything is sent. *)
Theorem makeOKXRequest_signs_what_it_sends u method path body c st :
  let timestamp := now env (trace st) in
  (exists q,
      makeOKXRequest env u method path body c st = fetch env q st /\
      req_url q = u /\
      req_method q = toUpperCase method /\
      req_headers q =
        [ ("Content-Type", "application/json");
          ("OK-ACCESS-KEY", apiKey c);
          ("OK-ACCESS-SIGN",
            hmac_sha256_base64 env (secretKey c)
              (timestamp +:+ req_method q +:+ path
               +:+ default "" (req_body q)));
          ("OK-ACCESS-PASSPHRASE", passphrase c);
          ("OK-ACCESS-TIMESTAMP", timestamp) ] /\
      (toUpperCase method = "GET" -> req_body q = None) /\
      (toUpperCase method <> "GET" ->
       forall b, JSON_stringify body = Some b -> b <> "" ->
                 req_body q = Some b)) \/
  (toUpperCase method <> "GET" /\
   JSON_stringify body = None /\
   makeOKXRequest env u method path body c st =
     (Throw (ErrorObj
               "Cannot read properties of undefined (reading 'substring')"),
      st)).
Proof.
  cbv zeta. unfold makeOKXRequest, generateOKXHeaders, bind.
  destruct (String.eqb (toUpperCase method) "GET") eqn:Hget.
  - apply String.eqb_eq in Hget. left. eexists. split; [reflexivity|].
    cbn. split_and!; try done.
  - apply String.eqb_neq in Hget.
    destruct (JSON_stringify body) as [b|] eqn:Hb.
    + left. eexists. split; [reflexivity|]. cbn.
      split_and!; try done.
      * destruct (String.eqb b "") eqn:Eb; cbn; [|done].
        by apply String.eqb_eq in Eb as ->.
      * intros _ b' [= <-] Hne. apply String.eqb_neq in Hne. by rewrite Hne.
    + right. done.
Qed.

End GatewayFailures.
(** * Further facts: the [tools/call] handler *)

(** ** Free tools *)

Section FreeTool.

Variable env : Env.
Variable tools : list ToolDefinition.
Variable server_config : ServerConfig.
Variable toolDef : ToolDefinition.
Variable request : CallToolRequest.
Variable st : State.

Hypothesis Hregistered : registered tools request toolDef.
Hypothesis Hfree : paymentOptions toolDef = None.

(** X10.  A call to a tool registered without payment options never contacts
    a facilitator, whatever payment its metadata carries. If the schema
    rejects the arguments, that error is thrown to the caller and the
    callback does not run; otherwise the callback runs once, on the parsed
    arguments and the metadata of the request, and the call resolves to the
    very object it returned, or throws what it threw; the store is as the
    callback left it, with no payment confirmation added. *)
Theorem free_tool_runs_unpaid out st' :
  handleCallTool env tools server_config request st = (out, st') ->
  exists evs,
    trace st' = trace st ++ evs /\
    (forall ev, ev ∈ evs -> is_fetch ev = false /\ is_facilitator ev = false) /\
    match paramsSchema toolDef (params_arguments request) with
    | inl e => out = Throw e /\ evs = [] /\ heap st' = heap st
    | inr args =>
        exists res,
          callback toolDef args (params_meta request) st = (res, heap st') /\
          evs = [EvHandler (name toolDef) args (params_meta request) res
                   (heap st')] /\
          out = match res with
                | inl e => Throw e
                | inr l => Normal (HandlerResult l)
                end
    end.
Proof.
  unfold handleCallTool. rewrite Hregistered, Hfree. cbv zeta.
  unfold invoke, bind, lift, throw, ret.
  destruct (paramsSchema toolDef (params_arguments request)) as [e|args].
  - intros [= <- <-]. exists []. rewrite app_nil_r.
    split_and!; try done. intros ev Hev. by apply elem_of_nil in Hev.
  - destruct (callback toolDef args (params_meta request) st) as [res h]
      eqn:Hcb.
    destruct res as [e|l]; intros [= <- <-]; cbn [trace heap];
      (eexists; split; [reflexivity|]; split;
       [ intros ev Hev; apply list_elem_of_singleton in Hev as ->; done
       | eexists; split_and!; reflexivity ]).
Qed.

End FreeTool.
(** ** Paid tools: what every call keeps to *)

Section PaidCalls.

Variable env : Env.
Variable tools : list ToolDefinition.
Variable server_config : ServerConfig.
Variable toolDef : ToolDefinition.
Variable request : CallToolRequest.
Variable cfgs : list PaymentConfig.
Variable st : State.

Hypothesis Hregistered : registered tools request toolDef.
Hypothesis Hpaid : paymentOptions toolDef = Some cfgs.

Lemma paid_run out st' evs :
  handleCallTool env tools server_config request st = (out, st') ->
  trace st' = trace st ++ evs ->
  exists reply,
    out = Normal reply /\
    PaidRun env server_config toolDef request cfgs st reply evs (heap st').
Proof.
  intros Hrun Htr.
  destruct (handleCallTool_paid _ _ _ _ _ _ _ Hregistered Hpaid _ _ Hrun)
    as (reply & evs' & -> & Htr' & Hpr).
  rewrite Htr' in Htr. apply app_inv_head in Htr as ->. eauto.
Qed.

(** X11.  A call to a paid tool never throws: whatever goes wrong after the
    tool was found (an undecodable proof, a facilitator that fails,
    arguments that the schema rejects, a callback that throws) comes back as
    a result. A result that the handler builds itself is flagged as an
    error, has one text block and no metadata; the only other result is the
    object that the callback returned in this call. *)
Theorem paid_call_never_throws out st' evs :
  handleCallTool env tools server_config request st = (out, st') ->
  trace st' = trace st ++ evs ->
  exists reply,
    out = Normal reply /\
    match reply with
    | NewResult r =>
        isError r = Some true /\ _meta r = None /\
        exists payload, r = errorResult payload
    | HandlerResult l =>
        exists args store,
          EvHandler (name toolDef) args (params_meta request) (inr l) store
            ∈ evs
    end.
Proof.
  intros Hrun Htr.
  destruct (paid_run _ _ _ Hrun Htr) as (reply & -> & Hpr).
  exists reply. split; [done|].
  destruct Hpr.
  all: try (split_and!; [reflexivity|reflexivity|eexists; reflexivity]).
  all: eexists _, _; repeat constructor.
Qed.

(** X12.  The seller is never left unpaid for work delivered: when a call to
    a paid tool resolves to a result that is not flagged as an error, the
    payment was settled with success in that call, and the result carries
    the confirmation of that settlement. *)
Theorem success_implies_settlement out st' evs l r :
  handleCallTool env tools server_config request st = (out, st') ->
  trace st' = trace st ++ evs ->
  out = Normal (HandlerResult l) ->
  heap st' !! l = Some r ->
  unflagged r = true ->
  exists sr,
    settled evs sr /\
    obj_get "x402.payment-response" (default [] (_meta r))
      = Some (paymentResponse sr).
Proof.
  intros Hrun Htr -> Hl Hr.
  destruct (paid_run _ _ _ Hrun Htr) as (reply & [= <-] & Hpr).
  inversion Hpr; simplify_eq/=.
  - congruence.
  - match goal with H : heap st' = _ |- _ => rewrite H in Hl end.
    rewrite lookup_insert_eq in Hl. simplify_eq/=.
    eexists. split; [by split|]. apply obj_get_set.
Qed.

(** X13.  No retries: one call to a paid tool sends at most two requests,
    asks for verification at most once and runs the callback at most once. *)
Theorem paid_call_bounded out st' evs :
  handleCallTool env tools server_config request st = (out, st') ->
  trace st' = trace st ++ evs ->
  (length (List.filter is_fetch evs) <= 2)%nat /\
  (length (List.filter is_handler evs) <= 1)%nat /\
  (length (List.filter (fun ev => is_facilitator ev && negb (is_settle ev))
             evs) <= 1)%nat.
Proof.
  intros Hrun Htr.
  destruct (paid_run _ _ _ Hrun Htr) as (reply & -> & Hpr).
  destruct Hpr; cbn; lia.
Qed.

(** X14.  A failed verification ends the call. When verify throws, or
    returns something whose [isValid] is not truthy, the call resolves to an
    error-flagged result: [Invalid payment] with the [invalidReason] that
    came back (a fixed text when there is none), or [Payment processing
    error] with the message of what was thrown; the verify request is the
    only one sent, the callback does not run and the store is untouched. *)
Theorem failed_verification_ends_call out st' evs res :
  handleCallTool env tools server_config request st = (out, st') ->
  trace st' = trace st ++ evs ->
  EvFacilitator verify res ∈ evs ->
  verify_failed res ->
  exists q a r,
    evs = [EvFetch q a; EvFacilitator verify res] /\
    out = Normal (NewResult r) /\
    verification_failure_reply res r /\
    heap st' = heap st.
Proof.
  intros Hrun Htr Hin Hfail.
  destruct (paid_run _ _ _ Hrun Htr) as (reply & -> & Hpr).
  destruct Hpr;
    repeat match goal with
           | H : _ ∈ [] |- _ => by apply elem_of_nil in H
           | H : _ ∈ _ :: _ |- _ => apply elem_of_cons in H as [H|H]
           end; simplify_eq/=;
    try (unfold flagged in *; congruence);
    eexists _, _, _; split_and!; try reflexivity;
    unfold verification_failure_reply;
    by repeat match goal with
              | H : get_prop _ "isValid" = _ |- _ => rewrite H
              end.
Qed.

(** X15.  A failed execution is not charged. When the callback throws,
    returns [undefined] or returns a result flagged as an error, no settle
    request is sent: the call resolves to the callback's own flagged result,
    left as it is, or to [Payment processing error] with the message of what
    was thrown, and the store is as the callback left it. *)
Theorem failed_execution_not_charged out st' evs tool args extra res store :
  handleCallTool env tools server_config request st = (out, st') ->
  trace st' = trace st ++ evs ->
  EvHandler tool args extra res store ∈ evs ->
  execution_failed res store ->
  exists q a vr reply,
    evs = [EvFetch q a; EvFacilitator verify (inr vr);
           EvHandler tool args extra res store] /\
    out = Normal reply /\
    execution_failure_reply res store reply /\
    heap st' = store.
Proof.
  intros Hrun Htr Hin Hfail.
  destruct (paid_run _ _ _ Hrun Htr) as (reply & -> & Hpr).
  destruct Hpr;
    repeat match goal with
           | H : _ ∈ [] |- _ => by apply elem_of_nil in H
           | H : _ ∈ _ :: _ |- _ => apply elem_of_cons in H as [H|H]
           end; simplify_eq/=;
    repeat match goal with
           | H : _ !! _ = _ |- _ => rewrite H in *
           end; try congruence;
    eexists _, _, _, _; split_and!; try reflexivity;
    unfold execution_failure_reply;
    by repeat match goal with
              | H : _ !! _ = _ |- _ => rewrite H
              end.
Qed.

End PaidCalls.
(** ** Paid tools: the checks before verification *)

Lemma find_network_none (cfgs : list PaymentConfig) n :
  (forall cfg, cfg ∈ cfgs -> VStr (network cfg) <> n) ->
  find (network_is n) cfgs = None.
Proof.
  induction cfgs as [|cfg l IH]; intros Hno; simpl; [done|].
  destruct (network_is n cfg) eqn:E.
  - exfalso. apply (Hno cfg); [left|].
    unfold network_is in E. destruct n; try done.
    by apply String.eqb_eq in E as ->.
  - apply IH. intros cfg' Hin. apply Hno. by right.
Qed.

Lemma find_network_some (cfgs : list PaymentConfig) s cfg :
  cfg ∈ cfgs -> network cfg = s ->
  exists cfg', find (network_is (VStr s)) cfgs = Some cfg'.
Proof.
  induction cfgs as [|c l IH]; intros Hin Hs; simpl.
  - by apply elem_of_nil in Hin.
  - destruct (String.eqb (network c) s) eqn:E; [eauto|].
    apply elem_of_cons in Hin as [->|Hin]; [|by apply IH].
    by rewrite Hs, String.eqb_refl in E.
Qed.

Section BeforeVerification.

Variable env : Env.
Variable tools : list ToolDefinition.
Variable server_config : ServerConfig.
Variable toolDef : ToolDefinition.
Variable request : CallToolRequest.
Variable cfgs : list PaymentConfig.
Variable st : State.

Hypothesis Hregistered : registered tools request toolDef.
Hypothesis Hpaid : paymentOptions toolDef = Some cfgs.

Let payment := optional_prop (params_meta request) "x402.payment".

(** X16.  A payment value that is present but falsy (the empty string, [0],
    [false], [null]) is treated as no payment at all: the call is answered
    with the same payment-required challenge, not with an invalid-payment
    error, and the value is not decoded. *)
Theorem falsy_payment_is_missing :
  truthy payment = false ->
  handleCallTool env tools server_config request st =
    (Normal (NewResult (paymentRequired env server_config toolDef
                          (params_name request) cfgs)), st).
Proof.
  intros Hp. unfold handleCallTool. rewrite Hregistered, Hpaid. cbv zeta.
  fold payment. by rewrite Hp.
Qed.

(** X17.  A proof whose [network] is truthy and strictly equal to the
    network of no payment option of the tool (a network given as a number,
    say, or one that differs in case) is refused before anything is sent:
    the call resolves to [Payment processing error].  The details are
    [Network '<network>' is not an accepted payment option], written with
    the string form of the network; when the network is an object with a
    [toString] property of its own, which has no string form, they are the
    message of the [TypeError] that the conversion throws. *)
Theorem unsupported_network_refused dp n :
  truthy payment = true ->
  JSON_parse_base64 env payment = inr dp ->
  get_prop dp "network" = inr n ->
  truthy n = true ->
  Forall (fun cfg => VStr (network cfg) <> n) cfgs ->
  handleCallTool env tools server_config request st =
    (Normal (NewResult (processingError
       match ToString n with
       | inr text =>
           ErrorObj ("Network '" +:+ text
                     +:+ "' is not an accepted payment option")
       | inl error => error
       end)), st) /\
  (forall text,
      n = VStr text ->
      handleCallTool env tools server_config request st =
        (Normal (NewResult (errorResult
           (VObj [ ("error", VStr "Payment processing error");
                   ("details",
                     VStr ("Network '" +:+ text
                           +:+ "' is not an accepted payment option")) ]))),
         st)) /\
  (forall fields own,
      n = VObj fields ->
      obj_get "toString" fields = Some own ->
      handleCallTool env tools server_config request st =
        (Normal (NewResult (errorResult
           (VObj [ ("error", VStr "Payment processing error");
                   ("details",
                     VStr "Cannot convert object to primitive value") ]))),
         st)).
Proof.
  intros Hp Hdp Hn Htn Hno.
  assert (Hrun :
    handleCallTool env tools server_config request st =
      (Normal (NewResult (processingError
         match ToString n with
         | inr text =>
             ErrorObj ("Network '" +:+ text
                       +:+ "' is not an accepted payment option")
         | inl error => error
         end)), st)).
  { unfold handleCallTool.
    rewrite Hregistered, Hpaid. cbv zeta. fold payment. rewrite Hp.
    cbn [negb].
    unfold try_catch, processPayment, bind, lift, throw, ret.
    rewrite Hdp, Hn, Htn. cbn [negb].
    rewrite Forall_forall in Hno. rewrite find_network_none by done.
    unfold processingError.
    destruct (ToString n) as [e|text]; by rewrite details_reported. }
  split; [exact Hrun|]. split.
  - intros text ->. exact Hrun.
  - intros fields own -> Hown. rewrite Hrun.
    change (ToString (VObj fields))
      with (match obj_get "toString" fields with
            | Some _ =>
                @inl exn string
                  (ErrorObj "Cannot convert object to primitive value")
            | None => inr "[object Object]"
            end).
    by rewrite Hown.
Qed.

(** X18.  A proof for a network that the tool accepts, for which the
    server configuration has no facilitator and whose name is not the name
    of a member that the facilitator table inherits from
    [Object.prototype] ([constructor], [toString], ...), is refused before
    anything is sent: the call resolves to [Payment processing error] with
    the details [No facilitator configured for network <network>]. *)
Theorem unconfigured_facilitator_refused dp s cfg :
  truthy payment = true ->
  JSON_parse_base64 env payment = inr dp ->
  get_prop dp "network" = inr (VStr s) ->
  s <> "" ->
  cfg ∈ cfgs -> network cfg = s ->
  facilitators server_config !! s = None ->
  is_Object_prototype_member s = false ->
  handleCallTool env tools server_config request st =
    (Normal (NewResult (errorResult
       (VObj [ ("error", VStr "Payment processing error");
               ("details",
                 VStr ("No facilitator configured for network " +:+ s)) ]))),
     st).
Proof.
  intros Hp Hdp Hn Hs Hin Hcfg Hf Hown. unfold handleCallTool.
  rewrite Hregistered, Hpaid. cbv zeta. fold payment. rewrite Hp. cbn [negb].
  unfold try_catch, processPayment, bind, lift, throw, ret.
  rewrite Hdp, Hn.
  assert (Ht : truthy (VStr s) = true).
  { unfold truthy. apply String.eqb_neq in Hs. by rewrite Hs. }
  rewrite Ht. cbn [negb].
  destruct (find_network_some cfgs s cfg Hin Hcfg) as [cfg' ->].
  change (ToString (VStr s)) with (@inr exn string s). cbv iota beta.
  unfold lookupFacilitator. by rewrite Hf, Hown.
Qed.

(** X19.  A tool registered as paid with an empty list of payment options
    can never be run: every call to it resolves to an error-flagged result,
    nothing is sent, the callback does not run and the state is as before. *)
Theorem no_payment_options_no_execution :
  cfgs = [] ->
  exists r,
    handleCallTool env tools server_config request st
      = (Normal (NewResult r), st) /\
    isError r = Some true.
Proof.
  intros Hnil. unfold handleCallTool.
  rewrite Hregistered, Hpaid. cbv zeta. fold payment. rewrite Hnil.
  destruct (truthy payment); cbn [negb]; [|eexists; split; reflexivity].
  unfold try_catch, processPayment, bind, lift, throw, ret.
  destruct (JSON_parse_base64 env payment) as [e|dp];
    [eexists; split; reflexivity|].
  destruct (get_prop dp "network") as [e|n];
    [eexists; split; reflexivity|].
  destruct (truthy n); cbn; [|eexists; split; reflexivity].
  destruct (ToString n); eexists; split; reflexivity.
Qed.

End BeforeVerification.
(** ** Paid tools: what is sent and what the callback is given *)

#[local] Arguments sentRequest : simpl never.
#[local] Arguments answer : simpl never.
#[local] Arguments normalized : simpl never.
#[local] Arguments lookupFacilitator : simpl never.

Lemma callFacilitator_exchange env a f cfg dp rq st out st' :
  callFacilitator env a f cfg dp rq st = (out, st') ->
  exists res,
    out = outcome_of res /\
    normalized a f (answer env a f (facilitatorPayload f cfg dp rq) (trace st))
      = res /\
    st' =
      {| trace :=
           trace st ++
           [EvFetch
              (sentRequest env a f (facilitatorPayload f cfg dp rq) (trace st))
              (answer env a f (facilitatorPayload f cfg dp rq) (trace st));
            EvFacilitator a res];
         heap := heap st |}.
Proof. rewrite callFacilitator_unfold. intros [= <- <-]. eauto. Qed.

Lemma app_eq_self {A} (l k : list A) : l = l ++ k -> k = [].
Proof. intros H. apply (app_inv_head l). by rewrite app_nil_r. Qed.

Section PaidExchange.

Variable env : Env.
Variable tools : list ToolDefinition.
Variable server_config : ServerConfig.
Variable toolDef : ToolDefinition.
Variable request : CallToolRequest.
Variable cfgs : list PaymentConfig.
Variable st : State.

Hypothesis Hregistered : registered tools request toolDef.
Hypothesis Hpaid : paymentOptions toolDef = Some cfgs.

Local Opaque errorResult.

(** The events of a call to a paid tool, in full: nothing; or the verify
    exchange for the decoded proof, the matched configuration and its
    facilitator; then possibly the run of the callback on the parsed
    arguments; then possibly the settle exchange for the same payload. *)
Lemma handleCallTool_paid_exchange out st' evs :
  handleCallTool env tools server_config request st = (out, st') ->
  trace st' = trace st ++ evs ->
  evs = [] \/
  exists dp n key cfg f vres,
    JSON_parse_base64 env (optional_prop (params_meta request) "x402.payment")
      = inr dp /\
    get_prop dp "network" = inr n /\
    find (network_is n) cfgs = Some cfg /\
    ToString n = inr key /\
    lookupFacilitator server_config key = Some f /\
    let payload :=
      facilitatorPayload f cfg dp
        (buildPaymentRequirements env server_config toolDef
           (params_name request) cfg) in
    normalized verify f (answer env verify f payload (trace st)) = vres /\
    let verified :=
      [EvFetch (sentRequest env verify f payload (trace st))
         (answer env verify f payload (trace st));
       EvFacilitator verify vres] in
    (evs = verified \/
     exists args res store,
       paramsSchema toolDef (params_arguments request) = inr args /\
       callback toolDef args (params_meta request)
         {| trace := trace st ++ verified; heap := heap st |} = (res, store) /\
       let executed :=
         verified ++
         [EvHandler (name toolDef) args (params_meta request) res store] in
       (evs = executed \/
        exists sres,
          normalized settle f
            (answer env settle f payload (trace st ++ executed)) = sres /\
          evs = executed ++
                [EvFetch
                   (sentRequest env settle f payload (trace st ++ executed))
                   (answer env settle f payload (trace st ++ executed));
                 EvFacilitator settle sres])).
Proof.
  unfold handleCallTool. rewrite Hregistered, Hpaid. cbv zeta.
  unfold try_catch, processPayment, settlePayment, try_catch, invoke,
    read_isError, set_payment_response, bind, lift, throw, ret.
  intros Hrun.
  repeat (first
            [ match goal with
              | H : callFacilitator _ _ _ _ _ _ _ = _ |- _ =>
                  apply callFacilitator_exchange in H
                    as ([?|?] & ? & ? & ?)
              end
            | case_match ];
          simplify_eq/=).
  all: cbn [trace]; rewrite <- ?app_assoc; cbn [app]; intros Htr.
  all: first [ apply app_inv_head in Htr as <-
             | (left; by apply app_eq_self in Htr) ].
  all: right; eexists _, _, _, _, _, _;
    do 5 (split; [first [eassumption|reflexivity]|]);
    cbv zeta; (split; [eassumption|]).
  all: try (by left).
  all: right; eexists _, _, _.
  all: (split; [first [eassumption|reflexivity]|]).
  all: (split; [first [eassumption|reflexivity]|]).
  all: cbv zeta; cbn [app].
  all: try (left; reflexivity).
  all: right; eexists.
  all: repeat match goal with
              | H : context [(_ ++ _) ++ _] |- _ =>
                  rewrite <- app_assoc in H; cbn [app] in H
              end.
  all: split; [eassumption|reflexivity].
Qed.

Lemma sentRequest_body a f payload tr :
  req_body (sentRequest env a f payload tr) = JSON_stringify payload /\
  req_method (sentRequest env a f payload tr) = "POST".
Proof.
  unfold sentRequest.
  by destruct (type f) as [[]|], (okxCredentials f).
Qed.

(** X20.  The arguments are checked only after the payment was verified.
    When the schema rejects the arguments of a call to a paid tool, the
    callback does not run and no settle request is sent, but the proof, if
    it got that far, has been sent for verification all the same; and once
    it is verified the call resolves to [Payment processing error] with the
    message of the schema's error, not to a validation failure thrown to the
    caller. *)
Theorem arguments_checked_after_verification out st' evs e :
  paramsSchema toolDef (params_arguments request) = inl e ->
  handleCallTool env tools server_config request st = (out, st') ->
  trace st' = trace st ++ evs ->
  (forall ev, ev ∈ evs -> is_handler ev = false /\ is_settle ev = false) /\
  (forall vr,
      EvFacilitator verify (inr vr) ∈ evs ->
      flagged vr "isValid" = true ->
      out = Normal (NewResult (processingError e))).
Proof.
  intros Hargs Hrun Htr.
  destruct (handleCallTool_paid_exchange _ _ _ Hrun Htr)
    as [Hevs|(dp & n & key & cfg & f & vres & _ & _ & _ & _ & _ & _ & Hevs)].
  { subst evs. split; intros ? Hin; by apply elem_of_nil in Hin. }
  cbv zeta in Hevs.
  destruct Hevs as [Hevs|(args & ? & ? & Hargs' & _)]; [|congruence].
  split.
  - intros ev Hin. rewrite Hevs in Hin.
    repeat match goal with
           | H : _ ∈ [] |- _ => by apply elem_of_nil in H
           | H : _ ∈ _ :: _ |- _ => apply elem_of_cons in H as [->|H]
           end; done.
  - intros vr Hin Hvalid.
    destruct (paid_run _ _ _ _ _ _ _ Hregistered Hpaid _ _ _ Hrun Htr)
      as (reply & -> & Hpr).
    rewrite Hevs in Hin, Hpr. clear Hevs.
    inversion Hpr;
      repeat match goal with
             | H : _ ∈ [] |- _ => by apply elem_of_nil in H
             | H : _ ∈ _ :: _ |- _ => apply elem_of_cons in H as [H|H]
             end; simplify_eq/=;
      try done;
      first [ congruence
            | unfold flagged in Hvalid;
              match goal with
              | H : get_prop _ "isValid" = _ |- _ => rewrite H in Hvalid
              end; congruence ].
Qed.
(** X21.  The callback of a paid tool is given what the schema's [parse]
    returned for the arguments of the request, not the raw arguments, and
    the metadata of the request as it came, payment proof included; it runs
    after the two events of the verification, on the store as it was when
    the call started. *)
Theorem callback_given_parsed_arguments out st' evs tool args extra res store :
  handleCallTool env tools server_config request st = (out, st') ->
  trace st' = trace st ++ evs ->
  EvHandler tool args extra res store ∈ evs ->
  tool = name toolDef /\
  extra = params_meta request /\
  paramsSchema toolDef (params_arguments request) = inr args /\
  callback toolDef args extra
    {| trace := trace st ++ take 2 evs; heap := heap st |} = (res, store).
Proof.
  intros Hrun Htr Hin.
  destruct (handleCallTool_paid_exchange _ _ _ Hrun Htr)
    as [Hevs|(dp & n & key & cfg & f & vres & _ & _ & _ & _ & _ & _ & Hevs)].
  { subst evs. by apply elem_of_nil in Hin. }
  cbv zeta in Hevs.
  destruct Hevs as [Hevs|(args' & res' & store' & Hargs & Hcb & Hevs)].
  { subst evs.
    repeat match goal with
           | H : _ ∈ [] |- _ => by apply elem_of_nil in H
           | H : _ ∈ _ :: _ |- _ => apply elem_of_cons in H as [H|H]
           end; done. }
  cbv zeta in Hevs. cbn [app] in Hevs.
  destruct Hevs as [Hevs|(sres & _ & Hevs)]; subst evs;
    repeat match goal with
           | H : _ ∈ [] |- _ => by apply elem_of_nil in H
           | H : _ ∈ _ :: _ |- _ => apply elem_of_cons in H as [H|H]
           end; simplify_eq/=; done.
Qed.

Lemma find_network_string n cfg :
  find (network_is n) cfgs = Some cfg -> n = VStr (network cfg).
Proof.
  intros Hfind. apply find_some in Hfind as [_ Hn].
  unfold network_is in Hn. destruct n; try done.
  by apply String.eqb_eq in Hn as ->.
Qed.

(** X22.  Every request of a call to a paid tool is made for the submitted
    proof itself: the network of the proof is a string, the payment option
    is the first one of the tool with that network, and the requirement is
    built from that option.  The facilitator is what
    [config.facilitators[network]] gives: the entry configured under that
    name or, when there is none and the name is that of a member that the
    table inherits from [Object.prototype], that member, which has no
    [url], so that the requests go to [undefined/<action>].  The first
    request is the verify request and the only other one, the fourth
    event, is the settle request for the same payload. *)
Theorem requests_follow_the_proof out st' evs :
  handleCallTool env tools server_config request st = (out, st') ->
  trace st' = trace st ++ evs ->
  evs <> [] ->
  exists dp s cfg f,
    JSON_parse_base64 env (optional_prop (params_meta request) "x402.payment")
      = inr dp /\
    get_prop dp "network" = inr (VStr s) /\
    find (network_is (VStr s)) cfgs = Some cfg /\
    (facilitators server_config !! s = Some f \/
     facilitators server_config !! s = None /\
     is_Object_prototype_member s = true /\
     f = {| url := "undefined"; type := None; okxCredentials := None |}) /\
    forall i q r,
      evs !! i = Some (EvFetch q r) ->
      exists a,
        (i = 0%nat /\ a = verify \/ i = 3%nat /\ a = settle) /\
        q = sentRequest env a f
              (facilitatorPayload f cfg dp
                 (buildPaymentRequirements env server_config toolDef
                    (params_name request) cfg))
              (trace st ++ take i evs) /\
        r = net env (trace st ++ take i evs) q.
Proof.
  intros Hrun Htr Hne.
  destruct (handleCallTool_paid_exchange _ _ _ Hrun Htr)
    as [Hevs|(dp & n & key & cfg & f & vres
              & Hdp & Hn & Hcfg & Hkey & Hf & _ & Hevs)];
    [done|].
  pose proof (find_network_string _ _ Hcfg) as ->.
  injection Hkey as <-.
  exists dp, (network cfg), cfg, f. split_and!; try done.
  { unfold lookupFacilitator in Hf.
    destruct (facilitators server_config !! network cfg) as [f'|] eqn:Hown.
    - left. congruence.
    - right. destruct (is_Object_prototype_member (network cfg));
        by simplify_eq. }
  cbv zeta in Hevs.
  destruct Hevs as [Hevs|(args' & res' & store' & _ & _ & Hevs)];
    [|cbv zeta in Hevs; cbn [app] in Hevs;
      destruct Hevs as [Hevs|(sres & _ & Hevs)]];
    subst evs; intros i q r Hi;
    destruct i as [|[|[|[|[|?]]]]]; simplify_eq/=;
    eexists; (split; [by (left + right)|]);
    rewrite ?app_nil_r; done.
Qed.

(** X23.  The settle request carries exactly the body of the verify request:
    any two requests of one call to a paid tool are POSTs with the same JSON
    text, so that what is settled is what was verified. *)
Theorem settle_repeats_verified_payload out st' evs i j q r q' r' :
  handleCallTool env tools server_config request st = (out, st') ->
  trace st' = trace st ++ evs ->
  evs !! i = Some (EvFetch q r) ->
  evs !! j = Some (EvFetch q' r') ->
  req_body q' = req_body q /\
  req_method q = "POST" /\ req_method q' = "POST".
Proof.
  intros Hrun Htr Hi Hj.
  destruct (handleCallTool_paid_exchange _ _ _ Hrun Htr)
    as [Hevs|(dp & n & key & cfg & f & vres & _ & _ & _ & _ & _ & _ & Hevs)].
  { by subst evs. }
  cbv zeta in Hevs.
  destruct Hevs as [Hevs|(args' & res' & store' & _ & _ & Hevs)];
    [|cbv zeta in Hevs; cbn [app] in Hevs;
      destruct Hevs as [Hevs|(sres & _ & Hevs)]];
    subst evs;
    destruct i as [|[|[|[|[|?]]]]]; simplify_eq/=;
    destruct j as [|[|[|[|[|?]]]]]; simplify_eq/=;
    split_and!; try apply sentRequest_body;
    transitivity (JSON_stringify
      (facilitatorPayload f cfg dp
         (buildPaymentRequirements env server_config toolDef
            (params_name request) cfg)));
    first [apply sentRequest_body | symmetry; apply sentRequest_body].
Qed.

End PaidExchange.
(** * Further facts: what is offered and what is verified *)

Section Offer.

Variable env : Env.
Variable server_config : ServerConfig.

Lemma obj_get_cons k k' (v : value) fs :
  obj_get k ((k', v) :: fs) = if String.eqb k' k then Some v else obj_get k fs.
Proof. reflexivity. Qed.

Lemma requirements_sent f cfg dp rq :
  prop (facilitatorPayload f cfg dp rq) "paymentRequirements" =
    VObj (if is_okx f then obj_delete "network" (spread rq)
          else obj_set "network" (VStr (network cfg)) (spread rq)).
Proof. unfold facilitatorPayload. by destruct (is_okx f). Qed.

(** X24.  What is verified is what was offered. The requirement sent to the
    facilitator for a payment option has, field by field, the values of the
    entry that the payment-required challenge lists for that option: same
    amount, recipient, asset, resource, description and the rest. Only
    [network] can differ: a facilitator of type okx is sent none. *)
Theorem requirement_is_the_offer toolDef toolName cfg f dp k :
  let required :=
    prop (facilitatorPayload f cfg dp
            (buildPaymentRequirements env server_config toolDef toolName cfg))
      "paymentRequirements" in
  let offered := acceptsEntry env server_config toolDef toolName cfg in
  (k <> "network" -> prop required k = prop offered k) /\
  prop required "network" =
    if is_okx f then VUndefined else prop offered "network".
Proof.
  cbv zeta.
  assert (Hnet : k <> "network" -> String.eqb "network" k = false).
  { intros Hk. by apply String.eqb_neq, not_eq_sym. }
  rewrite requirements_sent.
  unfold buildPaymentRequirements, acceptsEntry, prop. cbn [spread].
  destruct (is_okx f); (split; [intros Hk|]).
  - rewrite obj_get_delete_ne by done.
    rewrite !obj_get_cons, (Hnet Hk). done.
  - by rewrite obj_get_delete.
  - rewrite obj_get_set_ne by done.
    rewrite !obj_get_cons, (Hnet Hk). done.
  - rewrite obj_get_set. reflexivity.
Qed.

Lemma trim_start_blank c s :
  is_blank c = true -> trim_start (String c s) = trim_start s.
Proof.
  intros Hc. unfold trim_start. cbn [String.length trim_start_fuel].
  assert (H : leading_space (String c s) = Some (String c "")).
  { revert Hc. unfold is_blank.
    destruct c as [[] [] [] [] [] [] [] []]; try discriminate; reflexivity. }
  by rewrite H.
Qed.

Lemma parseFloat_blanks pad s :
  all_blank pad = true -> parseFloat (pad +:+ s) = parseFloat s.
Proof.
  induction pad as [|c pad IH]; simpl; [done|].
  intros [Hc Hpad]%andb_true_iff. specialize (IH Hpad).
  unfold parseFloat in *.
  change (String c pad +:+ s) with (String c (pad +:+ s)).
  by rewrite trim_start_blank.
Qed.

(** X25.  Blanks before a price are ignored: a price written after spaces,
    tabs or line breaks gives, in the challenge and in the requirement, the
    amount of the price without them. *)
Theorem blanks_before_price_ignored toolDef toolName cfg cfg' pad :
  all_blank pad = true ->
  price cfg' = pad +:+ price cfg ->
  prop (buildPaymentRequirements env server_config toolDef toolName cfg')
    "maxAmountRequired"
  = prop (buildPaymentRequirements env server_config toolDef toolName cfg)
      "maxAmountRequired" /\
  prop (acceptsEntry env server_config toolDef toolName cfg')
    "maxAmountRequired"
  = prop (acceptsEntry env server_config toolDef toolName cfg)
      "maxAmountRequired".
Proof.
  intros Hpad Hprice.
  unfold buildPaymentRequirements, acceptsEntry.
  change (prop (VObj ?fs) ?x) with (default VUndefined (obj_get x fs)).
  cbn [obj_get String.eqb Ascii.eqb Bool.eqb default from_option].
  unfold priceInSmallestUnit. rewrite Hprice, parseFloat_blanks by done.
  done.
Qed.

End Offer.

(** * The further facts, on the sample deployments *)

Lemma unregistered_tool_not_found_witness :
  Forall (fun c => call_name c <> params_name (Cases.call "missing" VUndefined))
    Cases.setupTools /\
  Cases.run (Cases.call "missing" VUndefined) =
    (Throw (ErrorObj "Tool not found: missing"), Sample.start).
Proof.
  assert (H : Forall
                (fun c => call_name c
                          <> params_name (Cases.call "missing" VUndefined))
                Cases.setupTools)
    by (repeat constructor; discriminate).
  split; [exact H|].
  exact (unregistered_tool_not_found Cases.env Cases.setupTools
           Cases.server_config (Cases.call "missing" VUndefined) Sample.start
           H).
Defined.

Lemma first_registration_wins_witness :
  Cases.setupTools =
    [Cases.premium; Cases.failing; Cases.picky] ++
    Cases.echo :: [Cases.closed; Cases.premium_again] /\
  registered Cases.tools (Cases.call "echo" VUndefined)
    (definition_of Cases.echo) /\
  Cases.setupTools =
    [] ++ Cases.premium ::
          [Cases.failing; Cases.picky; Cases.echo; Cases.closed;
           Cases.premium_again] /\
  registered Cases.tools (Cases.call "premium_analysis" VUndefined)
    (definition_of Cases.premium).
Proof.
  split; [reflexivity|]. split.
  - apply (first_registration_wins Cases.setupTools
             [Cases.premium; Cases.failing; Cases.picky] Cases.echo
             [Cases.closed; Cases.premium_again]
             (Cases.call "echo" VUndefined) eq_refl eq_refl).
    repeat constructor; discriminate.
  - split; [reflexivity|].
    apply (first_registration_wins Cases.setupTools [] Cases.premium
             [Cases.failing; Cases.picky; Cases.echo; Cases.closed;
              Cases.premium_again]
             (Cases.call "premium_analysis" VUndefined) eq_refl eq_refl).
    constructor.
Defined.

Lemma object_schema_listed_witness :
  NoDup (map fst Cases.params_shape) /\
  prop (inputSchemaOf (ZodObject Cases.params_shape)) "properties"
    = VObj (map (fun f => (f.1, zodToJsonSchema f.2)) Cases.params_shape) /\
  prop (inputSchemaOf (ZodObject Cases.params_shape)) "required"
    = VArr (map (fun f => VStr f.1)
              (filter (fun f => is_ZodOptional f.2 = false)
                 Cases.params_shape)) /\
  forall k z,
    (k, z) ∈ Cases.params_shape ->
    prop (prop (inputSchemaOf (ZodObject Cases.params_shape)) "properties") k
      = zodToJsonSchema z /\
    (VStr k ∈ map (fun f => VStr f.1)
                (filter (fun f => is_ZodOptional f.2 = false)
                   Cases.params_shape)
     <-> is_ZodOptional z = false).
Proof.
  assert (H : NoDup (map fst Cases.params_shape))
    by (apply (bool_decide_unpack _); vm_compute; exact I).
  split; [exact H|].
  exact (object_schema_listed Cases.params_shape H).
Defined.

Lemma facilitator_http_error_thrown_witness :
  answer Cases.env verify Cases.busy_facilitator
    (facilitatorPayload Cases.busy_facilitator (Cases.option_on "busy")
       (Sample.decoded "busy") (VObj []))
    (trace Sample.start) = inr Cases.rate_limited /\
  ok Cases.rate_limited = false /\
  (callFacilitator Cases.env verify Cases.busy_facilitator
     (Cases.option_on "busy") (Sample.decoded "busy") (VObj [])
     Sample.start).1 =
    match res_text Cases.rate_limited with
    | inl e => Throw e
    | inr errorText =>
        Throw (ErrorObj ("Facilitator " +:+ action_name verify +:+ " failed: "
                         +:+ errorText))
    end.
Proof.
  split; [reflexivity|]. split; [reflexivity|].
  exact (facilitator_http_error_thrown Cases.env verify Cases.busy_facilitator
           (Cases.option_on "busy") (Sample.decoded "busy") (VObj [])
           Sample.start Cases.rate_limited eq_refl eq_refl).
Defined.

Lemma okx_envelope_unwrapped_witness :
  type Sample.okx_facilitator = Some okx /\
  answer Sample.env verify Sample.okx_facilitator
    (facilitatorPayload Sample.okx_facilitator Sample.xlayer_config
       (Sample.decoded "xlayer") (VObj []))
    (trace Sample.start) = inr Cases.okx_response /\
  ok Cases.okx_response = true /\
  res_json Cases.okx_response = inr Cases.okx_answer /\
  get_prop Cases.okx_answer "code" = inr (VStr "0") /\
  (forall d rest,
      VStr "0" = VStr "0" -> prop Cases.okx_answer "data" = VArr (d :: rest) ->
      (callFacilitator Sample.env verify Sample.okx_facilitator
         Sample.xlayer_config (Sample.decoded "xlayer") (VObj [])
         Sample.start).1 = Normal d) /\
  (VStr "0" <> VStr "0" ->
   (callFacilitator Sample.env verify Sample.okx_facilitator
      Sample.xlayer_config (Sample.decoded "xlayer") (VObj [])
      Sample.start).1 =
     Throw
       (if truthy (prop Cases.okx_answer "msg") then
          match ToString (prop Cases.okx_answer "msg") with
          | inr message => ErrorObj message
          | inl error => error
          end
        else ErrorObj "OKX facilitator error") /\
   (forall message,
       prop Cases.okx_answer "msg" = VStr message -> message <> "" ->
       (callFacilitator Sample.env verify Sample.okx_facilitator
          Sample.xlayer_config (Sample.decoded "xlayer") (VObj [])
          Sample.start).1 = Throw (ErrorObj message)) /\
   (forall fields own,
       prop Cases.okx_answer "msg" = VObj fields ->
       obj_get "toString" fields = Some own ->
       (callFacilitator Sample.env verify Sample.okx_facilitator
          Sample.xlayer_config (Sample.decoded "xlayer") (VObj [])
          Sample.start).1 =
         Throw (ErrorObj "Cannot convert object to primitive value"))).
Proof.
  assert (Hans :
    answer Sample.env verify Sample.okx_facilitator
      (facilitatorPayload Sample.okx_facilitator Sample.xlayer_config
         (Sample.decoded "xlayer") (VObj []))
      (trace Sample.start) = inr Cases.okx_response)
    by (vm_compute; reflexivity).
  split; [reflexivity|]. split; [exact Hans|]. split; [reflexivity|].
  split; [reflexivity|]. split; [reflexivity|].
  exact (okx_envelope_unwrapped Sample.env verify Sample.okx_facilitator
           Sample.xlayer_config (Sample.decoded "xlayer") (VObj [])
           Sample.start Cases.okx_response Cases.okx_answer (VStr "0")
           eq_refl Hans eq_refl eq_refl eq_refl).
Defined.

Lemma free_tool_runs_unpaid_witness :
  registered Cases.tools Cases.free_call (definition_of Cases.echo) /\
  paymentOptions (definition_of Cases.echo) = None /\
  exists evs,
    trace (Cases.run Cases.free_call).2 = trace Sample.start ++ evs /\
    (forall ev, ev ∈ evs -> is_fetch ev = false /\ is_facilitator ev = false) /\
    match paramsSchema (definition_of Cases.echo)
            (params_arguments Cases.free_call) with
    | inl e =>
        (Cases.run Cases.free_call).1 = Throw e /\ evs = [] /\
        heap (Cases.run Cases.free_call).2 = heap Sample.start
    | inr args =>
        exists res,
          callback (definition_of Cases.echo) args
            (params_meta Cases.free_call) Sample.start
            = (res, heap (Cases.run Cases.free_call).2) /\
          evs = [EvHandler (name (definition_of Cases.echo)) args
                   (params_meta Cases.free_call) res
                   (heap (Cases.run Cases.free_call).2)] /\
          (Cases.run Cases.free_call).1 =
            match res with
            | inl e => Throw e
            | inr l => Normal (HandlerResult l)
            end
    end.
Proof.
  split; [reflexivity|]. split; [reflexivity|].
  exact (free_tool_runs_unpaid Cases.env Cases.tools Cases.server_config
           (definition_of Cases.echo) Cases.free_call
           Sample.start eq_refl eq_refl _ _ (surjective_pairing _)).
Defined.

Lemma paid_call_never_throws_witness :
  registered Cases.tools Cases.busy_call (definition_of Cases.premium) /\
  paymentOptions (definition_of Cases.premium) = Some Cases.payments /\
  exists reply,
    (Cases.run Cases.busy_call).1 = Normal reply /\
    match reply with
    | NewResult r =>
        isError r = Some true /\ _meta r = None /\
        exists payload, r = errorResult payload
    | HandlerResult l =>
        exists args store,
          EvHandler (name (definition_of Cases.premium)) args
            (params_meta Cases.busy_call) (inr l) store
            ∈ trace (Cases.run Cases.busy_call).2
    end.
Proof.
  split; [reflexivity|]. split; [reflexivity|].
  exact (paid_call_never_throws Cases.env Cases.tools Cases.server_config
           (definition_of Cases.premium) Cases.busy_call Cases.payments
           Sample.start eq_refl eq_refl _ _ _ (surjective_pairing _) eq_refl).
Defined.

Lemma success_implies_settlement_witness :
  registered Cases.tools Cases.settled_call (definition_of Cases.premium) /\
  paymentOptions (definition_of Cases.premium) = Some Cases.payments /\
  (Cases.run Cases.settled_call).1 = Normal (HandlerResult 1%positive) /\
  heap (Cases.run Cases.settled_call).2 !! 1%positive
    = Some Cases.confirmed_analysis /\
  unflagged Cases.confirmed_analysis = true /\
  exists sr,
    settled (trace (Cases.run Cases.settled_call).2) sr /\
    obj_get "x402.payment-response"
      (default [] (_meta Cases.confirmed_analysis))
      = Some (paymentResponse sr).
Proof.
  assert (Hout : (Cases.run Cases.settled_call).1
                 = Normal (HandlerResult 1%positive))
    by (vm_compute; reflexivity).
  assert (Hheap : heap (Cases.run Cases.settled_call).2 !! 1%positive
                  = Some Cases.confirmed_analysis)
    by (vm_compute; reflexivity).
  split; [reflexivity|]. split; [reflexivity|]. split; [exact Hout|].
  split; [exact Hheap|]. split; [reflexivity|].
  exact (success_implies_settlement Cases.env Cases.tools Cases.server_config
           (definition_of Cases.premium) Cases.settled_call Cases.payments
           Sample.start eq_refl eq_refl _ _ _ _ _
           (surjective_pairing _) eq_refl Hout Hheap eq_refl).
Defined.

Lemma paid_call_bounded_witness :
  registered Cases.tools Cases.settled_call (definition_of Cases.premium) /\
  paymentOptions (definition_of Cases.premium) = Some Cases.payments /\
  (length (List.filter is_fetch (trace (Cases.run Cases.settled_call).2))
   <= 2)%nat /\
  (length (List.filter is_handler (trace (Cases.run Cases.settled_call).2))
   <= 1)%nat /\
  (length (List.filter (fun ev => is_facilitator ev && negb (is_settle ev))
             (trace (Cases.run Cases.settled_call).2)) <= 1)%nat.
Proof.
  split; [reflexivity|]. split; [reflexivity|].
  exact (paid_call_bounded Cases.env Cases.tools Cases.server_config
           (definition_of Cases.premium) Cases.settled_call Cases.payments
           Sample.start eq_refl eq_refl _ _ _ (surjective_pairing _) eq_refl).
Defined.

Lemma failed_verification_ends_call_witness :
  registered Cases.tools Cases.rejected_call (definition_of Cases.premium) /\
  paymentOptions (definition_of Cases.premium) = Some Cases.payments /\
  EvFacilitator verify (inr Cases.rejection)
    ∈ trace (Cases.run Cases.rejected_call).2 /\
  verify_failed (inr Cases.rejection) /\
  exists q a r,
    trace (Cases.run Cases.rejected_call).2
      = [EvFetch q a; EvFacilitator verify (inr Cases.rejection)] /\
    (Cases.run Cases.rejected_call).1 = Normal (NewResult r) /\
    verification_failure_reply (inr Cases.rejection) r /\
    heap (Cases.run Cases.rejected_call).2 = heap Sample.start.
Proof.
  assert (Hin : EvFacilitator verify (inr Cases.rejection)
                ∈ trace (Cases.run Cases.rejected_call).2)
    by (vm_compute; repeat constructor).
  split; [reflexivity|]. split; [reflexivity|]. split; [exact Hin|].
  split; [reflexivity|].
  exact (failed_verification_ends_call Cases.env Cases.tools
           Cases.server_config (definition_of Cases.premium)
           Cases.rejected_call Cases.payments Sample.start eq_refl eq_refl
           _ _ _ _ (surjective_pairing _) eq_refl Hin eq_refl).
Defined.

Lemma failed_execution_not_charged_witness :
  registered Cases.tools Cases.failing_call (definition_of Cases.failing) /\
  paymentOptions (definition_of Cases.failing) = Some Cases.payments /\
  EvHandler "failing" (params_arguments Cases.failing_call)
    (params_meta Cases.failing_call) (inr 1%positive)
    (<[1%positive := Cases.failure]> (heap Sample.start))
    ∈ trace (Cases.run Cases.failing_call).2 /\
  execution_failed (inr 1%positive)
    (<[1%positive := Cases.failure]> (heap Sample.start)) /\
  exists q a vr reply,
    trace (Cases.run Cases.failing_call).2
      = [EvFetch q a; EvFacilitator verify (inr vr);
         EvHandler "failing" (params_arguments Cases.failing_call)
           (params_meta Cases.failing_call) (inr 1%positive)
           (<[1%positive := Cases.failure]> (heap Sample.start))] /\
    (Cases.run Cases.failing_call).1 = Normal reply /\
    execution_failure_reply (inr 1%positive)
      (<[1%positive := Cases.failure]> (heap Sample.start)) reply /\
    heap (Cases.run Cases.failing_call).2
      = <[1%positive := Cases.failure]> (heap Sample.start).
Proof.
  assert (Hin : EvHandler "failing" (params_arguments Cases.failing_call)
                  (params_meta Cases.failing_call) (inr 1%positive)
                  (<[1%positive := Cases.failure]> (heap Sample.start))
                ∈ trace (Cases.run Cases.failing_call).2)
    by (vm_compute; repeat constructor).
  assert (Hfail : execution_failed (inr 1%positive)
                    (<[1%positive := Cases.failure]> (heap Sample.start)))
    by (vm_compute; reflexivity).
  split; [reflexivity|]. split; [reflexivity|]. split; [exact Hin|].
  split; [exact Hfail|].
  exact (failed_execution_not_charged Cases.env Cases.tools
           Cases.server_config (definition_of Cases.failing)
           Cases.failing_call Cases.payments Sample.start eq_refl eq_refl
           _ _ _ _ _ _ _ _ (surjective_pairing _) eq_refl Hin Hfail).
Defined.

Lemma falsy_payment_is_missing_witness :
  registered Cases.tools Cases.empty_payment_call
    (definition_of Cases.premium) /\
  paymentOptions (definition_of Cases.premium) = Some Cases.payments /\
  truthy (optional_prop (params_meta Cases.empty_payment_call) "x402.payment")
    = false /\
  handleCallTool Cases.env Cases.tools Cases.server_config
    Cases.empty_payment_call Sample.start =
    (Normal (NewResult (paymentRequired Cases.env Cases.server_config
                          (definition_of Cases.premium)
                          (params_name Cases.empty_payment_call)
                          Cases.payments)), Sample.start).
Proof.
  split; [reflexivity|]. split; [reflexivity|]. split; [reflexivity|].
  exact (falsy_payment_is_missing Cases.env Cases.tools Cases.server_config
           (definition_of Cases.premium) Cases.empty_payment_call
           Cases.payments Sample.start eq_refl eq_refl eq_refl).
Defined.

Lemma unsupported_network_refused_witness :
  registered Cases.tools Cases.object_call (definition_of Cases.premium) /\
  paymentOptions (definition_of Cases.premium) = Some Cases.payments /\
  truthy (optional_prop (params_meta Cases.object_call) "x402.payment")
    = true /\
  JSON_parse_base64 Cases.env
    (optional_prop (params_meta Cases.object_call) "x402.payment")
    = inr Cases.decoded_object /\
  get_prop Cases.decoded_object "network"
    = inr (VObj [ ("toString", VNum (of_Z 1)) ]) /\
  truthy (VObj [ ("toString", VNum (of_Z 1)) ]) = true /\
  Forall (fun cfg => VStr (network cfg) <> VObj [ ("toString", VNum (of_Z 1)) ])
    Cases.payments /\
  handleCallTool Cases.env Cases.tools Cases.server_config
    Cases.object_call Sample.start =
    (Normal (NewResult (processingError
       match ToString (VObj [ ("toString", VNum (of_Z 1)) ]) with
       | inr text =>
           ErrorObj ("Network '" +:+ text
                     +:+ "' is not an accepted payment option")
       | inl error => error
       end)), Sample.start) /\
  (forall text,
      VObj [ ("toString", VNum (of_Z 1)) ] = VStr text ->
      handleCallTool Cases.env Cases.tools Cases.server_config
        Cases.object_call Sample.start =
        (Normal (NewResult (errorResult
           (VObj [ ("error", VStr "Payment processing error");
                   ("details",
                     VStr ("Network '" +:+ text
                           +:+ "' is not an accepted payment option")) ]))),
         Sample.start)) /\
  (forall fields own,
      VObj [ ("toString", VNum (of_Z 1)) ] = VObj fields ->
      obj_get "toString" fields = Some own ->
      handleCallTool Cases.env Cases.tools Cases.server_config
        Cases.object_call Sample.start =
        (Normal (NewResult (errorResult
           (VObj [ ("error", VStr "Payment processing error");
                   ("details",
                     VStr "Cannot convert object to primitive value") ]))),
         Sample.start)).
Proof.
  assert (Hno : Forall (fun cfg => VStr (network cfg)
                                   <> VObj [ ("toString", VNum (of_Z 1)) ])
                  Cases.payments)
    by (repeat constructor; discriminate).
  split; [reflexivity|]. split; [reflexivity|]. split; [reflexivity|].
  split; [reflexivity|]. split; [reflexivity|]. split; [reflexivity|].
  split; [exact Hno|].
  exact (unsupported_network_refused Cases.env Cases.tools Cases.server_config
           (definition_of Cases.premium) Cases.object_call Cases.payments
           Sample.start eq_refl eq_refl Cases.decoded_object
           (VObj [ ("toString", VNum (of_Z 1)) ])
           eq_refl eq_refl eq_refl eq_refl Hno).
Defined.

Lemma unconfigured_facilitator_refused_witness :
  registered Cases.tools Cases.orphan_call (definition_of Cases.premium) /\
  paymentOptions (definition_of Cases.premium) = Some Cases.payments /\
  truthy (optional_prop (params_meta Cases.orphan_call) "x402.payment")
    = true /\
  JSON_parse_base64 Cases.env
    (optional_prop (params_meta Cases.orphan_call) "x402.payment")
    = inr (Sample.decoded "orphan") /\
  get_prop (Sample.decoded "orphan") "network" = inr (VStr "orphan") /\
  "orphan" <> "" /\
  Cases.option_on "orphan" ∈ Cases.payments /\
  network (Cases.option_on "orphan") = "orphan" /\
  facilitators Cases.server_config !! "orphan" = None /\
  is_Object_prototype_member "orphan" = false /\
  handleCallTool Cases.env Cases.tools Cases.server_config
    Cases.orphan_call Sample.start =
    (Normal (NewResult (errorResult
       (VObj [ ("error", VStr "Payment processing error");
               ("details",
                 VStr ("No facilitator configured for network "
                       +:+ "orphan")) ]))),
     Sample.start).
Proof.
  assert (Hne : "orphan" <> "") by discriminate.
  assert (Hin : Cases.option_on "orphan" ∈ Cases.payments)
    by repeat constructor.
  split; [reflexivity|]. split; [reflexivity|]. split; [reflexivity|].
  split; [reflexivity|]. split; [reflexivity|]. split; [exact Hne|].
  split; [exact Hin|]. split; [reflexivity|]. split; [reflexivity|].
  split; [reflexivity|].
  exact (unconfigured_facilitator_refused Cases.env Cases.tools
           Cases.server_config (definition_of Cases.premium)
           Cases.orphan_call Cases.payments Sample.start eq_refl eq_refl
           (Sample.decoded "orphan") "orphan" (Cases.option_on "orphan")
           eq_refl eq_refl eq_refl Hne Hin eq_refl eq_refl eq_refl).
Defined.

Lemma no_payment_options_no_execution_witness :
  registered Cases.tools Cases.closed_call (definition_of Cases.closed) /\
  paymentOptions (definition_of Cases.closed) = Some [] /\
  exists r,
    handleCallTool Cases.env Cases.tools Cases.server_config
      Cases.closed_call Sample.start
      = (Normal (NewResult r), Sample.start) /\
    isError r = Some true.
Proof.
  split; [reflexivity|]. split; [reflexivity|].
  exact (no_payment_options_no_execution Cases.env Cases.tools
           Cases.server_config (definition_of Cases.closed) Cases.closed_call
           [] Sample.start eq_refl eq_refl eq_refl).
Defined.

Lemma arguments_checked_after_verification_witness :
  registered Cases.tools Cases.picky_call (definition_of Cases.picky) /\
  paymentOptions (definition_of Cases.picky) = Some Cases.payments /\
  paramsSchema (definition_of Cases.picky) (params_arguments Cases.picky_call)
    = inl (ErrorObj "Required") /\
  (forall ev,
      ev ∈ trace (Cases.run Cases.picky_call).2 ->
      is_handler ev = false /\ is_settle ev = false) /\
  (forall vr,
      EvFacilitator verify (inr vr) ∈ trace (Cases.run Cases.picky_call).2 ->
      flagged vr "isValid" = true ->
      (Cases.run Cases.picky_call).1
        = Normal (NewResult (processingError (ErrorObj "Required")))).
Proof.
  split; [reflexivity|]. split; [reflexivity|]. split; [reflexivity|].
  exact (arguments_checked_after_verification Cases.env Cases.tools
           Cases.server_config (definition_of Cases.picky) Cases.picky_call
           Cases.payments Sample.start eq_refl eq_refl _ _ _
           (ErrorObj "Required") eq_refl (surjective_pairing _) eq_refl).
Defined.

Lemma callback_given_parsed_arguments_witness :
  registered Cases.tools Cases.settled_call (definition_of Cases.premium) /\
  paymentOptions (definition_of Cases.premium) = Some Cases.payments /\
  EvHandler "premium_analysis" (params_arguments Cases.settled_call)
    (params_meta Cases.settled_call) (inr 1%positive)
    (<[1%positive := Sample.analysis]> (heap Sample.start))
    ∈ trace (Cases.run Cases.settled_call).2 /\
  "premium_analysis" = name (definition_of Cases.premium) /\
  params_meta Cases.settled_call = params_meta Cases.settled_call /\
  paramsSchema (definition_of Cases.premium)
    (params_arguments Cases.settled_call)
    = inr (params_arguments Cases.settled_call) /\
  callback (definition_of Cases.premium) (params_arguments Cases.settled_call)
    (params_meta Cases.settled_call)
    {| trace :=
         trace Sample.start ++ take 2 (trace (Cases.run Cases.settled_call).2);
       heap := heap Sample.start |}
    = (inr 1%positive, <[1%positive := Sample.analysis]> (heap Sample.start)).
Proof.
  assert (Hin : EvHandler "premium_analysis"
                  (params_arguments Cases.settled_call)
                  (params_meta Cases.settled_call) (inr 1%positive)
                  (<[1%positive := Sample.analysis]> (heap Sample.start))
                ∈ trace (Cases.run Cases.settled_call).2)
    by (vm_compute; repeat constructor).
  split; [reflexivity|]. split; [reflexivity|]. split; [exact Hin|].
  exact (callback_given_parsed_arguments Cases.env Cases.tools
           Cases.server_config (definition_of Cases.premium)
           Cases.settled_call Cases.payments Sample.start eq_refl eq_refl
           _ _ _ _ _ _ _ _ (surjective_pairing _) eq_refl Hin).
Defined.

Lemma requests_follow_the_proof_witness :
  registered Cases.tools Cases.constructor_call (definition_of Cases.premium) /\
  paymentOptions (definition_of Cases.premium) = Some Cases.payments /\
  trace (Cases.run Cases.constructor_call).2 <> [] /\
  exists dp s cfg f,
    JSON_parse_base64 Cases.env
      (optional_prop (params_meta Cases.constructor_call) "x402.payment")
      = inr dp /\
    get_prop dp "network" = inr (VStr s) /\
    find (network_is (VStr s)) Cases.payments = Some cfg /\
    (facilitators Cases.server_config !! s = Some f \/
     facilitators Cases.server_config !! s = None /\
     is_Object_prototype_member s = true /\
     f = {| url := "undefined"; type := None; okxCredentials := None |}) /\
    forall i q r,
      trace (Cases.run Cases.constructor_call).2 !! i = Some (EvFetch q r) ->
      exists a,
        (i = 0%nat /\ a = verify \/ i = 3%nat /\ a = settle) /\
        q = sentRequest Cases.env a f
              (facilitatorPayload f cfg dp
                 (buildPaymentRequirements Cases.env Cases.server_config
                    (definition_of Cases.premium)
                    (params_name Cases.constructor_call) cfg))
              (trace Sample.start
               ++ take i (trace (Cases.run Cases.constructor_call).2)) /\
        r = net Cases.env
              (trace Sample.start
               ++ take i (trace (Cases.run Cases.constructor_call).2)) q.
Proof.
  assert (Hne : trace (Cases.run Cases.constructor_call).2 <> [])
    by (vm_compute; discriminate).
  split; [reflexivity|]. split; [reflexivity|]. split; [exact Hne|].
  exact (requests_follow_the_proof Cases.env Cases.tools Cases.server_config
           (definition_of Cases.premium) Cases.constructor_call Cases.payments
           Sample.start eq_refl eq_refl _ _ _ (surjective_pairing _) eq_refl
           Hne).
Defined.

Lemma settle_repeats_verified_payload_witness :
  registered Cases.tools Cases.settled_call (definition_of Cases.premium) /\
  paymentOptions (definition_of Cases.premium) = Some Cases.payments /\
  trace (Cases.run Cases.settled_call).2 !! 0%nat
    = Some (EvFetch
              (sentRequest Cases.env verify Sample.standard_facilitator
                 Cases.settled_payload [])
              (Sample.respond (VObj [ ("isValid", VBool true) ]))) /\
  trace (Cases.run Cases.settled_call).2 !! 3%nat
    = Some (EvFetch
              (sentRequest Cases.env settle Sample.standard_facilitator
                 Cases.settled_payload [])
              (Sample.respond Sample.receipt)) /\
  req_body (sentRequest Cases.env settle Sample.standard_facilitator
              Cases.settled_payload [])
    = req_body (sentRequest Cases.env verify Sample.standard_facilitator
                  Cases.settled_payload []) /\
  req_method (sentRequest Cases.env verify Sample.standard_facilitator
                Cases.settled_payload []) = "POST" /\
  req_method (sentRequest Cases.env settle Sample.standard_facilitator
                Cases.settled_payload []) = "POST".
Proof.
  assert (H0 : trace (Cases.run Cases.settled_call).2 !! 0%nat
    = Some (EvFetch
              (sentRequest Cases.env verify Sample.standard_facilitator
                 Cases.settled_payload [])
              (Sample.respond (VObj [ ("isValid", VBool true) ]))))
    by (vm_compute; reflexivity).
  assert (H3 : trace (Cases.run Cases.settled_call).2 !! 3%nat
    = Some (EvFetch
              (sentRequest Cases.env settle Sample.standard_facilitator
                 Cases.settled_payload [])
              (Sample.respond Sample.receipt)))
    by (vm_compute; reflexivity).
  split; [reflexivity|]. split; [reflexivity|]. split; [exact H0|].
  split; [exact H3|].
  exact (settle_repeats_verified_payload Cases.env Cases.tools
           Cases.server_config (definition_of Cases.premium)
           Cases.settled_call Cases.payments Sample.start eq_refl eq_refl
           _ _ _ _ _ _ _ _ _ (surjective_pairing _) eq_refl H0 H3).
Defined.

Lemma blanks_before_price_ignored_witness :
  all_blank " " = true /\
  price (Sample.priced " 0.5") = " " +:+ price (Sample.priced "0.5") /\
  prop (buildPaymentRequirements Sample.env Sample.server_config
          Sample.premium_analysis "premium_analysis" (Sample.priced " 0.5"))
    "maxAmountRequired"
  = prop (buildPaymentRequirements Sample.env Sample.server_config
            Sample.premium_analysis "premium_analysis" (Sample.priced "0.5"))
      "maxAmountRequired" /\
  prop (acceptsEntry Sample.env Sample.server_config
          Sample.premium_analysis "premium_analysis" (Sample.priced " 0.5"))
    "maxAmountRequired"
  = prop (acceptsEntry Sample.env Sample.server_config
            Sample.premium_analysis "premium_analysis" (Sample.priced "0.5"))
      "maxAmountRequired".
Proof.
  split; [reflexivity|]. split; [reflexivity|].
  exact (blanks_before_price_ignored Sample.env Sample.server_config
           Sample.premium_analysis "premium_analysis" (Sample.priced "0.5")
           (Sample.priced " 0.5") " " eq_refl eq_refl).
Defined.

Lemma confirmation_only_when_written_witness :
  registered Cases.tools Cases.settled_call (definition_of Cases.premium) /\
  paymentOptions (definition_of Cases.premium) = Some Cases.payments /\
  confirmation_only_on_success Cases.frozen_env Sample.start
    (Cases.frozen_run Cases.settled_call).2
    (Cases.frozen_run Cases.settled_call).1
    (trace (Cases.frozen_run Cases.settled_call).2) /\
  confirmation_only_on_success Cases.env Sample.start
    (Cases.run Cases.settled_call).2
    (Cases.run Cases.settled_call).1
    (trace (Cases.run Cases.settled_call).2).
Proof.
  split; [reflexivity|]. split; [reflexivity|]. split.
  - exact (confirmation_only_when_written Cases.frozen_env Cases.tools
             Cases.server_config (definition_of Cases.premium)
             Cases.settled_call Cases.payments Sample.start eq_refl eq_refl
             _ _ _ (surjective_pairing _) eq_refl).
  - exact (confirmation_only_when_written Cases.env Cases.tools
             Cases.server_config (definition_of Cases.premium)
             Cases.settled_call Cases.payments Sample.start eq_refl eq_refl
             _ _ _ (surjective_pairing _) eq_refl).
Defined.
